(** * Collaboration and team services: a shallow embedding

    This development embeds the backend services
    [collaborationService.ts] (class [CollaborationService] and the helper
    [computeConfidenceFromLogprobs]) and [teamService.ts] (class
    [TeamService]), together with the [handleFeedback] handler of the
    [TaskResults] page, and states the properties of the specification
    over that embedding.

    Conventions.
    - A JavaScript [number] that carries a probability or a confidence is
      a real number ([R]); integer-valued numbers (version numbers,
      feedback values, HTTP status codes) are [Z]; loop indices and
      [execution_order] are [nat].
    - [null] and [undefined] are [None].
    - Every Supabase request returns [{ data, error }]; whether the k-th
      request of a run fails is read from an oracle [db_error].  The k-th
      call to the LLM provider is answered by an oracle [llm].
    - Asynchronous methods are computations in the monad [M]: they thread
      the world (database, counters, request log, SSE stream) and either
      return a value or throw a [JsError].
    - A string is the string of the bytes of its UTF-8 encoding.
    - Calls to [logger] have no effect on any modelled state and are
      left out; a [catch] block that only logs and rethrows is the
      identity and is left out with them. *)

From Stdlib Require Import Reals Lra ZArith Ascii String Sorted.
From stdpp Require Import base option list strings gmap.

Local Open Scope string_scope.

(** ** JavaScript string helpers *)

Module Js.

(** [String.prototype.toLowerCase], on the ASCII letters. *)
Definition lower_ascii (c : ascii) : ascii :=
  let n := nat_of_ascii c in
  if (65 <=? n)%nat && (n <=? 90)%nat then ascii_of_nat (n + 32) else c.

Fixpoint toLowerCase (s : string) : string :=
  match s with
  | EmptyString => EmptyString
  | String c s' => String (lower_ascii c) (toLowerCase s')
  end.

(** [String.prototype.includes]. *)
Fixpoint includes (s sub : string) : bool :=
  String.prefix sub s ||
  match s with
  | EmptyString => false
  | String _ s' => includes s' sub
  end.

(** [String.prototype.trim] removes the white space and the line
    terminators of ECMAScript from both ends.  A string is read as the
    bytes of its UTF-8 encoding: the six ASCII ones (U+0009 to U+000D and
    U+0020) are one byte each, U+00A0 is two bytes, and U+1680, U+2000 to
    U+200A, U+2028, U+2029, U+202F, U+205F, U+3000 and U+FEFF are three
    bytes each. *)
Definition is_space (c : ascii) : bool :=
  let n := nat_of_ascii c in
  (n =? 32)%nat || ((9 <=? n)%nat && (n <=? 13)%nat).

Definition is_byte (n : nat) (c : ascii) : bool := (nat_of_ascii c =? n)%nat.

(** U+00A0 *)
Definition is_space2 (a b : ascii) : bool := is_byte 194 a && is_byte 160 b.

Definition is_space3 (a b c : ascii) : bool :=
  (* U+1680 *)
  (is_byte 225 a && is_byte 154 b && is_byte 128 c)
  (* U+2000 to U+200A *)
  || (is_byte 226 a && is_byte 128 b
      && (128 <=? nat_of_ascii c)%nat && (nat_of_ascii c <=? 138)%nat)
  (* U+2028, U+2029, U+202F *)
  || (is_byte 226 a && is_byte 128 b
      && (is_byte 168 c || is_byte 169 c || is_byte 175 c))
  (* U+205F *)
  || (is_byte 226 a && is_byte 129 b && is_byte 159 c)
  (* U+3000 *)
  || (is_byte 227 a && is_byte 128 b && is_byte 128 c)
  (* U+FEFF *)
  || (is_byte 239 a && is_byte 187 b && is_byte 191 c).

(** The string without the white space it starts with, for white space
    of one, two and three bytes given by [sp1], [sp2] and [sp3]. *)
Fixpoint strip (sp1 : ascii -> bool) (sp2 : ascii -> ascii -> bool)
    (sp3 : ascii -> ascii -> ascii -> bool) (s : string) : string :=
  match s with
  | EmptyString => EmptyString
  | String a s1 =>
      if sp1 a then strip sp1 sp2 sp3 s1
      else
        match s1 with
        | EmptyString => s
        | String b s2 =>
            if sp2 a b then strip sp1 sp2 sp3 s2
            else
              match s2 with
              | EmptyString => s
              | String c s3 =>
                  if sp3 a b c then strip sp1 sp2 sp3 s3 else s
              end
        end
  end.

Definition reverse (s : string) : string :=
  string_of_list_ascii (List.rev (list_ascii_of_string s)).

Definition trimStart (s : string) : string :=
  strip is_space is_space2 is_space3 s.

(** From the end, the bytes of a character come in reverse. *)
Definition trimEnd (s : string) : string :=
  reverse (strip is_space (fun a b => is_space2 b a)
                 (fun a b c => is_space3 c b a) (reverse s)).

Definition trim (s : string) : string := trimEnd (trimStart s).

(** [Array.prototype.join]. *)
Definition join (sep : string) (l : list string) : string :=
  String.concat sep l.

(** [x || d] on a possibly absent string: the empty string is falsy. *)
Definition or_else (x : option string) (d : string) : string :=
  match x with
  | Some s => if String.eqb s "" then d else s
  | None => d
  end.

(** A possibly [undefined] value inside a template literal. *)
Definition show (x : option string) : string :=
  match x with
  | Some s => s
  | None => "undefined"
  end.

End Js.

(** ** Errors *)

(** The fields of a thrown value or of a Supabase [error] object that
    the services read. *)
Record JsError := mkError {
  err_name : string;
  err_message : option string;
  err_status : option Z;
  err_code : option string;
  err_error_code : option string   (* error.error.code *)
}.

Definition simpleError (msg : string) : JsError :=
  mkError "Error" (Some msg) None None None.

Definition typeError (msg : string) : JsError :=
  mkError "TypeError" (Some msg) None None None.

(** [String(error)], as [Error.prototype.toString] computes it. *)
Definition error_to_string (e : JsError) : string :=
  match err_message e with
  | None => err_name e
  | Some m => if String.eqb m "" then err_name e else err_name e ++ ": " ++ m
  end.

(** The test that the three LLM call sites share:
    [error?.status === 404 || error?.code === 'model_not_found' ||
     error?.message?.toLowerCase().includes('model') ||
     error?.error?.code === 'model_not_found']. *)
Definition isModelError (error : JsError) : bool :=
  bool_decide (err_status error = Some 404%Z)
  || bool_decide (err_code error = Some "model_not_found")
  || match err_message error with
     | Some m => Js.includes (Js.toLowerCase m) "model"
     | None => false
     end
  || bool_decide (err_error_code error = Some "model_not_found").

(** ** Confidence from token log-probabilities *)

Record TokenLogprob := mkTokenLogprob {
  token : string;
  logprob : option R
}.

Record ChoiceLogprobs := mkChoiceLogprobs {
  content : option (list TokenLogprob)
}.

Local Open Scope R_scope.

(** [computeConfidenceFromLogprobs(logprobs)]. *)
Definition computeConfidenceFromLogprobs
    (logprobs : option ChoiceLogprobs) : option R :=
  match logprobs with
  | None => None
  | Some lp =>
      match content lp with
      | None => None
      | Some [] => None
      | Some toks =>
          let tokenLogprobs := omap logprob toks in
          match tokenLogprobs with
          | [] => None
          | _ =>
              let sumLogprobs := fold_left Rplus tokenLogprobs 0 in
              let meanLogprob := sumLogprobs / INR (length tokenLogprobs) in
              let geometricMean := exp meanLogprob in
              let confidenceScore := geometricMean * 100 in
              Some (Rmin 100 (Rmax 0 confidenceScore))
          end
      end
  end.

Local Close Scope R_scope.

(** ** Database rows *)

Definition Id := string.
Definition Timestamp := nat.

(** [collaborative_tasks] *)
Record TaskRow := mkTask {
  t_id : Id;
  t_team_id : Id;
  t_user_id : Id;
  t_title : string;
  t_description : string;
  t_status : string;
  t_priority : string;
  t_version_number : Z;
  t_parent_task_id : option Id;
  t_created_at : Timestamp;
  t_result : option string;
  t_completed_at : option Timestamp;
  t_feedback : option Z
}.

(** [task_assignments] *)
Record AssignmentRow := mkAssignment {
  a_id : Id;
  a_task_id : Id;
  a_agent_id : Id;
  a_subtask_description : option string;
  a_status : string;
  a_execution_order : nat;
  a_result : option string;
  a_started_at : option Timestamp;
  a_completed_at : option Timestamp
}.

(** [agent_contributions] *)
Record ContributionRow := mkContribution {
  c_id : Id;
  c_task_id : Id;
  c_agent_id : Id;
  c_contribution : string;
  c_confidence : R;
  c_created_at : Timestamp
}.

(** [team_members] *)
Record MemberRow := mkMember {
  m_id : Id;
  m_team_id : Id;
  m_agent_id : Id;
  m_role : string;
  m_is_primary_agent : bool;
  m_added_at : Timestamp
}.

(** [teams] *)
Record TeamRow := mkTeam {
  tm_id : Id;
  tm_name : string;
  tm_description : string;
  tm_user_id : Id;
  tm_objective : string;
  tm_status : string;
  tm_created_at : Timestamp;
  tm_updated_at : Timestamp
}.

(** [agents]: the columns that the two services select. *)
Record AgentRow := mkAgent {
  ag_id : Id;
  ag_user_id : Id;
  ag_name : string;
  ag_type : string;
  ag_status : option string;
  ag_avatar : option string;
  ag_configuration : option string
}.

(** [share_requests] *)
Record ShareRequestRow := mkShareRequest {
  sr_resource_type : string;
  sr_resource_id : Id;
  sr_requester_user_id : Id;
  sr_status : string
}.

(** [task_attachments] *)
Record AttachmentRow := mkAttachment {
  at_task_id : Id;
  at_original_file_name : string;
  at_file_type : option string;
  at_file_path : string;
  at_uploaded_at : Timestamp
}.

Record Db := mkDb {
  collaborative_tasks : list TaskRow;
  task_assignments : list AssignmentRow;
  agent_contributions : list ContributionRow;
  team_members : list MemberRow;
  teams : list TeamRow;
  agents : list AgentRow;
  share_requests : list ShareRequestRow;
  task_attachments : list AttachmentRow
}.

(** Column updates, one per [update({...})] payload of the services. *)

Definition task_set_status (s : string) (t : TaskRow) : TaskRow :=
  mkTask (t_id t) (t_team_id t) (t_user_id t) (t_title t) (t_description t)
         s (t_priority t) (t_version_number t) (t_parent_task_id t)
         (t_created_at t) (t_result t) (t_completed_at t) (t_feedback t).

Definition task_set_completed (res : string) (at_ : Timestamp) (t : TaskRow)
    : TaskRow :=
  mkTask (t_id t) (t_team_id t) (t_user_id t) (t_title t) (t_description t)
         "COMPLETED" (t_priority t) (t_version_number t) (t_parent_task_id t)
         (t_created_at t) (Some res) (Some at_) (t_feedback t).

Definition task_set_feedback (fb : Z) (t : TaskRow) : TaskRow :=
  mkTask (t_id t) (t_team_id t) (t_user_id t) (t_title t) (t_description t)
         (t_status t) (t_priority t) (t_version_number t) (t_parent_task_id t)
         (t_created_at t) (t_result t) (t_completed_at t) (Some fb).

Definition assignment_set_started (at_ : Timestamp) (a : AssignmentRow)
    : AssignmentRow :=
  mkAssignment (a_id a) (a_task_id a) (a_agent_id a) (a_subtask_description a)
               "IN_PROGRESS" (a_execution_order a) (a_result a) (Some at_)
               (a_completed_at a).

Definition assignment_set_completed (res : string) (at_ : Timestamp)
    (a : AssignmentRow) : AssignmentRow :=
  mkAssignment (a_id a) (a_task_id a) (a_agent_id a) (a_subtask_description a)
               "COMPLETED" (a_execution_order a) (Some res) (a_started_at a)
               (Some at_).

Definition team_set_status (s : string) (t : TeamRow) : TeamRow :=
  mkTeam (tm_id t) (tm_name t) (tm_description t) (tm_user_id t)
         (tm_objective t) s (tm_created_at t) (tm_updated_at t).

(** [UPDATE ... WHERE p]: every matching row is rewritten in place. *)
Definition update_where {A} (p : A -> bool) (f : A -> A) (rows : list A)
    : list A :=
  map (fun r => if p r then f r else r) rows.

Definition db_set_tasks (rows : list TaskRow) (d : Db) : Db :=
  mkDb rows (task_assignments d) (agent_contributions d) (team_members d)
       (teams d) (agents d) (share_requests d) (task_attachments d).

Definition db_set_assignments (rows : list AssignmentRow) (d : Db) : Db :=
  mkDb (collaborative_tasks d) rows (agent_contributions d) (team_members d)
       (teams d) (agents d) (share_requests d) (task_attachments d).

Definition db_set_contributions (rows : list ContributionRow) (d : Db) : Db :=
  mkDb (collaborative_tasks d) (task_assignments d) rows (team_members d)
       (teams d) (agents d) (share_requests d) (task_attachments d).

Definition db_set_teams (rows : list TeamRow) (d : Db) : Db :=
  mkDb (collaborative_tasks d) (task_assignments d) (agent_contributions d)
       (team_members d) rows (agents d) (share_requests d)
       (task_attachments d).

(** [ORDER BY key]: insertion sort; rows with equal keys keep the order
    of the table. *)
Section OrderBy.
Context {A : Type} (le : A -> A -> bool).

Fixpoint insert_sorted (x : A) (l : list A) : list A :=
  match l with
  | [] => [x]
  | y :: l' => if le x y then x :: l else y :: insert_sorted x l'
  end.

Definition order_by (l : list A) : list A :=
  foldr insert_sorted [] l.
End OrderBy.

(** The embedded resource [agents!..._agent_id_fkey (...)]: the agent
    row that the foreign key points to, [null] when there is none. *)
Definition agent_of (d : Db) (agent_id : Id) : option AgentRow :=
  List.find (fun g => String.eqb (ag_id g) agent_id) (agents d).

(** ** The LLM provider *)

Inductive ContentPart :=
| TextPart (text : string)
| ImageUrlPart (url : string).

Inductive MessageContent :=
| TextContent (text : string)
| PartsContent (parts : list ContentPart).

Inductive Role := RoleSystem | RoleUser.

Record ChatMessage := mkMessage {
  msg_role : Role;
  msg_content : MessageContent
}.

(** The argument of [openai.chat.completions.create]. *)
Record ChatRequest := mkRequest {
  req_model : string;
  req_messages : list ChatMessage;
  req_temperature : R;
  req_max_tokens : option nat;
  req_stream : option bool;
  req_logprobs : option bool;
  req_top_logprobs : option nat
}.

Record Choice := mkChoice {
  message_content : option string;
  choice_logprobs : option ChoiceLogprobs
}.

Record ChatCompletion := mkCompletion {
  choices : list Choice
}.

(** ** Server-sent events *)

Inductive EventData :=
| DataMessage (message : option string)
| DataAgentStart (agentId agentName role : string) (subtask : option string)
| DataAgentStream (agentId : option string) (content : string)
| DataAgentComplete (agentId agentName result : string)
| DataComplete (result : string).

(** The Express response: status line, written events, and whether
    [res.end()] was called. *)
Record Response := mkResponse {
  res_head : option nat;
  res_events : list (string * EventData);
  res_ended : bool
}.

(** ** The world and its oracles *)

Inductive FsEntry :=
| FsMissing                      (* fs.existsSync is false *)
| FsUnreadable                   (* fs.readFileSync throws *)
| FsFile (base64 : string).      (* buffer.toString('base64') *)

(** One element of the array that the decomposition reply parses to:
    [None] for an element on which [s.agentId] throws ([null]). *)
Record SubtaskJson := mkSubtaskJson {
  sj_agentId : option string;
  sj_description : option string
}.

Record Oracle := mkOracle {
  (** the [error] of the k-th Supabase request, [None] when it succeeds *)
  db_error : nat -> option JsError;
  (** the outcome of the k-th call to [openai.chat.completions.create] *)
  llm : nat -> ChatRequest -> JsError + ChatCompletion;
  (** the k-th value of [crypto.randomUUID()] *)
  uuid : nat -> Id;
  (** the k-th reading of [new Date().toISOString()] *)
  clock : nat -> Timestamp;
  (** the file system under the upload directory *)
  fs : string -> FsEntry;
  (** the two [replace] calls, [trim] and [JSON.parse] applied to the
      decomposition reply: [None] when parsing throws or the value is not
      an array *)
  parse_subtasks : string -> option (list (option SubtaskJson));
  (** [JSON.parse(configuration).model]: [None] when parsing throws *)
  parse_config_model : string -> option (option string)
}.

Record World := mkWorld {
  db : Db;
  n_db : nat;
  n_llm : nat;
  n_uuid : nat;
  n_clock : nat;
  llm_log : list ChatRequest;
  res : Response
}.

Definition world_set_db (d : Db) (w : World) : World :=
  mkWorld d (n_db w) (n_llm w) (n_uuid w) (n_clock w) (llm_log w) (res w).

Definition world_set_res (r : Response) (w : World) : World :=
  mkWorld (db w) (n_db w) (n_llm w) (n_uuid w) (n_clock w) (llm_log w) r.

Definition initial_response : Response := mkResponse None [] false.

Definition initial_world (d : Db) : World :=
  mkWorld d 0 0 0 0 [] initial_response.

(** ** The monad of asynchronous methods *)

Inductive Outcome (A : Type) :=
| Ok (a : A)
| Throw (e : JsError).
Arguments Ok {A} a.
Arguments Throw {A} e.

Definition M (A : Type) : Type := World -> Outcome A * World.

Definition ret {A} (a : A) : M A := fun w => (Ok a, w).

Definition bind {A B} (m : M A) (k : A -> M B) : M B :=
  fun w =>
    match m w with
    | (Ok a, w') => k a w'
    | (Throw e, w') => (Throw e, w')
    end.

Definition throw {A} (e : JsError) : M A := fun w => (Throw e, w).

(** [try { m } catch (e) { h e }] *)
Definition try_catch {A} (m : M A) (h : JsError -> M A) : M A :=
  fun w =>
    match m w with
    | (Ok a, w') => (Ok a, w')
    | (Throw e, w') => h e w'
    end.

#[global] Instance M_ret : MRet M := @ret.
#[global] Instance M_bind : MBind M := fun A B k m => bind m k.

(** [if (error) throw error] *)
Definition throw_if_error {A} (r : JsError + A) : M A :=
  match r with
  | inl e => throw e
  | inr a => ret a
  end.

(** [for (const x of xs) { body }] with the loop-carried value [acc]. *)
Fixpoint for_of {A S} (xs : list A) (body : S -> A -> M S) (acc : S) : M S :=
  match xs with
  | [] => ret acc
  | x :: xs' => acc' ← body acc x; for_of xs' body acc'
  end.

Section Primitives.
Variable env : Oracle.

(** A Supabase request: it either fails with the oracle's error and
    leaves the database as it is, or runs the query. *)
Definition supabase {A} (q : Db -> A * Db) : M (JsError + A) :=
  fun w =>
    match db_error env (n_db w) with
    | Some e =>
        (Ok (inl e),
         mkWorld (db w) (S (n_db w)) (n_llm w) (n_uuid w) (n_clock w)
                 (llm_log w) (res w))
    | None =>
        let (a, d) := q (db w) in
        (Ok (inr a),
         mkWorld d (S (n_db w)) (n_llm w) (n_uuid w) (n_clock w)
                 (llm_log w) (res w))
    end.

Definition select {A} (q : Db -> A) : M (JsError + A) :=
  supabase (fun d => (q d, d)).

Definition mutate (q : Db -> Db) : M (JsError + unit) :=
  supabase (fun d => (tt, q d)).

Definition openai_create (req : ChatRequest) : M ChatCompletion :=
  fun w =>
    let w' := mkWorld (db w) (n_db w) (S (n_llm w)) (n_uuid w) (n_clock w)
                      (llm_log w ++ [req])%list (res w) in
    match llm env (n_llm w) req with
    | inl e => (Throw e, w')
    | inr r => (Ok r, w')
    end.

Definition randomUUID : M Id :=
  fun w =>
    (Ok (uuid env (n_uuid w)),
     mkWorld (db w) (n_db w) (n_llm w) (S (n_uuid w)) (n_clock w)
             (llm_log w) (res w)).

Definition now : M Timestamp :=
  fun w =>
    (Ok (clock env (n_clock w)),
     mkWorld (db w) (n_db w) (n_llm w) (n_uuid w) (S (n_clock w))
             (llm_log w) (res w)).
End Primitives.

(** [res.writeHead(200, ...)], [res.write(event ...)], [res.end()]. *)
Definition writeHead (status : nat) : M unit :=
  fun w =>
    (Ok tt, world_set_res
              (mkResponse (Some status) (res_events (res w)) (res_ended (res w)))
              w).

Definition sendEvent (event : string) (data : EventData) : M unit :=
  fun w =>
    (Ok tt, world_set_res
              (mkResponse (res_head (res w))
                          (res_events (res w) ++ [(event, data)])%list
                          (res_ended (res w)))
              w).

Definition res_end : M unit :=
  fun w =>
    (Ok tt, world_set_res
              (mkResponse (res_head (res w)) (res_events (res w)) true) w).

(** [.single()]: an error unless exactly one row matches. *)
Definition single {A} (rows : list A) : JsError + A :=
  match rows with
  | [r] => inr r
  | _ => inl (mkError "PostgrestError"
                      (Some "JSON object requested, multiple (or no) rows returned")
                      None (Some "PGRST116") None)
  end.

(** ** CollaborationService: values passed between the methods *)

(** A [team_members] row with its embedded [agents] resource. *)
Record MemberWithAgent := mkMemberWithAgent {
  mw_row : MemberRow;
  mw_agents : option AgentRow
}.

(** A [task_assignments] row with its embedded [agents] resource. *)
Record AssignmentWithAgent := mkAssignmentWithAgent {
  aw_row : AssignmentRow;
  aw_agents : option AgentRow
}.

Record AgentProfile := mkAgentProfile {
  ap_id : Id;
  ap_name : string;
  ap_role : string;
  ap_type : string;
  ap_isPrimary : bool
}.

Record Subtask := mkSubtask {
  st_agentId : Id;
  st_description : option string
}.

(** An element of the [contributions] array of a task execution. *)
Record Contribution := mkContrib {
  agentName : string;
  role : string;
  result : string
}.

Record ImageAttachment := mkImage {
  img_filename : string;
  img_base64 : string;
  img_mimeType : string
}.

(** The properties that [executeAgentSubtask] reads of its [assignment]
    argument. *)
Record AssignmentArg := mkAssignmentArg {
  arg_configuration : option string;
  arg_name : option string;
  arg_role : option string;
  arg_subtaskDescription : option string;
  arg_agentId : option string
}.

(** The value that [executeCollaborativeTask] passes is the selected row
    itself: its columns are [agent_id], [subtask_description], ... and
    the embedded [agents]; none of the camel-case properties read by
    [executeAgentSubtask] is defined on it. *)
Definition arg_of_row (a : AssignmentWithAgent) : AssignmentArg :=
  mkAssignmentArg None None None None None.

Record AssignmentView := mkAssignmentView {
  av_row : AssignmentRow;
  av_agentId : Id;
  av_agentName : option string;
  av_role : string
}.

Record ContributionView := mkContributionView {
  cv_row : ContributionRow;
  cv_agentId : Id;
  cv_agentName : option string;
  cv_createdAt : Timestamp
}.

(** The object returned by [getTaskById]: the row (its camel-case
    aliases [teamId], [userId], [parentTaskId], [versionNumber], ... are
    copies of the row's columns), the assignments, the contributions and
    the two access flags. *)
Record TaskView := mkTaskView {
  tv_task : TaskRow;
  tv_assignments : list AssignmentView;
  tv_isOwner : Z;
  tv_canEdit : Z;
  tv_contributions : list ContributionView
}.

Record TaskInput := mkTaskInput {
  in_title : string;
  in_description : string;
  in_priority : option string;
  in_parentTaskId : option string
}.

Record VersionUpdates := mkVersionUpdates {
  up_title : option string;
  up_description : option string;
  up_priority : option string
}.

(** [new Map(teamMembers.map(tm => [tm.agent_id, tm.role]))]: a later
    entry for the same agent replaces an earlier one. *)
Definition agentRoleMap (teamMembers : list MemberRow) : gmap Id string :=
  foldl (fun acc tm => <[m_agent_id tm := m_role tm]> acc) ∅ teamMembers.

(** [agentRoleMap.get(id) || 'Agent'] *)
Definition role_of (roles : gmap Id string) (agent_id : Id) : string :=
  Js.or_else (roles !! agent_id) "Agent".

Definition show_bool (b : bool) : string := if b then "true" else "false".

(** A [null] column inside a template literal. *)
Definition show_null (x : option string) : string :=
  match x with
  | Some s => s
  | None => "null"
  end.

Definition newline : string := String (ascii_of_nat 10) EmptyString.

(** *** Prompts *)

Definition agentProfile (m : MemberWithAgent) : AgentProfile :=
  mkAgentProfile
    (m_agent_id (mw_row m))
    (Js.or_else (ag_name <$> mw_agents m) "Unknown Agent")
    (m_role (mw_row m))
    (Js.or_else (ag_type <$> mw_agents m) "assistant")
    (m_is_primary_agent (mw_row m)).

Definition profile_line (a : AgentProfile) : string :=
  "- " ++ ap_name a ++ " (Role: " ++ ap_role a ++ ", Type: " ++ ap_type a
  ++ ", Primary: " ++ show_bool (ap_isPrimary a) ++ ")".

Definition decompositionPrompt (taskDescription : string)
    (agentProfiles : list AgentProfile) : string :=
  "You are a task delegation expert. Given a complex task and a team of AI agents, break down the task into specific subtasks for each agent."
  ++ newline ++ newline
  ++ "Task: " ++ taskDescription ++ newline ++ newline
  ++ "Team Members:" ++ newline
  ++ Js.join newline (map profile_line agentProfiles) ++ newline ++ newline
  ++ "Generate a JSON array of subtasks. Each subtask should have:" ++ newline
  ++ "- agentId: The agent's ID" ++ newline
  ++ "- description: Clear, specific subtask description (2-3 sentences)"
  ++ newline ++ newline
  ++ "The primary agent should coordinate and synthesize results. Other agents should handle specific aspects based on their roles."
  ++ newline ++ newline
  ++ "Respond with ONLY valid JSON array, no other text.".

(** [`${c.agentName} (${c.role}): ${c.result}`] *)
Definition contribution_line (c : Contribution) : string :=
  agentName c ++ " (" ++ role c ++ "): " ++ result c.

(** The [context] of [executeAgentSubtask]. *)
Definition agent_context (previousContributions : list Contribution) : string :=
  match previousContributions with
  | [] => ""
  | _ => newline ++ newline ++ "Previous team contributions:" ++ newline
         ++ Js.join (newline ++ newline)
                    (map contribution_line previousContributions)
  end.

Definition document_context (documentAttachments : list string) : string :=
  match documentAttachments with
  | [] => ""
  | _ => newline ++ newline ++ "📎 Attached documents:" ++ newline
         ++ Js.join newline (map (fun d => "- " ++ d) documentAttachments)
  end.

Definition agentSystemPrompt (assignment : AssignmentArg)
    (mainTaskDescription : string)
    (previousContributions : list Contribution)
    (documentAttachments : list string) : string :=
  "You are " ++ Js.show (arg_name assignment)
  ++ ", a specialized AI agent with the role of "
  ++ Js.show (arg_role assignment) ++ "." ++ newline ++ newline
  ++ "Main Task: " ++ mainTaskDescription
  ++ document_context documentAttachments ++ newline ++ newline
  ++ "Your specific subtask: " ++ Js.show (arg_subtaskDescription assignment)
  ++ agent_context previousContributions ++ newline ++ newline
  ++ "Provide a focused, actionable response for your specific subtask. Be concise and professional.".

Definition agentUserContent (imageAttachments : list ImageAttachment)
    : MessageContent :=
  match imageAttachments with
  | [] => TextContent "Complete your assigned subtask based on the above context."
  | _ =>
      PartsContent
        (TextPart ("Analyze the attached image(s) and complete your subtask."
                   ++ newline ++ newline ++ "Images: "
                   ++ Js.join ", " (map img_filename imageAttachments))
         :: map (fun img => ImageUrlPart ("data:" ++ img_mimeType img
                                          ++ ";base64," ++ img_base64 img))
                imageAttachments)
  end.

Definition agentMessages (assignment : AssignmentArg)
    (mainTaskDescription : string)
    (previousContributions : list Contribution)
    (imageAttachments : list ImageAttachment)
    (documentAttachments : list string) : list ChatMessage :=
  [ mkMessage RoleSystem
      (TextContent (agentSystemPrompt assignment mainTaskDescription
                      previousContributions documentAttachments));
    mkMessage RoleUser (agentUserContent imageAttachments) ].

Definition synthesis_block (c : Contribution) : string :=
  newline ++ agentName c ++ " (" ++ role c ++ "):" ++ newline ++ result c.

Definition synthesisPrompt (taskDescription : string)
    (contributions : list Contribution) : string :=
  "You are a synthesis coordinator. Multiple AI agents have worked on different aspects of a task. Your job is to combine their contributions into a comprehensive, cohesive final result."
  ++ newline ++ newline
  ++ "Task: " ++ taskDescription ++ newline ++ newline
  ++ "Agent Contributions:" ++ newline
  ++ Js.join (newline ++ newline ++ "---" ++ newline)
             (map synthesis_block contributions)
  ++ newline ++ newline
  ++ "Synthesize these contributions into a comprehensive final result that:"
  ++ newline
  ++ "1. Integrates all key insights from each agent" ++ newline
  ++ "2. Resolves any conflicts or contradictions" ++ newline
  ++ "3. Provides clear, actionable recommendations" ++ newline
  ++ "4. Maintains professional tone" ++ newline ++ newline
  ++ "Provide the final synthesized result:".

(** *** Requests *)

Definition decompositionRequest (model prompt : string) : ChatRequest :=
  mkRequest model [mkMessage RoleUser (TextContent prompt)] 0.7%R
            (Some 1000) None None None.

Definition agentRequest (model : string) (messages : list ChatMessage)
    : ChatRequest :=
  mkRequest model messages 0.7%R None (Some false) (Some true) (Some 1).

Definition synthesisRequest (model prompt : string) : ChatRequest :=
  mkRequest model [mkMessage RoleUser (TextContent prompt)] 0.5%R
            (Some 1500) None None None.

(** [response.choices[0]]: reading [.message] of a missing first choice
    throws. *)
Definition first_choice (response : ChatCompletion) : M Choice :=
  match choices response with
  | [] => throw (typeError "Cannot read properties of undefined (reading 'message')")
  | c :: _ => ret c
  end.

(** [subtasks.find((s) => s.agentId === agent.id)] *)
Fixpoint find_subtask (subtasks : list (option SubtaskJson)) (id : Id)
    : JsError + option SubtaskJson :=
  match subtasks with
  | [] => inr None
  | None :: _ =>
      inl (typeError "Cannot read properties of null (reading 'agentId')")
  | Some s :: rest =>
      if bool_decide (sj_agentId s = Some id) then inr (Some s)
      else find_subtask rest id
  end.

(** The attachment loop of [executeCollaborativeTask]. *)
Definition is_image (att : AttachmentRow) : bool :=
  match at_file_type att with
  | Some ty => String.prefix "image/" ty
  | None => false
  end.

Fixpoint processAttachments (fs_ : string -> FsEntry)
    (attachments : list AttachmentRow)
    : list ImageAttachment * list string :=
  match attachments with
  | [] => ([], [])
  | att :: rest =>
      let (images, documents) := processAttachments fs_ rest in
      if is_image att then
        match fs_ (at_file_path att) with
        | FsFile base64 =>
            (mkImage (at_original_file_name att) base64
                     (show_null (at_file_type att)) :: images, documents)
        | FsMissing | FsUnreadable => (images, documents)
        end
      else
        (images,
         (at_original_file_name att ++ " (" ++ show_null (at_file_type att)
          ++ ")") :: documents)
  end.

(** ** CollaborationService *)

Section CollaborationService.
Variable env : Oracle.

(** *** The three LLM call sites: the inner [try]/[catch] around
    [openai.chat.completions.create]. *)

Definition generateSubtasks_completion (prompt : string) : M ChatCompletion :=
  try_catch
    (openai_create env (decompositionRequest "gpt-4o-mini" prompt))
    (fun error =>
       if isModelError error then
         openai_create env (decompositionRequest "gpt-3.5-turbo" prompt)
       else throw error).

Definition executeAgentSubtask_completion (model : string)
    (messages : list ChatMessage) : M ChatCompletion :=
  try_catch
    (openai_create env (agentRequest model messages))
    (fun error =>
       if isModelError error && negb (bool_decide (model = "gpt-4o-mini"))
       then openai_create env (agentRequest "gpt-4o-mini" messages)
       else throw error).

Definition synthesizeResults_completion (prompt : string) : M ChatCompletion :=
  try_catch
    (openai_create env (synthesisRequest "gpt-4o-mini" prompt))
    (fun error =>
       if isModelError error then
         openai_create env (synthesisRequest "gpt-3.5-turbo" prompt)
       else throw error).

(** *** generateSubtasks *)

Definition default_subtask (agent : AgentProfile) : Subtask :=
  mkSubtask (ap_id agent)
    (Some ("Provide analysis and insights from the perspective of "
           ++ ap_role agent ++ ".")).

Definition generic_subtask (m : MemberWithAgent) : Subtask :=
  mkSubtask (m_agent_id (mw_row m))
    (Some ("Analyze the task from the perspective of "
           ++ m_role (mw_row m) ++ ".")).

Definition generateSubtasks (taskDescription : string)
    (members : list MemberWithAgent) : M (list Subtask) :=
  try_catch
    (let agentProfiles := map agentProfile members in
     let prompt := decompositionPrompt taskDescription agentProfiles in
     response ← generateSubtasks_completion prompt;
     choice ← first_choice response;
     let content := Js.or_else (message_content choice) "[]" in
     subtasks ←
       match parse_subtasks env content with
       | Some l => ret l
       | None => throw (mkError "SyntaxError"
                          (Some "Unexpected token in JSON") None None None)
       end;
     for_of agentProfiles
       (fun result agent =>
          found ← throw_if_error (find_subtask subtasks (ap_id agent));
          match found with
          | Some s =>
              (* the parsed object itself: its agentId is agent.id *)
              ret (result ++ [mkSubtask (ap_id agent) (sj_description s)])%list
          | None => ret (result ++ [default_subtask agent])%list
          end)
       [])
    (fun _ => ret (map generic_subtask members)).

(** *** getTaskById *)

Definition select_assignments (taskId : Id) (d : Db)
    : list AssignmentWithAgent :=
  map (fun a => mkAssignmentWithAgent a (agent_of d (a_agent_id a)))
      (order_by (fun a b => (a_execution_order a <=? a_execution_order b)%nat)
                (filter (fun a => a_task_id a = taskId) (task_assignments d))).

Definition select_team_members (teamId : Id) (d : Db) : list MemberRow :=
  filter (fun m => m_team_id m = teamId) (team_members d).

Definition select_contributions (taskId : Id) (d : Db)
    : list (ContributionRow * option AgentRow) :=
  map (fun c => (c, agent_of d (c_agent_id c)))
      (order_by (fun a b => (c_created_at a <=? c_created_at b)%nat)
                (filter (fun c => c_task_id c = taskId)
                        (agent_contributions d))).

(** The approved share of one of [agentIds] with [userId]:
    [.limit(1).maybeSingle()]. *)
Definition select_shared_access (agentIds : list Id) (userId : Id) (d : Db)
    : option ShareRequestRow :=
  head (filter (fun s => sr_resource_type s = "agent"
                         ∧ sr_resource_id s ∈ agentIds
                         ∧ sr_requester_user_id s = userId
                         ∧ sr_status s = "approved")
               (share_requests d)).

Definition notFound {A} : M A := throw (simpleError "Task not found").

Definition getTaskById (taskId userId : Id) : M TaskView :=
  r ← select env (fun d => filter (fun t => t_id t = taskId)
                                  (collaborative_tasks d));
  tasks ← throw_if_error r;
  match tasks with
  | [] => notFound
  | task :: _ =>
      r ← select env (fun d => single (filter (fun t => tm_id t = t_team_id task)
                                              (teams d)));
      let team : option TeamRow :=
        match r with inr (inr t) => Some t | _ => None end in
      let isOwner :=
        bool_decide (t_user_id task = userId)
        || bool_decide (tm_user_id <$> team = Some userId) in
      (if isOwner then ret tt
       else
         r ← select env (fun d =>
                match team with
                | Some t => filter (fun g => ag_user_id g = tm_user_id t)
                                   (agents d)
                | None => []
                end);
         let ownerAgents := match r with inr rows => rows | inl _ => [] end in
         match ownerAgents with
         | [] => notFound
         | _ =>
             let agentIds := map ag_id ownerAgents in
             r ← select env (select_shared_access agentIds userId);
             match r with
             | inr (Some _) => ret tt
             | _ => notFound
             end
         end);;
      r ← select env (select_assignments taskId);
      assignments ← throw_if_error r;
      r ← select env (select_team_members (t_team_id task));
      teamMembers ← throw_if_error r;
      let roles := agentRoleMap teamMembers in
      let assignmentViews :=
        map (fun a =>
               mkAssignmentView (aw_row a) (a_agent_id (aw_row a))
                                (ag_name <$> aw_agents a)
                                (role_of roles (a_agent_id (aw_row a))))
            assignments in
      r ← select env (select_contributions taskId);
      contributions ← throw_if_error r;
      let contributionViews :=
        map (fun '(c, g) =>
               mkContributionView c (c_agent_id c) (ag_name <$> g)
                                  (c_created_at c))
            contributions in
      ret (mkTaskView task assignmentViews
                      (if bool_decide (t_user_id task = userId) then 1 else 0)%Z
                      1%Z contributionViews)
  end.

(** *** createCollaborativeTask *)

Definition select_members_with_agents (teamId : Id) (d : Db)
    : list MemberWithAgent :=
  map (fun m => mkMemberWithAgent m (agent_of d (m_agent_id m)))
      (order_by (fun a b => implb (m_is_primary_agent b) (m_is_primary_agent a))
                (filter (fun m => m_team_id m = teamId) (team_members d))).

Definition insert_task (t : TaskRow) (d : Db) : Db :=
  db_set_tasks (collaborative_tasks d ++ [t])%list d.

Definition insert_assignment (a : AssignmentRow) (d : Db) : Db :=
  db_set_assignments (task_assignments d ++ [a])%list d.

Definition insert_contribution (c : ContributionRow) (d : Db) : Db :=
  db_set_contributions (agent_contributions d ++ [c])%list d.

(** [if (data.parentTaskId)]: an empty string is falsy. *)
Definition truthy (x : option string) : option string :=
  match x with
  | Some s => if String.eqb s "" then None else Some s
  | None => None
  end.

Definition createCollaborativeTask (teamId userId : Id) (data : TaskInput)
    : M TaskView :=
  taskId ← randomUUID env;
  now_ ← now env;
  versionNumber ←
    match truthy (in_parentTaskId data) with
    | Some parentTaskId =>
        r ← select env (fun d => single (filter (fun t => t_id t = parentTaskId)
                                                (collaborative_tasks d)));
        ret (match r with
             | inr (inr parentTask) => (t_version_number parentTask + 1)%Z
             | _ => 1%Z
             end)
    | None => ret 1%Z
    end;
  r ← mutate env
        (insert_task
           (mkTask taskId teamId userId (in_title data) (in_description data)
                   "PENDING" (Js.or_else (in_priority data) "MEDIUM")
                   versionNumber (truthy (in_parentTaskId data)) now_
                   None None None));
  throw_if_error r;;
  r ← select env (select_members_with_agents teamId);
  members ← throw_if_error r;
  subtasks ← generateSubtasks (in_description data) members;
  for_of subtasks
    (fun i subtask =>
       id ← randomUUID env;
       r ← mutate env
             (insert_assignment
                (mkAssignment id taskId (st_agentId subtask)
                              (st_description subtask) "PENDING" (i + 1)
                              None None None));
       throw_if_error r;;
       ret (S i))
    0%nat;;
  getTaskById taskId userId.

(** *** createTaskVersion

    [getTaskById] returns an object or throws, so the test
    [if (!originalTask)] never fires. *)

Definition createTaskVersion (originalTaskId userId : Id)
    (updates : VersionUpdates) : M TaskView :=
  originalTask ← getTaskById originalTaskId userId;
  let original := tv_task originalTask in
  createCollaborativeTask (t_team_id original) userId
    (mkTaskInput
       (Js.or_else (up_title updates) (t_title original))
       (Js.or_else (up_description updates) (t_description original))
       (Some (Js.or_else (up_priority updates) (t_priority original)))
       (Some (Js.or_else (t_parent_task_id original) originalTaskId))).

(** *** executeAgentSubtask *)

Definition executeAgentSubtask (assignment : AssignmentArg)
    (mainTaskDescription : string)
    (previousContributions : list Contribution)
    (imageAttachments : list ImageAttachment)
    (documentAttachments : list string) : M (string * option R) :=
  try_catch
    (configModel ←
       match truthy (arg_configuration assignment) with
       | None => ret None                       (* JSON.parse("{}") *)
       | Some s =>
           match parse_config_model env s with
           | Some m => ret m
           | None => throw (mkError "SyntaxError"
                              (Some "Unexpected token in JSON") None None None)
           end
       end;
     let model := Js.or_else configModel "gpt-4o-mini" in
     let messages :=
       agentMessages assignment mainTaskDescription previousContributions
                     imageAttachments documentAttachments in
     response ← executeAgentSubtask_completion model messages;
     choice ← first_choice response;
     let fullResponse := Js.or_else (message_content choice) "" in
     let confidence := computeConfidenceFromLogprobs (choice_logprobs choice) in
     sendEvent "agent_stream"
               (DataAgentStream (arg_agentId assignment) fullResponse);;
     ret (Js.trim fullResponse, confidence))
    (fun error =>
       ret ("Error executing subtask: " ++ error_to_string error, None)).

(** *** synthesizeResults *)

Definition synthesizeResults (taskDescription : string)
    (contributions : list Contribution) : M string :=
  try_catch
    (let prompt := synthesisPrompt taskDescription contributions in
     response ← synthesizeResults_completion prompt;
     choice ← first_choice response;
     ret (Js.or_else (message_content choice) "Synthesis failed"))
    (fun _ =>
       ret (Js.join (newline ++ newline)
                    (map (fun c => agentName c ++ ": " ++ result c)
                         contributions))).

(** *** executeCollaborativeTask *)

Definition select_attachments (taskId : Id) (d : Db) : list AttachmentRow :=
  order_by (fun a b => (at_uploaded_at a <=? at_uploaded_at b)%nat)
           (filter (fun a => at_task_id a = taskId) (task_attachments d)).

Definition set_task_status (taskId : Id) (status : string) (d : Db) : Db :=
  db_set_tasks
    (update_where (fun t => bool_decide (t_id t = taskId))
                  (task_set_status status) (collaborative_tasks d)) d.

(** The body of [for (const assignment of assignments)]; the
    loop-carried value is the [contributions] array. *)
Definition executeAssignment (taskId : Id) (task : TaskRow)
    (roles : gmap Id string)
    (imageAttachments : list ImageAttachment)
    (documentAttachments : list string)
    (contributions : list Contribution) (assignment : AssignmentWithAgent)
    : M (list Contribution) :=
  let row := aw_row assignment in
  let role := role_of roles (a_agent_id row) in
  agent ←
    match aw_agents assignment with
    | Some g => ret g
    | None => throw (typeError "Cannot read properties of null (reading 'name')")
    end;
  sendEvent "agent_start"
            (DataAgentStart (a_agent_id row) (ag_name agent) role
                            (a_subtask_description row));;
  started ← now env;
  r ← mutate env (fun d =>
         db_set_assignments
           (update_where (fun a => bool_decide (a_id a = a_id row))
                         (assignment_set_started started)
                         (task_assignments d)) d);
  throw_if_error r;;
  '(result, confidence) ←
     executeAgentSubtask (arg_of_row assignment) (t_description task)
                         contributions imageAttachments documentAttachments;
  completed ← now env;
  r ← mutate env (fun d =>
         db_set_assignments
           (update_where (fun a => bool_decide (a_id a = a_id row))
                         (assignment_set_completed result completed)
                         (task_assignments d)) d);
  throw_if_error r;;
  id ← randomUUID env;
  created ← now env;
  r ← mutate env
        (insert_contribution
           (mkContribution id taskId (a_agent_id row) result 0.85%R created));
  throw_if_error r;;
  let agentRole := role_of roles (a_agent_id row) in
  let contributions' :=
    (contributions ++ [mkContrib (ag_name agent) agentRole result])%list in
  sendEvent "agent_complete"
            (DataAgentComplete (a_agent_id row) (ag_name agent) result);;
  ret contributions'.

(** The [try] block of [executeCollaborativeTask]. *)
Definition executeCollaborativeTask_try (taskId userId : Id) : M unit :=
    (writeHead 200;;
     r ← mutate env (set_task_status taskId "IN_PROGRESS");
     throw_if_error r;;
     sendEvent "status"
               (DataMessage (Some "Starting collaborative task execution..."));;
     r ← select env (fun d =>
            filter (fun t => t_id t = taskId ∧ t_user_id t = userId)
                   (collaborative_tasks d));
     taskRows ← throw_if_error r;
     match taskRows with
     | [] =>
         sendEvent "error" (DataMessage (Some "Task not found"));;
         res_end
     | task :: _ =>
         r ← select env (select_attachments taskId);
         let attachments := match r with inr rows => rows | inl _ => [] end in
         let '(imageAttachments, documentAttachments) :=
           processAttachments (fs env) attachments in
         r ← select env (select_assignments taskId);
         assignments ← throw_if_error r;
         r ← select env (select_team_members (t_team_id task));
         teamMembers ← throw_if_error r;
         let agentRoles := agentRoleMap teamMembers in
         contributions ←
           for_of assignments
                  (executeAssignment taskId task agentRoles imageAttachments
                                     documentAttachments)
                  [];
         sendEvent "synthesis"
                   (DataMessage (Some "Synthesizing team results..."));;
         finalResult ← synthesizeResults (t_description task) contributions;
         completed ← now env;
         r ← mutate env (fun d =>
                db_set_tasks
                  (update_where (fun t => bool_decide (t_id t = taskId))
                                (task_set_completed finalResult completed)
                                (collaborative_tasks d)) d);
         throw_if_error r;;
         sendEvent "complete" (DataComplete finalResult);;
         res_end
     end).

(** The [catch] block of [executeCollaborativeTask]: the [error] of
    the reset request, if any, is not looked at. *)
Definition executeCollaborativeTask_catch (taskId : Id) (error : JsError)
    : M unit :=
  _ ← mutate env (set_task_status taskId "PENDING");
  sendEvent "error" (DataMessage (err_message error));;
  res_end.

Definition executeCollaborativeTask (taskId userId : Id) : M unit :=
  try_catch (executeCollaborativeTask_try taskId userId)
            (executeCollaborativeTask_catch taskId).

(** *** recordTaskFeedback *)

Definition unauthorized {A} : M A :=
  throw (simpleError "Task not found or unauthorized").

Definition recordTaskFeedback (taskId userId : Id) (feedback : Z) : M unit :=
  r ← select env (fun d =>
         match single (filter (fun t => t_id t = taskId)
                              (collaborative_tasks d)) with
         | inl e => inl e
         | inr task =>
             inr (task,
                  (fun team => (team, select_team_members (tm_id team) d))
                    <$> List.find (fun t => bool_decide (tm_id t = t_team_id task))
                                  (teams d))
         end);
  match r with
  | inr (inr (task, team)) =>
      let isTaskOwner := bool_decide (t_user_id task = userId) in
      let isTeamOwner :=
        bool_decide ((tm_user_id ∘ fst) <$> team = Some userId) in
      (if isTaskOwner || isTeamOwner then ret tt
       else
         let agentIds :=
           match team with
           | Some (_, members) => map m_agent_id members
           | None => []
           end in
         match agentIds with
         | [] => unauthorized
         | _ =>
             r ← select env (select_shared_access agentIds userId);
             match r with
             | inr (Some _) => ret tt
             | _ => unauthorized
             end
         end);;
      r ← mutate env (fun d =>
             db_set_tasks
               (update_where (fun t => bool_decide (t_id t = taskId))
                             (task_set_feedback feedback)
                             (collaborative_tasks d)) d);
      throw_if_error r
  | _ => unauthorized
  end.

End CollaborationService.

(** ** TeamService *)

Record TeamMemberView := mkTeamMemberView {
  tmv_id : Id;
  tmv_teamId : Id;
  tmv_agentId : Id;
  tmv_role : string;
  tmv_isPrimaryAgent : bool;
  tmv_addedAt : Timestamp;
  tmv_agent_name : option string;
  tmv_agent_type : option string;
  tmv_agent_status : option string;
  tmv_agent_avatar : option string
}.

(** A team row with its [members] property. *)
Record Team := mkTeamView {
  team_row : TeamRow;
  team_members_of : list TeamMemberView
}.

Section TeamService.
Variable env : Oracle.

Definition member_le (a b : MemberRow) : bool :=
  if Bool.eqb (m_is_primary_agent a) (m_is_primary_agent b)
  then (m_added_at a <=? m_added_at b)%nat
  else m_is_primary_agent a.

Definition getTeamMembers (teamId : Id) : M (list TeamMemberView) :=
  r ← select env (fun d =>
         map (fun m => mkMemberWithAgent m (agent_of d (m_agent_id m)))
             (order_by member_le
                       (filter (fun m => m_team_id m = teamId)
                               (team_members d))));
  members ← throw_if_error r;
  ret (map (fun m =>
              let row := mw_row m in
              mkTeamMemberView (m_id row) (m_team_id row) (m_agent_id row)
                               (m_role row) (m_is_primary_agent row)
                               (m_added_at row)
                               (ag_name <$> mw_agents m)
                               (ag_type <$> mw_agents m)
                               (mw_agents m ≫= ag_status)
                               (mw_agents m ≫= ag_avatar))
           members).

Definition getTeamsByUser (userId : Id) : M (list Team) :=
  r ← select env (fun d =>
         order_by (fun a b => (tm_created_at b <=? tm_created_at a)%nat)
                  (filter (fun t => tm_user_id t = userId
                                    ∧ tm_status t = "ACTIVE")
                          (teams d)));
  teams_ ← throw_if_error r;
  for_of teams_
         (fun acc team =>
            members ← getTeamMembers (tm_id team);
            ret (acc ++ [mkTeamView team members])%list)
         [].

Definition deleteTeam (teamId userId : Id) : M unit :=
  r ← mutate env (fun d =>
         db_set_teams
           (update_where (fun t => bool_decide (tm_id t = teamId)
                                   && bool_decide (tm_user_id t = userId))
                         (team_set_status "ARCHIVED") (teams d)) d);
  throw_if_error r.

End TeamService.

(** ** The feedback buttons of the TaskResults page *)

(** [handleFeedback(value)] with the component state [feedback]: the new
    state, and the value posted to [/teams/:teamId/tasks/:taskId/feedback]
    when the mutation is fired. *)
Definition handleFeedback (feedback value : Z) : Z * option Z :=
  let newFeedback := if bool_decide (feedback = value) then 0%Z else value in
  (newFeedback,
   if bool_decide (newFeedback ≠ 0%Z) then Some newFeedback else None).

(** ** Absence of token log-probabilities *)




(** ** Vocabulary of the properties *)

(** The world once [req] has been sent to the LLM provider. *)
Definition logged (req : ChatRequest) (w : World) : World :=
  mkWorld (db w) (n_db w) (S (n_llm w)) (n_uuid w) (n_clock w)
          (llm_log w ++ [req])%list (res w).

Definition call_outcome (r : JsError + ChatCompletion)
    : Outcome ChatCompletion :=
  match r with
  | inl e => Throw e
  | inr c => Ok c
  end.

(** A call site that sends [first] and, when the error of that call
    satisfies [retried], sends [fallback] once and stops there. *)
Definition single_fallback (env : Oracle) (site : M ChatCompletion)
    (first fallback : ChatRequest) (retried : JsError -> bool) : Prop :=
  forall w,
    match llm env (n_llm w) first with
    | inr c => site w = (Ok c, logged first w)
    | inl e =>
        if retried e then
          site w = (call_outcome (llm env (S (n_llm w)) fallback),
                    logged fallback (logged first w))
        else site w = (Throw e, logged first w)
    end.

(** Two team rows agree on every column but [status]. *)
Definition same_but_status (t t' : TeamRow) : Prop :=
  tm_id t' = tm_id t /\ tm_name t' = tm_name t
  /\ tm_description t' = tm_description t /\ tm_user_id t' = tm_user_id t
  /\ tm_objective t' = tm_objective t /\ tm_created_at t' = tm_created_at t
  /\ tm_updated_at t' = tm_updated_at t.

(** Every run of [m] takes the database along the relation [P]. *)
Definition db_step (P : Db -> Db -> Prop) {A} (m : M A) : Prop :=
  forall w, P (db w) (db (snd (m w))).

(** [m] does not write to the database. *)
Definition reads_only {A} (m : M A) : Prop := db_step eq m.

(** The request that [executeAgentSubtask] sends for the row [a] when
    called from [executeCollaborativeTask] with the contributions [cs]
    gathered so far. *)
Definition agentCall (a : AssignmentWithAgent) (desc : string)
    (cs : list Contribution) (imgs : list ImageAttachment)
    (docs : list string) : ChatRequest :=
  agentRequest "gpt-4o-mini" (agentMessages (arg_of_row a) desc cs imgs docs).

(** The text saved for an agent whose LLM call failed with [e]. *)
Definition subtask_error_text (e : JsError) : string :=
  "Error executing subtask: " ++ error_to_string e.

(** The rows are in ascending [execution_order]. *)
Definition ascending_execution_order (l : list AssignmentWithAgent) : Prop :=
  StronglySorted
    (fun a b => a_execution_order (aw_row a) <= a_execution_order (aw_row b))
    l.

(** The task that [executeCollaborativeTask] works on: the first row
    with the given id and owner. *)
Definition task_of (taskId userId : Id) (d : Db) : option TaskRow :=
  head (filter (fun t => t_id t = taskId /\ t_user_id t = userId)
               (collaborative_tasks d)).



(** The database answers its request number [j]. *)
Definition answered (env : Oracle) (j : nat) : bool :=
  match db_error env j with
  | None => true
  | Some _ => false
  end.

(** The requests that [executeCollaborativeTask] makes before its loop,
    from request number [n] on: the update of the status, the task, the
    attachments, the assignments and the members of the team.  Only the
    failure of the third one is ignored. *)
Definition prelude_answered (env : Oracle) (n : nat) : bool :=
  answered env n && answered env (1 + n) && answered env (3 + n)
  && answered env (4 + n).


(** A turn of the loop that starts at request number [n] sends the
    request of its row [a] when the row has its agent and the update at
    [n] is answered; it appends its contribution when moreover the two
    writes that follow the call are answered. *)
Definition turn_starts (env : Oracle) (n : nat) (a : AssignmentWithAgent)
    : bool :=
  match aw_agents a with
  | Some _ => answered env n
  | None => false
  end.

Definition turn_completes (env : Oracle) (n : nat) (a : AssignmentWithAgent)
    : bool :=
  turn_starts env n a && answered env (1 + n) && answered env (2 + n).

(** The number of turns that run to their end, and the number of turns
    that send their request, when the loop starts at request number
    [n]: the loop stops at the first turn that does not complete. *)
Fixpoint completed_turns (env : Oracle) (n : nat)
    (assignments : list AssignmentWithAgent) : nat :=
  match assignments with
  | [] => 0
  | a :: rest =>
      if turn_completes env n a then S (completed_turns env (3 + n) rest)
      else 0
  end.

Fixpoint started_turns (env : Oracle) (n : nat)
    (assignments : list AssignmentWithAgent) : nat :=
  match assignments with
  | [] => 0
  | a :: rest =>
      if turn_completes env n a then S (started_turns env (3 + n) rest)
      else if turn_starts env n a then 1
      else 0
  end.

(** The rows of [agent_contributions] in [d'] are those of [d] followed
    by rows whose confidence is the constant 0.85. *)
Definition contributions_grow_by_constant (d d' : Db) : Prop :=
  exists extra,
    agent_contributions d' = (agent_contributions d ++ extra)%list
    /\ Forall (fun c => c_confidence c = 0.85%R) extra.

(** The rows of [collaborative_tasks] are the same in [d] and [d']. *)
Definition tasks_unchanged (d d' : Db) : Prop :=
  collaborative_tasks d' = collaborative_tasks d.

(** ** A small deployment, used to run the services *)

Module Scenario.

Definition team1 : TeamRow :=
  mkTeam "team-1" "Launch" "" "alice" "" "ACTIVE" 1 1.

Definition researcher : AgentRow :=
  mkAgent "agent-1" "alice" "Researcher" "assistant" None None None.

Definition writer : AgentRow :=
  mkAgent "agent-2" "alice" "Writer" "assistant" None None None.

Definition member1 : MemberRow :=
  mkMember "member-1" "team-1" "agent-1" "Research" true 1.

Definition member2 : MemberRow :=
  mkMember "member-2" "team-1" "agent-2" "Writing" false 2.

Definition task1 : TaskRow :=
  mkTask "task-1" "team-1" "alice" "Plan" "Plan the launch" "PENDING"
         "MEDIUM" 1 None 3 None None None.

Definition assignment1 : AssignmentRow :=
  mkAssignment "as-1" "task-1" "agent-1" (Some "Research the market")
               "PENDING" 1 None None None.

Definition assignment2 : AssignmentRow :=
  mkAssignment "as-2" "task-1" "agent-2" (Some "Write the plan")
               "PENDING" 2 None None None.

Definition db0 : Db :=
  mkDb [task1] [assignment1; assignment2] [] [member1; member2] [team1]
       [researcher; writer] [] [].

(** A reply whose single token has log-probability 0. *)
Definition sure_reply (text : string) : ChatCompletion :=
  mkCompletion
    [mkChoice (Some text)
              (Some (mkChoiceLogprobs (Some [mkTokenLogprob text (Some 0%R)])))].

Definition uuid_of (k : nat) : Id :=
  "uuid-" ++ String (ascii_of_nat (48 + k)) EmptyString.

(** Every database request succeeds and every LLM call is answered. *)
Definition calm : Oracle :=
  mkOracle (fun _ => None) (fun _ _ => inr (sure_reply "ok")) uuid_of
           (fun k => (10 + k)%nat) (fun _ => FsMissing) (fun _ => None)
           (fun _ => Some None).

Definition server_error : JsError :=
  mkError "Error" (Some "500 upstream failure") (Some 500%Z) None None.

Definition not_found_error : JsError :=
  mkError "Error" (Some "404 no such deployment") (Some 404%Z) None None.

Definition rate_limit_error : JsError :=
  mkError "Error" (Some "Rate limit reached for model gpt-4o-mini")
          (Some 429%Z) None None.

(** The first LLM call fails with [e]; later calls are answered. *)
Definition first_call_fails (e : JsError) : Oracle :=
  mkOracle (fun _ => None)
           (fun k _ => match k with
                       | O => inl e
                       | S _ => inr (sure_reply "ok")
                       end)
           uuid_of (fun k => (10 + k)%nat) (fun _ => FsMissing)
           (fun _ => None) (fun _ => Some None).

(** The decomposition reply names a subtask for [agent-2] only. *)
Definition partial_decomposition : Oracle :=
  mkOracle (fun _ => None) (fun _ _ => inr (sure_reply "ok")) uuid_of
           (fun k => (10 + k)%nat) (fun _ => FsMissing)
           (fun _ => Some [Some (mkSubtaskJson (Some "agent-2")
                                               (Some "Write the plan"))])
           (fun _ => Some None).

Definition new_task : TaskInput :=
  mkTaskInput "Plan" "Plan the launch" None None.

Definition row1 : AssignmentWithAgent :=
  mkAssignmentWithAgent assignment1 (Some researcher).

Definition row2 : AssignmentWithAgent :=
  mkAssignmentWithAgent assignment2 (Some writer).

(** A family of versions: the root [task1] and one version of it. *)
Definition task1_v2 : TaskRow :=
  mkTask "task-2" "team-1" "alice" "Plan" "Plan the launch again" "PENDING"
         "MEDIUM" 2 (Some "task-1") 4 None None None.

Definition db_versions : Db :=
  mkDb [task1; task1_v2] [assignment1; assignment2] [] [member1; member2]
       [team1] [researcher; writer] [] [].

Definition no_updates : VersionUpdates := mkVersionUpdates None None None.

End Scenario.

(** * Further methods of the services *)

(** ** Tables that the services only read

    [resource_access] and [users] are read by the two services and
    written by neither; a run sees them as they are when it starts. *)

Record ResourceAccessRow := mkResourceAccess {
  ra_id : Id;
  ra_resource_type : string;
  ra_resource_id : Id;
  ra_user_id : Id
}.

Record UserRow := mkUser {
  u_id : Id;
  u_name : option string
}.

Record Directory := mkDirectory {
  resource_access : list ResourceAccessRow;
  users : list UserRow
}.

(** The [data] of [.maybeSingle()]: the row when exactly one matches,
    [null] when none does, and [null] beside an error when several do. *)
Definition maybeSingle {A} (rows : list A) : option A :=
  match rows with
  | [r] => Some r
  | _ => None
  end.

(** The grant of the team to the user in [resource_access]. *)
Definition select_team_access (dir : Directory) (teamId userId : Id)
    : option ResourceAccessRow :=
  maybeSingle
    (filter (fun a => ra_resource_type a = "team"
                      /\ ra_resource_id a = teamId
                      /\ ra_user_id a = userId)
            (resource_access dir)).

Definition teamNotFound {A} : M A := throw (simpleError "Team not found").

Definition db_set_members (rows : list MemberRow) (d : Db) : Db :=
  mkDb (collaborative_tasks d) (task_assignments d) (agent_contributions d)
       rows (teams d) (agents d) (share_requests d) (task_attachments d).

Definition db_set_attachments (rows : list AttachmentRow) (d : Db) : Db :=
  mkDb (collaborative_tasks d) (task_assignments d) (agent_contributions d)
       (team_members d) (teams d) (agents d) (share_requests d) rows.

(** The element of [task.assignments] built from a selected row. *)
Definition assignment_view (roles : gmap Id string) (a : AssignmentWithAgent)
    : AssignmentView :=
  mkAssignmentView (aw_row a) (a_agent_id (aw_row a)) (ag_name <$> aw_agents a)
                   (role_of roles (a_agent_id (aw_row a))).

(** An element of the array returned by [getTasksByTeam]. *)
Record TaskListItem := mkTaskListItem {
  tl_task : TaskRow;
  tl_versionCount : nat;
  tl_assignments : list AssignmentView
}.

(** The columns that [getTaskWithVersions] selects of each version,
    with the embedded [users (name)]. *)
Record VersionRow := mkVersionRow {
  vr_id : Id;
  vr_title : string;
  vr_version_number : Z;
  vr_status : string;
  vr_created_at : Timestamp;
  vr_completed_at : option Timestamp;
  vr_feedback : option Z;
  vr_parent_task_id : option Id;
  vr_user_id : Id;
  vr_users_name : option string
}.

Record VersionView := mkVersionView {
  vv_row : VersionRow;
  vv_creatorId : Id;
  vv_creatorName : option string;
  vv_isOwner : Z;
  vv_canEdit : Z
}.

Definition version_row (dir : Directory) (t : TaskRow) : VersionRow :=
  mkVersionRow (t_id t) (t_title t) (t_version_number t) (t_status t)
               (t_created_at t) (t_completed_at t) (t_feedback t)
               (t_parent_task_id t) (t_user_id t)
               (List.find (fun u => String.eqb (u_id u) (t_user_id t))
                          (users dir) ≫= u_name).

(** The rows of a family: the root and the rows that name it as parent,
    in ascending [version_number]. *)
Definition select_family (rootTaskId : Id) (d : Db) : list TaskRow :=
  order_by (fun a b => (t_version_number a <=? t_version_number b)%Z)
           (filter (fun t => t_id t = rootTaskId
                             \/ t_parent_task_id t = Some rootTaskId)
                   (collaborative_tasks d)).

Definition version_view (userId : Id) (v : VersionRow) : VersionView :=
  mkVersionView v (vr_user_id v) (vr_users_name v)
                (if bool_decide (vr_user_id v = userId) then 1 else 0)%Z 1%Z.

(** The root tasks of a team, newest first. *)
Definition select_root_tasks (teamId : Id) (d : Db) : list TaskRow :=
  order_by (fun a b => (t_created_at b <=? t_created_at a)%nat)
           (filter (fun t => t_team_id t = teamId /\ t_parent_task_id t = None)
                   (collaborative_tasks d)).

(** [count: 'exact'] over [id.eq.X,parent_task_id.eq.X]. *)
Definition count_versions (taskId : Id) (d : Db) : nat :=
  length (filter (fun t => t_id t = taskId \/ t_parent_task_id t = Some taskId)
                 (collaborative_tasks d)).

Record MemberInput := mkMemberInput {
  mi_agentId : Id;
  mi_role : string;
  mi_isPrimaryAgent : option bool
}.

Record TeamInput := mkTeamInput {
  ti_name : string;
  ti_description : option string;
  ti_objective : option string;
  ti_members : list MemberInput
}.

Record TeamUpdate := mkTeamUpdate {
  tu_name : option string;
  tu_description : option string;
  tu_objective : option string;
  tu_status : option string
}.

(** The [updates] object of [updateTeam] applied to a row: a property
    that is not [undefined] replaces the column, and [updated_at] is
    always replaced. *)
Definition apply_team_update (data : TeamUpdate) (at_ : Timestamp)
    (t : TeamRow) : TeamRow :=
  mkTeam (tm_id t) (default (tm_name t) (tu_name data))
         (default (tm_description t) (tu_description data)) (tm_user_id t)
         (default (tm_objective t) (tu_objective data))
         (default (tm_status t) (tu_status data)) (tm_created_at t) at_.

Section MoreCollaboration.
Variable env : Oracle.
Variable dir : Directory.

(** *** verifyTeamAccess *)

Definition verifyTeamAccess (teamId userId : Id) : M unit :=
  r ← select env (fun d => single (filter (fun t => tm_id t = teamId)
                                          (teams d)));
  match r with
  | inr (inr team) =>
      if bool_decide (tm_user_id team = userId) then ret tt
      else
        r ← select env (fun _ => select_team_access dir teamId userId);
        match r with
        | inr (Some _) => ret tt
        | _ =>
            r ← select env (fun d =>
                   filter (fun g => ag_user_id g = tm_user_id team) (agents d));
            let ownerAgents := match r with inr rows => rows | inl _ => [] end in
            match ownerAgents with
            | [] => teamNotFound
            | _ =>
                let agentIds := map ag_id ownerAgents in
                r ← select env (select_shared_access agentIds userId);
                match r with
                | inr (Some _) => ret tt
                | _ => teamNotFound
                end
            end
        end
  | _ => teamNotFound
  end.

(** *** getTasksByTeam *)

Definition getTasksByTeam (teamId userId : Id) : M (list TaskListItem) :=
  verifyTeamAccess teamId userId;;
  r ← select env (select_root_tasks teamId);
  tasks ← throw_if_error r;
  for_of tasks
    (fun acc task =>
       r ← select env (count_versions (t_id task));
       let versionCount := match r with inr n => n | inl _ => 0%nat end in
       r ← select env (select_assignments (t_id task));
       assignments ← throw_if_error r;
       r ← select env (select_team_members teamId);
       teamMembers ← throw_if_error r;
       let roles := agentRoleMap teamMembers in
       ret (acc ++ [mkTaskListItem task versionCount
                                   (map (assignment_view roles) assignments)])%list)
    [].

(** *** getTaskWithVersions *)

Definition getTaskWithVersions (taskId userId : Id)
    : M (TaskView * list VersionView) :=
  task ← getTaskById env taskId userId;
  let rootTaskId :=
    Js.or_else (t_parent_task_id (tv_task task)) (t_id (tv_task task)) in
  r ← select env (fun d => map (version_row dir) (select_family rootTaskId d));
  versions ← throw_if_error r;
  ret (task, map (version_view userId) versions).

(** *** deleteTask *)

Definition deleteTask (taskId userId : Id) : M unit :=
  task ← getTaskById env taskId userId;
  if bool_decide (t_user_id (tv_task task) = userId) then
    r ← mutate env (fun d =>
           db_set_assignments
             (filter (fun a => a_task_id a <> taskId) (task_assignments d)) d);
    throw_if_error r;;
    r ← mutate env (fun d =>
           db_set_attachments
             (filter (fun a => at_task_id a <> taskId) (task_attachments d)) d);
    throw_if_error r;;
    r ← mutate env (fun d =>
           db_set_tasks
             (filter (fun t => ~ (t_id t = taskId /\ t_user_id t = userId))
                     (collaborative_tasks d)) d);
    throw_if_error r
  else throw (simpleError "Only the task owner can delete tasks").

End MoreCollaboration.

Section MoreTeams.
Variable env : Oracle.
Variable dir : Directory.

(** *** getTeamById *)

Definition getTeamById (teamId userId : Id) : M Team :=
  r ← select env (fun d => filter (fun t => tm_id t = teamId) (teams d));
  teams_ ← throw_if_error r;
  match teams_ with
  | [] => teamNotFound
  | team :: _ =>
      (if bool_decide (tm_user_id team = userId) then ret tt
       else
         r ← select env (fun _ => select_team_access dir teamId userId);
         match r with
         | inr (Some _) => ret tt
         | _ =>
             r ← select env (fun d =>
                    filter (fun g => ag_user_id g = tm_user_id team) (agents d));
             let ownerAgents :=
               match r with inr rows => rows | inl _ => [] end in
             match ownerAgents with
             | [] => teamNotFound
             | _ =>
                 let agentIds := map ag_id ownerAgents in
                 r ← select env (select_shared_access agentIds userId);
                 match r with
                 | inr (Some _) => ret tt
                 | _ => teamNotFound
                 end
             end
         end);;
      members ← getTeamMembers env teamId;
      ret (mkTeamView team members)
  end.

(** *** createTeam *)

Definition insert_team (t : TeamRow) (d : Db) : Db :=
  db_set_teams (teams d ++ [t])%list d.

Definition insert_member (m : MemberRow) (d : Db) : Db :=
  db_set_members (team_members d ++ [m])%list d.

Definition createTeam (userId : Id) (data : TeamInput) : M Team :=
  teamId ← randomUUID env;
  now_ ← now env;
  r ← mutate env
        (insert_team
           (mkTeam teamId (ti_name data) (Js.or_else (ti_description data) "")
                   userId (Js.or_else (ti_objective data) "") "ACTIVE"
                   now_ now_));
  throw_if_error r;;
  for_of (ti_members data)
    (fun _ member =>
       id ← randomUUID env;
       r ← mutate env
             (insert_member
                (mkMember id teamId (mi_agentId member) (mi_role member)
                          (default false (mi_isPrimaryAgent member)) now_));
       throw_if_error r)
    tt;;
  getTeamById teamId userId.

(** *** updateTeam *)

Definition updateTeam (teamId userId : Id) (data : TeamUpdate) : M Team :=
  now_ ← now env;
  r ← mutate env (fun d =>
         db_set_teams
           (update_where (fun t => bool_decide (tm_id t = teamId)
                                   && bool_decide (tm_user_id t = userId))
                         (apply_team_update data now_) (teams d)) d);
  throw_if_error r;;
  getTeamById teamId userId.

(** *** addTeamMember *)

Record AddMemberInput := mkAddMemberInput {
  am_agentId : Id;
  am_role : string;
  am_isPrimaryAgent : option bool
}.

Definition addTeamMember (teamId userId : Id) (data : AddMemberInput)
    : M unit :=
  getTeamById teamId userId;;
  id ← randomUUID env;
  added ← now env;
  r ← mutate env
        (insert_member
           (mkMember id teamId (am_agentId data) (am_role data)
                     (default false (am_isPrimaryAgent data)) added));
  throw_if_error r.

(** *** removeTeamMember *)

Definition removeTeamMember (teamId userId memberId : Id) : M unit :=
  getTeamById teamId userId;;
  r ← mutate env (fun d =>
         db_set_members
           (filter (fun m => ~ (m_id m = memberId /\ m_team_id m = teamId))
                   (team_members d)) d);
  throw_if_error r.

End MoreTeams.

(** ** More of the TaskResults page *)

(** [removeFile(index)]: [versionFiles.filter((_, i) => i !== index)]. *)
Fixpoint filter_index {A} (keep : nat -> bool) (i : nat) (l : list A)
    : list A :=
  match l with
  | [] => []
  | x :: l' =>
      if keep i then x :: filter_index keep (S i) l'
      else filter_index keep (S i) l'
  end.

Definition removeFile {A} (versionFiles : list A) (index : nat) : list A :=
  filter_index (fun i => negb (i =? index)%nat) 0 versionFiles.

(** The feedback buttons pressed one after the other, from the state
    [feedback]: the final state and the values posted, in order. *)
Fixpoint press (feedback : Z) (values : list Z) : Z * list Z :=
  match values with
  | [] => (feedback, [])
  | value :: rest =>
      let (feedback', posted) := handleFeedback feedback value in
      let (final, later) := press feedback' rest in
      (final, match posted with
              | Some p => p :: later
              | None => later
              end)
  end.

(** ** Vocabulary of the further properties *)

(** An agent owned by [owner] is shared with [userId] by an approved
    share request. *)
Definition has_agent_share (d : Db) (owner userId : Id) : Prop :=
  exists g s,
    g ∈ agents d /\ ag_user_id g = owner
    /\ s ∈ share_requests d
    /\ sr_resource_type s = "agent" /\ sr_resource_id s = ag_id g
    /\ sr_requester_user_id s = userId /\ sr_status s = "approved".

(** [userId] owns the task, or owns its team, or holds a share of an
    agent of the team's owner. *)
Definition may_view_task (d : Db) (task : TaskRow) (userId : Id) : Prop :=
  t_user_id task = userId
  \/ exists team,
       team ∈ teams d /\ tm_id team = t_team_id task
       /\ (tm_user_id team = userId
           \/ has_agent_share d (tm_user_id team) userId).

(** [userId] owns the team, or was granted it in [resource_access], or
    holds a share of an agent of the team's owner. *)
Definition may_view_team (dir : Directory) (d : Db) (team : TeamRow)
    (userId : Id) : Prop :=
  tm_user_id team = userId
  \/ (exists a, a ∈ resource_access dir /\ ra_resource_type a = "team"
                /\ ra_resource_id a = tm_id team /\ ra_user_id a = userId)
  \/ has_agent_share d (tm_user_id team) userId.

(** The role shown for an agent in a team: the role of the last
    [team_members] row of that agent among [members], and 'Agent' when
    there is no such row or its role is empty. *)
Definition shown_role (members : list MemberRow) (agent_id : Id) : string :=
  Js.or_else (m_role <$> last (filter (fun m => m_agent_id m = agent_id) members))
             "Agent".

(** The element of [team.members] built from a selected row. *)
Definition team_member_view (m : MemberWithAgent) : TeamMemberView :=
  mkTeamMemberView (m_id (mw_row m)) (m_team_id (mw_row m))
                   (m_agent_id (mw_row m)) (m_role (mw_row m))
                   (m_is_primary_agent (mw_row m)) (m_added_at (mw_row m))
                   (ag_name <$> mw_agents m) (ag_type <$> mw_agents m)
                   (mw_agents m ≫= ag_status) (mw_agents m ≫= ag_avatar).

(** The order of [team.members]: a primary agent before one that is
    not, and otherwise the earlier added first. *)
Definition member_before (a b : TeamMemberView) : Prop :=
  (tmv_isPrimaryAgent a = true /\ tmv_isPrimaryAgent b = false)
  \/ (tmv_isPrimaryAgent a = tmv_isPrimaryAgent b
      /\ tmv_addedAt a <= tmv_addedAt b).

(** The teams that [getTeamsByUser] lists for a user. *)
Definition active_teams_of (userId : Id) (d : Db) : list TeamRow :=
  filter (fun t => tm_user_id t = userId /\ tm_status t = "ACTIVE") (teams d).

(** The subtask that the validation loop of [generateSubtasks] keeps
    for an agent: the one the reply names for it, else the default. *)
Definition validated_subtask (subtasks : list (option SubtaskJson))
    (agent : AgentProfile) : Subtask :=
  match find_subtask subtasks (ap_id agent) with
  | inr (Some s) => mkSubtask (ap_id agent) (sj_description s)
  | _ => default_subtask agent
  end.

(** The text that [synthesizeResults] falls back to. *)
Definition synthesis_fallback (contributions : list Contribution) : string :=
  Js.join (newline ++ newline)
          (map (fun c => agentName c ++ ": " ++ result c) contributions).

(** An event that closes the stream of [executeCollaborativeTask]. *)
Definition terminal (e : string * EventData) : Prop :=
  e.1 = "complete" \/ e.1 = "error".

(** The two events that [executeCollaborativeTask] writes itself
    before the closing one. *)
Definition event_started : string * EventData :=
  ("status", DataMessage (Some "Starting collaborative task execution...")).

Definition event_synthesizing : string * EventData :=
  ("synthesis", DataMessage (Some "Synthesizing team results...")).

(** The response [r'] is [r] with more events written, none of them
    closing the stream. *)
Definition stream_grows (r r' : Response) : Prop :=
  res_head r' = res_head r /\ res_ended r' = res_ended r
  /\ exists events, res_events r' = (res_events r ++ events)%list
                    /\ Forall (fun e => ~ terminal e) events.

(** Every run of [m] takes the world along the relation [P]. *)
Definition run_step (P : World -> World -> Prop) {A} (m : M A) : Prop :=
  forall w, P w (snd (m w)).

(** The task row [t'] is [t] but for [status], [result] and
    [completed_at]. *)
Definition task_progress (t t' : TaskRow) : Prop :=
  t' = mkTask (t_id t) (t_team_id t) (t_user_id t) (t_title t)
              (t_description t) (t_status t') (t_priority t)
              (t_version_number t) (t_parent_task_id t) (t_created_at t)
              (t_result t') (t_completed_at t') (t_feedback t).

(** The assignment row [a'] is [a] but for [status], [result],
    [started_at] and [completed_at]. *)
Definition assignment_progress (a a' : AssignmentRow) : Prop :=
  a' = mkAssignment (a_id a) (a_task_id a) (a_agent_id a)
                    (a_subtask_description a) (a_status a')
                    (a_execution_order a) (a_result a') (a_started_at a')
                    (a_completed_at a').

(** What an execution of the task [taskId], whose assignment rows have
    the ids [ids], may do to the database: no row of
    [collaborative_tasks] or [task_assignments] is added, removed or
    moved; a task row of another id and an assignment row of another id
    than [ids] are left as they are, the others progress; rows of the
    task are appended to [agent_contributions]; the other tables are
    left as they are. *)
Definition execution_frame (taskId : Id) (ids : list Id) (d d' : Db) : Prop :=
  team_members d' = team_members d /\ teams d' = teams d
  /\ agents d' = agents d /\ share_requests d' = share_requests d
  /\ task_attachments d' = task_attachments d
  /\ Forall2 (fun t t' => task_progress t t' /\ (t_id t <> taskId -> t' = t))
             (collaborative_tasks d) (collaborative_tasks d')
  /\ Forall2 (fun a a' => assignment_progress a a'
                          /\ (a_id a ∉ ids -> a' = a))
             (task_assignments d) (task_assignments d')
  /\ exists extra,
       agent_contributions d' = (agent_contributions d ++ extra)%list
       /\ Forall (fun c => c_task_id c = taskId) extra.

(** The ids of the assignment rows of a task. *)
Definition assignment_ids (taskId : Id) (d : Db) : list Id :=
  map a_id (filter (fun a => a_task_id a = taskId) (task_assignments d)).

(** The assignment row was executed to its end. *)
Definition assignment_completed (a : AssignmentRow) : Prop :=
  a_status a = "COMPLETED" /\ is_Some (a_result a)
  /\ is_Some (a_completed_at a).

(** The database after a turn of the loop of [executeCollaborativeTask]
    that ran to its end for the assignment [id], started at [started]
    and completed at [completed] with [result], and saved the
    contribution [c]. *)
Definition assignment_executed (id : Id) (started completed : Timestamp)
    (result : string) (c : ContributionRow) (d : Db) : Db :=
  insert_contribution c
    (db_set_assignments
       (update_where (fun a => bool_decide (a_id a = id))
          (assignment_set_completed result completed)
          (update_where (fun a => bool_decide (a_id a = id))
             (assignment_set_started started) (task_assignments d)))
       d).

(** The attachment is an image whose file can be read. *)
Definition image_read (fs_ : string -> FsEntry) (att : AttachmentRow) : bool :=
  is_image att
  && match fs_ (at_file_path att) with
     | FsFile _ => true
     | FsMissing | FsUnreadable => false
     end.

(** The line that lists an attachment that is not an image. *)
Definition document_line (att : AttachmentRow) : string :=
  at_original_file_name att ++ " (" ++ show_null (at_file_type att) ++ ")".

(** ** The execution callback of the TaskResults page *)

(** The two pieces of state that [handleExecute] sets. *)
Record ExecutionState := mkExecutionState {
  isExecuting : bool;
  executionMessage : string
}.

(** [data.message] and [data.agentName] of the payload of an event. *)
Definition data_message (data : EventData) : option string :=
  match data with
  | DataMessage m => m
  | _ => None
  end.

Definition data_agentName (data : EventData) : option string :=
  match data with
  | DataAgentStart _ n _ _ => Some n
  | DataAgentComplete _ n _ => Some n
  | _ => None
  end.

(** The callback that [handleExecute] passes to [executeTask]: the
    state after one event.  The timers that clear the message later
    are left out. *)
Definition handleExecute_onEvent (st : ExecutionState)
    (ev : string * EventData) : ExecutionState :=
  let (event, data) := ev in
  if String.eqb event "status" then
    mkExecutionState (isExecuting st)
                     (Js.or_else (data_message data) "Processing...")
  else if String.eqb event "agent_start" then
    mkExecutionState (isExecuting st)
                     (Js.or_else (data_agentName data) "Agent"
                      ++ " is working...")
  else if String.eqb event "agent_complete" then
    mkExecutionState (isExecuting st)
                     (Js.or_else (data_agentName data) "Agent" ++ " completed")
  else if String.eqb event "synthesis" then
    mkExecutionState (isExecuting st) "Synthesizing results..."
  else if String.eqb event "complete" then
    mkExecutionState false "Task completed successfully!"
  else if String.eqb event "error" then
    mkExecutionState false
                     ("Error: "
                      ++ Js.or_else (data_message data) "Execution failed")
  else st.

(** ** A deployment with shared access *)

Module Sharing.

(** Bob holds an approved share of one of Alice's agents. *)
Definition share1 : ShareRequestRow :=
  mkShareRequest "agent" "agent-1" "bob" "approved".

Definition db_shared : Db :=
  mkDb [Scenario.task1; Scenario.task1_v2]
       [Scenario.assignment1; Scenario.assignment2] []
       [Scenario.member1; Scenario.member2] [Scenario.team1]
       [Scenario.researcher; Scenario.writer] [share1] [].

(** Carol was granted Alice's team. *)
Definition dir0 : Directory :=
  mkDirectory [mkResourceAccess "ra-1" "team" "team-1" "carol"]
              [mkUser "alice" (Some "Alice")].

Definition new_team : TeamInput :=
  mkTeamInput "Support" None (Some "Answer tickets")
              [mkMemberInput "agent-1" "Triage" (Some true);
               mkMemberInput "agent-2" "Replies" None].

Definition rename : TeamUpdate :=
  mkTeamUpdate (Some "Launch 2") None None None.

End Sharing.

(** [userId] owns the task, or owns its team, or holds an approved
    share of an agent that is a member of its team. *)
Definition may_rate_task (d : Db) (task : TaskRow) (userId : Id) : Prop :=
  t_user_id task = userId
  \/ exists team,
       team ∈ teams d /\ tm_id team = t_team_id task
       /\ (tm_user_id team = userId
           \/ exists m s,
                m ∈ team_members d /\ m_team_id m = tm_id team
                /\ s ∈ share_requests d
                /\ sr_resource_type s = "agent"
                /\ sr_resource_id s = m_agent_id m
                /\ sr_requester_user_id s = userId
                /\ sr_status s = "approved").

(** ** Vocabulary of the exact statements *)

(** *** The decomposition, by the replies of the provider *)

(** The reply that [generateSubtasks] reads when its first request is
    the [k]-th of the run: the reply to the first request, or, when the
    first request fails with a model error, the reply to the fallback
    request. *)
Definition decomposition_reply (env : Oracle) (k : nat) (prompt : string)
    : option ChatCompletion :=
  match llm env k (decompositionRequest "gpt-4o-mini" prompt) with
  | inr c => Some c
  | inl e =>
      if isModelError e then
        match llm env (S k) (decompositionRequest "gpt-3.5-turbo" prompt) with
        | inr c => Some c
        | inl _ => None
        end
      else None
  end.

(** The requests that [generateSubtasks] sends. *)
Definition decomposition_calls (env : Oracle) (k : nat) (prompt : string)
    : list ChatRequest :=
  match llm env k (decompositionRequest "gpt-4o-mini" prompt) with
  | inr _ => [decompositionRequest "gpt-4o-mini" prompt]
  | inl e =>
      if isModelError e then
        [decompositionRequest "gpt-4o-mini" prompt;
         decompositionRequest "gpt-3.5-turbo" prompt]
      else [decompositionRequest "gpt-4o-mini" prompt]
  end.

(** The array that the reply parses to: none without a reply, without
    a choice in the reply, or when the content does not parse. *)
Definition parsed_subtasks (env : Oracle) (k : nat) (prompt : string)
    : option (list (option SubtaskJson)) :=
  c ← decomposition_reply env k prompt;
  choice ← head (choices c);
  parse_subtasks env (Js.or_else (message_content choice) "[]").

(** The search for the subtask of every agent goes through: none of
    them meets a [null] element of the array. *)
Definition searchable (subtasks : list (option SubtaskJson))
    (profiles : list AgentProfile) : bool :=
  forallb (fun p => match find_subtask subtasks (ap_id p) with
                    | inr _ => true
                    | inl _ => false
                    end)
          profiles.

(** The subtasks of a team for the replies of the provider: for every
    member the subtask that the parsed reply names for its agent, or
    else the default one; and the generic subtask for every member when
    there is no parsed reply or the search fails. *)
Definition expected_subtasks (env : Oracle) (k : nat)
    (taskDescription : string) (members : list MemberWithAgent)
    : list Subtask :=
  let profiles := map agentProfile members in
  match parsed_subtasks env k (decompositionPrompt taskDescription profiles) with
  | Some parsed =>
      if searchable parsed profiles
      then map (validated_subtask parsed) profiles
      else map generic_subtask members
  | None => map generic_subtask members
  end.

(** *** A deployment where a request fails *)

Module Failing.


(** The third request to the database fails: in a run of
    [getTasksByTeam] for the owner of the team this is the count of the
    family of the first task. *)
Definition third_request_fails : Oracle :=
  mkOracle (fun k => if (k =? 2)%nat then Some Scenario.server_error else None)
           (fun _ _ => inr (Scenario.sure_reply "ok")) Scenario.uuid_of
           (fun k => (10 + k)%nat) (fun _ => FsMissing) (fun _ => None)
           (fun _ => Some None).

(** The seventh request to the database fails: in a run of
    [executeCollaborativeTask] this is the write of the result of the
    first agent. *)
Definition seventh_request_fails : Oracle :=
  mkOracle (fun k => if (k =? 6)%nat then Some Scenario.server_error else None)
           (fun _ _ => inr (Scenario.sure_reply "ok")) Scenario.uuid_of
           (fun k => (10 + k)%nat) (fun _ => FsMissing) (fun _ => None)
           (fun _ => Some None).

End Failing.

(** * Properties *)

Local Open Scope list_scope.

(** ** computeConfidenceFromLogprobs *)




(** ** Runs of the services on the small deployment *)

Section Runs.
Import Scenario.

Local Open Scope R_scope.

Lemma sure_reply_confidence (text : string) :
  computeConfidenceFromLogprobs
    (Some (mkChoiceLogprobs (Some [mkTokenLogprob text (Some 0)])))
  = Some 100.
Proof.
  unfold computeConfidenceFromLogprobs; cbn.
  f_equal. replace ((0 + 0) / 1) with 0 by lra. rewrite exp_0.
  rewrite Rmax_right by lra. rewrite Rmin_left by lra. lra.
Qed.

(** C1, at a failing input: alice runs her task with two agents whose
    replies carry one token of log-probability 0.  The confidence
    computed from each reply is 100, and the two rows written to
    [agent_contributions] both hold the constant 0.85. *)
Theorem persisted_confidence_ignores_logprobs :
  let w := snd (executeCollaborativeTask calm "task-1" "alice"
                                         (initial_world db0)) in
  map (fun c => (c_agent_id c, c_contribution c, c_confidence c))
      (agent_contributions (db w))
  = [("agent-1", "ok", 0.85); ("agent-2", "ok", 0.85)]
  /\ (forall k req,
        exists c, llm calm k req = inr (mkCompletion [c])
                  /\ computeConfidenceFromLogprobs (choice_logprobs c)
                     = Some 100)
  /\ 0.85 <> 100.
Proof.
  split; [vm_compute; reflexivity|]. split; [|lra].
  intros k req. eexists; split; [reflexivity|].
  apply sure_reply_confidence.
Qed.

Local Close Scope R_scope.

(** C2, refuted: the LLM call of the first agent fails with a server
    error; its assignment is nevertheless saved as COMPLETED with the
    error text as result, the second agent is then executed, and the
    task ends COMPLETED instead of rolling back to PENDING. *)
Lemma failed_llm_call_is_persisted_completed :
  let run := executeCollaborativeTask (first_call_fails server_error)
                                      "task-1" "alice" (initial_world db0) in
  (exists req, llm_log (snd run) !! 0%nat = Some req
               /\ llm (first_call_fails server_error) 0 req = inl server_error)
  /\ map (fun a => (a_id a, a_status a, a_result a))
         (task_assignments (db (snd run)))
     = [("as-1", "COMPLETED",
         Some "Error executing subtask: Error: 500 upstream failure");
        ("as-2", "COMPLETED", Some "ok")]
  /\ map (fun e => fst e) (res_events (res (snd run)))
     = ["status"; "agent_start"; "agent_complete"; "agent_start";
        "agent_stream"; "agent_complete"; "synthesis"; "complete"]
  /\ map t_status (collaborative_tasks (db (snd run))) = ["COMPLETED"].
Proof.
  split; [eexists; split; [vm_compute; reflexivity | reflexivity]|].
  repeat split; vm_compute; reflexivity.
Qed.

(** C3, at a failing input: bob runs the task that alice owns.  The
    first request sets the task to IN_PROGRESS without looking at the
    owner, the owner-filtered select then finds no row, and the
    task-not-found path ends the response without resetting the
    status. *)
Theorem task_not_found_path_leaves_in_progress :
  let run := executeCollaborativeTask calm "task-1" "bob"
                                      (initial_world db0) in
  fst run = Ok tt
  /\ map (fun t => (t_id t, t_user_id t, t_status t))
         (collaborative_tasks (db (snd run)))
     = [("task-1", "alice", "IN_PROGRESS")]
  /\ res_events (res (snd run))
     = [("status",
         DataMessage (Some "Starting collaborative task execution..."));
        ("error", DataMessage (Some "Task not found"))]
  /\ res_ended (res (snd run)) = true.
Proof. repeat split; vm_compute; reflexivity. Qed.

(** C6, at a failing input: the family of [task-1] already holds
    version 2 ([task-2]); a further version created from [task-2] is
    numbered from the root and gets version 2 again. *)
Theorem second_version_repeats_version_number :
  let run := createTaskVersion calm "task-2" "alice" no_updates
                               (initial_world db_versions) in
  (exists v, fst run = Ok v
             /\ t_id (tv_task v) = "uuid-0"
             /\ t_parent_task_id (tv_task v) = Some "task-1"
             /\ t_version_number (tv_task v) = 2%Z)
  /\ map (fun t => (t_id t, t_parent_task_id t, t_version_number t))
         (collaborative_tasks (db (snd run)))
     = [("task-1", None, 1%Z); ("task-2", Some "task-1", 2%Z);
        ("uuid-0", Some "task-1", 2%Z)].
Proof.
  split; [eexists; split; [vm_compute; reflexivity|]|];
    repeat split; vm_compute; reflexivity.
Qed.


(** C9, refuted: in [executeAgentSubtask] a 404 on the default model is
    not retried at all, and in [synthesizeResults] an error that is
    neither a 404 nor [model_not_found] but whose message mentions the
    word model (here a 429) is retried. *)
Lemma fallback_is_not_uniform :
  (let run := executeAgentSubtask_completion
                (first_call_fails not_found_error) "gpt-4o-mini" []
                (initial_world db0) in
   fst run = Throw not_found_error
   /\ map req_model (llm_log (snd run)) = ["gpt-4o-mini"])
  /\ (let run := synthesizeResults_completion
                   (first_call_fails rate_limit_error) "p"
                   (initial_world db0) in
      err_status rate_limit_error = Some 429%Z
      /\ err_code rate_limit_error = None
      /\ err_error_code rate_limit_error = None
      /\ fst run = Ok (sure_reply "ok")
      /\ map req_model (llm_log (snd run)) = ["gpt-4o-mini"; "gpt-3.5-turbo"]).
Proof. repeat split; vm_compute; reflexivity. Qed.

(** The requests of an undisturbed run of alice's task, in order: the
    first agent without contributions, the second agent with the
    contribution of the first, the synthesis with both. *)
Lemma calm_run_requests :
  let run := executeCollaborativeTask calm "task-1" "alice"
                                      (initial_world db0) in
  let c1 := mkContrib "Researcher" "Research" "ok" in
  let c2 := mkContrib "Writer" "Writing" "ok" in
  llm_log (snd run)
  = [agentCall row1 "Plan the launch" [] [] [];
     agentCall row2 "Plan the launch" [c1] [] [];
     synthesisRequest "gpt-4o-mini" (synthesisPrompt "Plan the launch" [c1; c2])].
Proof. vm_compute. reflexivity. Qed.

(** The two substitutions of [generateSubtasks], run: when the reply
    names no subtask for [agent-1] that agent gets the default subtask,
    and when the reply cannot be parsed every member gets the generic
    one; both tasks end up with one assignment per member. *)
Lemma decomposition_gaps_are_filled :
  (let run := createCollaborativeTask partial_decomposition "team-1" "alice"
                                      new_task (initial_world db0) in
   map (fun a => (a_task_id a, a_agent_id a, a_subtask_description a,
                  a_execution_order a))
       (drop 2 (task_assignments (db (snd run))))
   = [("uuid-0", "agent-1",
       Some "Provide analysis and insights from the perspective of Research.",
       1);
      ("uuid-0", "agent-2", Some "Write the plan", 2)])
  /\ (let run := createCollaborativeTask calm "team-1" "alice" new_task
                                         (initial_world db0) in
      map (fun a => (a_task_id a, a_agent_id a, a_subtask_description a,
                     a_execution_order a))
          (drop 2 (task_assignments (db (snd run))))
      = [("uuid-0", "agent-1",
          Some "Analyze the task from the perspective of Research.", 1);
         ("uuid-0", "agent-2",
          Some "Analyze the task from the perspective of Writing.", 2)]).
Proof. split; vm_compute; reflexivity. Qed.

End Runs.

(** ** The LLM call sites *)

Lemma isModelError_cases (e : JsError) :
  isModelError e = true <->
  err_status e = Some 404%Z
  \/ err_code e = Some "model_not_found"
  \/ (exists m, err_message e = Some m
                /\ Js.includes (Js.toLowerCase m) "model" = true)
  \/ err_error_code e = Some "model_not_found".
Proof.
  unfold isModelError.
  rewrite !orb_true_iff, !bool_decide_eq_true.
  split.
  - intros [[[H|H]|H]|H]; auto.
    destruct (err_message e) as [m|]; [|discriminate].
    right; right; left. by exists m.
  - intros [H|[H|[(m & Hm & H)|H]]]; auto.
    left; right. by rewrite Hm.
Qed.

(** C9, amended: each of the three call sites sends its request once
    and retries at most once with a fixed model name.  In
    [generateSubtasks] and [synthesizeResults] the retry goes to
    gpt-3.5-turbo whenever [isModelError] holds of the error; in
    [executeAgentSubtask] it goes to gpt-4o-mini, and only when
    [isModelError] holds and the requested model is not gpt-4o-mini
    already.  Every other error, and any error of the retry, leaves the
    call site at once. *)
Theorem llm_call_sites_single_fallback
    (env : Oracle) (prompt model : string) (messages : list ChatMessage) :
  single_fallback env (generateSubtasks_completion env prompt)
                  (decompositionRequest "gpt-4o-mini" prompt)
                  (decompositionRequest "gpt-3.5-turbo" prompt)
                  isModelError
  /\ single_fallback env (executeAgentSubtask_completion env model messages)
                     (agentRequest model messages)
                     (agentRequest "gpt-4o-mini" messages)
                     (fun e => isModelError e
                               && negb (bool_decide (model = "gpt-4o-mini")))
  /\ single_fallback env (synthesizeResults_completion env prompt)
                     (synthesisRequest "gpt-4o-mini" prompt)
                     (synthesisRequest "gpt-3.5-turbo" prompt)
                     isModelError.
Proof.
  repeat split; intros w;
    unfold generateSubtasks_completion, executeAgentSubtask_completion,
           synthesizeResults_completion, try_catch, openai_create;
    destruct (llm env (n_llm w) _) as [e|c] eqn:Hfirst; try reflexivity.
  - destruct (isModelError e); [|reflexivity]. simpl.
    by destruct (llm env (S (n_llm w)) _).
  - destruct (isModelError e && _); [|reflexivity]. simpl.
    by destruct (llm env (S (n_llm w)) _).
  - destruct (isModelError e); [|reflexivity]. simpl.
    by destruct (llm env (S (n_llm w)) _).
Qed.

(** ** Running computations *)

Ltac run_M :=
  unfold mbind, M_bind, bind, mret, M_ret, ret, throw, try_catch, select,
         mutate, supabase, throw_if_error in *;
  simpl in *.

Lemma elem_of_update_where {A} (p : A -> bool) (f : A -> A) (rows : list A)
    (x : A) :
  x ∈ update_where p f rows <->
  exists y, y ∈ rows /\ x = (if p y then f y else y).
Proof.
  unfold update_where. rewrite list_elem_of_fmap.
  split; intros (y & H1 & H2); exists y; auto.
Qed.

Lemma lookup_update_where {A} (p : A -> bool) (f : A -> A) (rows : list A)
    (i : nat) :
  update_where p f rows !! i = (fun r => if p r then f r else r) <$> rows !! i.
Proof. unfold update_where. apply list_lookup_fmap. Qed.

Lemma single_elem {A} (rows : list A) (r : A) :
  single rows = inr r -> rows = [r].
Proof. destruct rows as [|x [|y rows]]; simpl; congruence. Qed.

(** ** recordTaskFeedback *)


(** The TaskResults page posts a feedback value only through
    [handleFeedback(1)] and [handleFeedback(-1)], and a posted value is
    never 0. *)
Lemma handleFeedback_posts_like_or_dislike (feedback value posted : Z) :
  value = 1%Z \/ value = (-1)%Z ->
  snd (handleFeedback feedback value) = Some posted ->
  posted = 1%Z \/ posted = (-1)%Z.
Proof.
  unfold handleFeedback; simpl. intros Hv.
  destruct (bool_decide (feedback = value)); simpl.
  - intros H. cbn in H. discriminate.
  - destruct (bool_decide (value ≠ 0%Z)); intros H; by simplify_eq.
Qed.

(** ** TeamService *)

Lemma elem_of_insert_sorted {A} (le : A -> A -> bool) (x y : A) (l : list A) :
  y ∈ insert_sorted le x l <-> y = x \/ y ∈ l.
Proof.
  induction l as [|z l IH]; simpl.
  - rewrite list_elem_of_singleton.
    split; [auto | intros [H|H]; [done | by apply elem_of_nil in H]].
  - destruct (le x z); rewrite !elem_of_cons; [tauto | rewrite IH; tauto].
Qed.

Lemma elem_of_order_by {A} (le : A -> A -> bool) (y : A) (l : list A) :
  y ∈ order_by le l <-> y ∈ l.
Proof.
  induction l as [|x l IH]; simpl; [done|].
  by rewrite elem_of_insert_sorted, elem_of_cons, IH.
Qed.

Lemma getTeamsByUser_loop (env : Oracle) (teams_ : list TeamRow)
    (acc listing : list Team) (w : World) :
  fst (for_of teams_
         (fun acc team =>
            members ← getTeamMembers env (tm_id team);
            mret (acc ++ [mkTeamView team members])%list)
         acc w) = Ok listing ->
  map team_row listing = map team_row acc ++ teams_.
Proof.
  revert acc w. induction teams_ as [|t teams_ IH]; intros acc w; simpl.
  - intros [= <-]. by rewrite app_nil_r.
  - unfold getTeamMembers. run_M.
    destruct (db_error env (n_db w)); simpl; [done|].
    intros H. apply IH in H. rewrite H, map_app. simpl.
    by rewrite <- app_assoc.
Qed.

(** C8: a successful [deleteTeam] by the owner keeps the team row and
    every row of the table in place, sets the status of the owner's row
    to ARCHIVED and changes no other column of it, changes nothing else
    in the database, and the team is absent from the result of a
    following [getTeamsByUser] for that user. *)
Theorem deleteTeam_archives
    (env : Oracle) (teamId userId : Id) (w : World) :
  fst (deleteTeam env teamId userId w) = Ok tt ->
  let w' := snd (deleteTeam env teamId userId w) in
  length (teams (db w')) = length (teams (db w))
  /\ (forall i t,
        teams (db w) !! i = Some t -> tm_id t = teamId ->
        tm_user_id t = userId ->
        exists t', teams (db w') !! i = Some t'
                   /\ tm_status t' = "ARCHIVED" /\ same_but_status t t')
  /\ (forall i t,
        teams (db w) !! i = Some t ->
        ~ (tm_id t = teamId /\ tm_user_id t = userId) ->
        teams (db w') !! i = Some t)
  /\ db w' = db_set_teams (teams (db w')) (db w)
  /\ (forall listing,
        fst (getTeamsByUser env userId w') = Ok listing ->
        forall team, team ∈ listing -> tm_id (team_row team) <> teamId).
Proof.
  unfold deleteTeam. run_M.
  destruct (db_error env (n_db w)) as [e|] eqn:Herr; simpl; [done|].
  intros _. split; [|split; [|split; [|split]]].
  - unfold update_where. by rewrite length_map.
  - intros i t Hi Hid Hown. rewrite lookup_update_where, Hi. simpl.
    rewrite !bool_decide_eq_true_2 by done. simpl.
    eexists; split; [done|]. by repeat split.
  - intros i t Hi Hno. rewrite lookup_update_where, Hi. simpl.
    destruct (bool_decide (tm_id t = teamId)) eqn:H1;
      destruct (bool_decide (tm_user_id t = userId)) eqn:H2; simpl; try done.
    apply bool_decide_eq_true in H1, H2. tauto.
  - reflexivity.
  - intros listing. unfold getTeamsByUser. run_M.
    destruct (db_error env (S (n_db w))); simpl; [done|].
    intros Hloop%getTeamsByUser_loop team Hteam Hid. simpl in Hloop.
    assert (Hrow : team_row team ∈ map team_row listing)
      by (apply list_elem_of_fmap; eauto).
    rewrite Hloop in Hrow.
    apply elem_of_order_by, list_elem_of_filter in Hrow as [[Hu Hs] Hin].
    apply elem_of_update_where in Hin as (y & _ & Hy).
    destruct (bool_decide (tm_id y = teamId)) eqn:H1;
      destruct (bool_decide (tm_user_id y = userId)) eqn:H2;
      simpl in Hy; rewrite Hy in *; simpl in *; try discriminate.
    + apply bool_decide_eq_false in H2. contradiction.
    + apply bool_decide_eq_false in H1. contradiction.
    + apply bool_decide_eq_false in H1. contradiction.
Qed.

Lemma deleteTeam_archives_witness :
  fst (deleteTeam Scenario.calm "team-1" "alice"
                  (initial_world Scenario.db0)) = Ok tt
  /\ map tm_status
         (teams (db (snd (deleteTeam Scenario.calm "team-1" "alice"
                                     (initial_world Scenario.db0)))))
     = ["ARCHIVED"]
  /\ forall listing,
       fst (getTeamsByUser Scenario.calm "alice"
              (snd (deleteTeam Scenario.calm "team-1" "alice"
                               (initial_world Scenario.db0)))) = Ok listing ->
       forall team, team ∈ listing -> tm_id (team_row team) <> "team-1".
Proof.
  split; [reflexivity|]. split; [reflexivity|].
  apply (deleteTeam_archives Scenario.calm "team-1" "alice"
                             (initial_world Scenario.db0)).
  reflexivity.
Defined.

(** ** Database frames *)

Section DbStep.
Context (P : Db -> Db -> Prop) `{!PreOrder P}.

Lemma db_step_ret {A} (a : A) : db_step P (mret a : M A).
Proof. intros w. simpl. reflexivity. Qed.

Lemma db_step_throw {A} (e : JsError) : db_step P (throw e : M A).
Proof. intros w. simpl. reflexivity. Qed.

Lemma db_step_bind {A B} (m : M A) (k : A -> M B) :
  db_step P m -> (forall a, db_step P (k a)) -> db_step P (m ≫= k).
Proof.
  intros Hm Hk w. unfold mbind, M_bind, bind.
  specialize (Hm w). destruct (m w) as [[a|e] w1]; simpl in *; [|done].
  etrans; [exact Hm | apply Hk].
Qed.

Lemma db_step_try_catch {A} (m : M A) (h : JsError -> M A) :
  db_step P m -> (forall e, db_step P (h e)) -> db_step P (try_catch m h).
Proof.
  intros Hm Hh w. unfold try_catch.
  specialize (Hm w). destruct (m w) as [[a|e] w1]; simpl in *; [done|].
  etrans; [exact Hm | apply Hh].
Qed.

Lemma db_step_for_of {A S} (xs : list A) (body : S -> A -> M S) (acc : S) :
  (forall acc x, db_step P (body acc x)) -> db_step P (for_of xs body acc).
Proof.
  intros Hbody. revert acc. induction xs as [|x xs IH]; intros acc; simpl.
  - apply db_step_ret.
  - apply db_step_bind; [apply Hbody | intros acc'; apply IH].
Qed.

Lemma db_step_supabase (env : Oracle) {A} (q : Db -> A * Db) :
  (forall d, P d (snd (q d))) -> db_step P (supabase env q).
Proof.
  intros Hq w. unfold supabase.
  destruct (db_error env (n_db w)); simpl; [reflexivity|].
  specialize (Hq (db w)). by destruct (q (db w)).
Qed.

Lemma db_step_select (env : Oracle) {A} (q : Db -> A) :
  db_step P (select env q).
Proof. apply db_step_supabase. intros d. simpl. reflexivity. Qed.

Lemma db_step_mutate (env : Oracle) (q : Db -> Db) :
  (forall d, P d (q d)) -> db_step P (mutate env q).
Proof. intros Hq. by apply db_step_supabase. Qed.

Lemma db_step_throw_if_error {A} (r : JsError + A) :
  db_step P (throw_if_error r).
Proof. destruct r; [apply db_step_throw | apply db_step_ret]. Qed.

Lemma db_step_openai_create (env : Oracle) (req : ChatRequest) :
  db_step P (openai_create env req).
Proof.
  intros w. unfold openai_create.
  destruct (llm env (n_llm w) req); simpl; reflexivity.
Qed.

Lemma db_step_randomUUID (env : Oracle) : db_step P (randomUUID env).
Proof. intros w. simpl. reflexivity. Qed.

Lemma db_step_now (env : Oracle) : db_step P (now env).
Proof. intros w. simpl. reflexivity. Qed.

Lemma db_step_writeHead (status : nat) : db_step P (writeHead status).
Proof. intros w. simpl. reflexivity. Qed.

Lemma db_step_sendEvent (event : string) (data : EventData) :
  db_step P (sendEvent event data).
Proof. intros w. simpl. reflexivity. Qed.

Lemma db_step_res_end : db_step P res_end.
Proof. intros w. simpl. reflexivity. Qed.

Lemma db_step_first_choice (response : ChatCompletion) :
  db_step P (first_choice response).
Proof.
  unfold first_choice.
  destruct (choices response); [apply db_step_throw | apply db_step_ret].
Qed.

End DbStep.

(** Takes a goal [db_step P m] apart along the structure of [m]; what
    is left are the writes of [m]. *)
Ltac db_step_go :=
  repeat first
    [ match goal with
      | |- forall _, _ => intros ?
      | |- PreOrder _ => apply _
      end
    | apply db_step_bind
    | apply db_step_try_catch
    | apply db_step_for_of
    | apply db_step_ret
    | apply db_step_throw
    | apply db_step_select
    | apply db_step_throw_if_error
    | apply db_step_openai_create
    | apply db_step_randomUUID
    | apply db_step_now
    | apply db_step_writeHead
    | apply db_step_sendEvent
    | apply db_step_res_end
    | apply db_step_first_choice
    | match goal with
      | |- db_step _ (match ?x with _ => _ end) => destruct x
      end
    | progress cbv zeta ].

(** ** createCollaborativeTask *)



Lemma getTaskById_reads_only (env : Oracle) (taskId userId : Id) :
  reads_only (getTaskById env taskId userId).
Proof. unfold reads_only, getTaskById, notFound. db_step_go. Qed.





(** The validation loop of [generateSubtasks] keeps the world; it
    returns the validated subtasks when the search goes through for
    every agent, and throws otherwise. *)
Lemma generateSubtasks_loop_outcome (subtasks : list (option SubtaskJson))
    (profiles : list AgentProfile) (acc : list Subtask) (w : World) :
  let run :=
    for_of profiles
      (fun result agent =>
         found ← throw_if_error (find_subtask subtasks (ap_id agent));
         match found with
         | Some s => ret (result ++ [mkSubtask (ap_id agent) (sj_description s)])
         | None => ret (result ++ [default_subtask agent])
         end)
      acc w in
  snd run = w
  /\ if searchable subtasks profiles
     then fst run = Ok (acc ++ map (validated_subtask subtasks) profiles)
     else exists e, fst run = Throw e.
Proof.
  revert acc. induction profiles as [|p profiles IH]; intros acc; simpl.
  - split; [done|]. by rewrite app_nil_r.
  - unfold mbind, M_bind, bind, throw_if_error, validated_subtask.
    destruct (find_subtask subtasks (ap_id p)) as [e|[s|]] eqn:Hfind; simpl.
    + split; [done|]. by eexists.
    + destruct (IH (acc ++ [mkSubtask (ap_id p) (sj_description s)]))
        as [Hw Hr].
      split; [done|]. destruct (searchable subtasks profiles); [|done].
      rewrite <- app_assoc in Hr. exact Hr.
    + destruct (IH (acc ++ [default_subtask p])) as [Hw Hr].
      split; [done|]. destruct (searchable subtasks profiles); [|done].
      rewrite <- app_assoc in Hr. exact Hr.
Qed.

(** The subtasks were decided without a usable reply. *)
Ltac generic_subtasks :=
  eexists _, _; split; [reflexivity|]; simpl;
  rewrite <- ?app_assoc; done.

(** The validation loop was reached with the parsed reply. *)
Ltac validated_subtasks parsed :=
  match goal with
  | |- context [for_of ?ps ?body ?acc ?w0] =>
      let Hloop := fresh "Hloop" in
      let Hw := fresh "Hw" in
      let Hr := fresh "Hr" in
      assert (Hloop :
                (for_of ps body acc w0).2 = w0
                /\ if searchable parsed ps
                   then (for_of ps body acc w0).1
                        = Ok (acc ++ map (validated_subtask parsed) ps)
                   else exists e, (for_of ps body acc w0).1 = Throw e)
        by exact (generateSubtasks_loop_outcome parsed ps acc w0);
      destruct Hloop as [Hw Hr];
      revert Hw Hr;
      destruct (for_of ps body acc w0) as [[?|?] ?];
      destruct (searchable parsed ps);
      intros Hw Hr; simpl in *; subst;
      lazymatch type of Hr with
      | Ok _ = Ok _ => injection Hr as ->
      | ex _ => destruct Hr as [? Hr]; try discriminate Hr
      | _ => try discriminate Hr
      end;
      generic_subtasks
  end.

(** [generateSubtasks] by the replies of the provider: it always
    returns, touches neither the database nor the response, sends the
    first request and, after a model error, the fallback request, and
    returns the subtasks that the replies decide. *)
Lemma generateSubtasks_exact (env : Oracle) (taskDescription : string)
    (members : list MemberWithAgent) (w : World) :
  exists subtasks w',
    generateSubtasks env taskDescription members w = (Ok subtasks, w')
    /\ db w' = db w
    /\ res w' = res w
    /\ llm_log w'
       = llm_log w
         ++ decomposition_calls env (n_llm w)
              (decompositionPrompt taskDescription (map agentProfile members))
    /\ subtasks = expected_subtasks env (n_llm w) taskDescription members.
Proof.
  unfold expected_subtasks, parsed_subtasks, decomposition_reply,
         decomposition_calls.
  unfold generateSubtasks, generateSubtasks_completion, first_choice,
         openai_create.
  run_M.
  destruct (llm env (n_llm w) _) as [e|c]; simpl.
  - destruct (isModelError e); simpl; [|generic_subtasks].
    destruct (llm env (S (n_llm w)) _) as [e'|c]; simpl; [generic_subtasks|].
    destruct (choices c) as [|ch chs]; simpl; [generic_subtasks|].
    destruct (parse_subtasks env _) as [parsed|]; simpl; [|generic_subtasks].
    validated_subtasks parsed.
  - destruct (choices c) as [|ch chs]; simpl; [generic_subtasks|].
    destruct (parse_subtasks env _) as [parsed|]; simpl; [|generic_subtasks].
    validated_subtasks parsed.
Qed.


(** ** Inversion of runs *)

Lemma bind_inv_Ok {A B} (m : M A) (k : A -> M B) (w w' : World) (b : B) :
  (m ≫= k) w = (Ok b, w') ->
  exists a w1, m w = (Ok a, w1) /\ k a w1 = (Ok b, w').
Proof.
  unfold mbind, M_bind, bind. destruct (m w) as [[a|e] w1]; [eauto|done].
Qed.

Lemma throw_if_error_inv {A} (r : JsError + A) (w w' : World) (a : A) :
  throw_if_error r w = (Ok a, w') -> r = inr a /\ w' = w.
Proof. destruct r; simpl; unfold throw, ret; intros; by simplify_eq. Qed.

Lemma select_inv (env : Oracle) {A} (q : Db -> A) (w w' : World)
    (r : JsError + A) :
  select env q w = (Ok r, w') ->
  db w' = db w /\ forall a, r = inr a -> a = q (db w).
Proof.
  unfold select, supabase. destruct (db_error env (n_db w)); simpl;
    intros; simplify_eq; simpl; split; congruence.
Qed.

Lemma mutate_inv (env : Oracle) (q : Db -> Db) (w w' : World)
    (r : JsError + unit) :
  mutate env q w = (Ok r, w') -> r = inr tt -> db w' = q (db w).
Proof.
  unfold mutate, supabase. destruct (db_error env (n_db w)); simpl;
    intros; by simplify_eq.
Qed.



Lemma db_step_run (P : Db -> Db -> Prop) {A} (m : M A) (w w' : World)
    (o : Outcome A) :
  db_step P m -> m w = (o, w') -> P (db w) (db w').
Proof. intros Hm Hrun. specialize (Hm w). by rewrite Hrun in Hm. Qed.



(** ** executeAgentSubtask *)

(** Called on a selected row, [executeAgentSubtask] sends exactly one
    request, to gpt-4o-mini, never throws, and touches neither the
    database nor its request counter; when the call fails it returns the
    error text and no confidence. *)
Lemma executeAgentSubtask_of_row (env : Oracle) (a : AssignmentWithAgent)
    (desc : string) (cs : list Contribution) (imgs : list ImageAttachment)
    (docs : list string) (w : World) :
  exists result confidence w',
    executeAgentSubtask env (arg_of_row a) desc cs imgs docs w
    = (Ok (result, confidence), w')
    /\ db w' = db w /\ n_db w' = n_db w /\ n_uuid w' = n_uuid w
    /\ n_clock w' = n_clock w
    /\ llm_log w' = llm_log w ++ [agentCall a desc cs imgs docs]
    /\ (forall e, llm env (n_llm w) (agentCall a desc cs imgs docs) = inl e ->
                  result = subtask_error_text e /\ confidence = None).
Proof.
  unfold executeAgentSubtask, executeAgentSubtask_completion, first_choice,
         openai_create, sendEvent, agentCall.
  run_M.
  destruct (llm env (n_llm w) _) as [e|c] eqn:Hllm; simpl.
  - rewrite andb_false_r. simpl.
    eexists _, _, _. split; [reflexivity|]. simpl.
    do 5 (split; [done|]). by intros e' [= <-].
  - destruct (choices c) as [|ch chs]; simpl.
    + eexists _, _, _. split; [reflexivity|]. simpl.
      do 5 (split; [done|]). by intros e' [=].
    + eexists _, _, _. split; [reflexivity|]. simpl.
      do 5 (split; [done|]). by intros e' [=].
Qed.

(** ** executeCollaborativeTask: the order of the LLM calls *)

Arguments executeAgentSubtask : simpl never.





Lemma insert_sorted_perm {A} (le : A -> A -> bool) (x : A) (l : list A) :
  insert_sorted le x l ≡ₚ x :: l.
Proof.
  induction l as [|y l IH]; simpl; [done|].
  destruct (le x y); [done|]. rewrite IH. apply Permutation_swap.
Qed.

Lemma order_by_perm {A} (le : A -> A -> bool) (l : list A) :
  order_by le l ≡ₚ l.
Proof.
  induction l as [|x l IH]; simpl; [done|].
  by rewrite insert_sorted_perm, IH.
Qed.

Section SortedByKey.
Context {A : Type} (key : A -> nat).

Let le (a b : A) : bool := (key a <=? key b)%nat.

Lemma insert_sorted_key (x : A) (l : list A) :
  StronglySorted (fun a b => key a <= key b) l ->
  StronglySorted (fun a b => key a <= key b) (insert_sorted le x l).
Proof.
  induction 1 as [|y l Hl IH Hy]; simpl.
  - repeat constructor.
  - unfold le at 1. destruct (Nat.leb_spec (key x) (key y)) as [Hxy|Hxy].
    + constructor; [by constructor|].
      constructor; [done|].
      eapply Forall_impl; [exact Hy|]. simpl; intros; lia.
    + constructor; [done|].
      apply Forall_forall. intros z Hz.
      apply elem_of_insert_sorted in Hz as [->|Hz]; [lia|].
      by eapply Forall_forall in Hy.
Qed.

Lemma order_by_key_sorted (l : list A) :
  StronglySorted (fun a b => key a <= key b) (order_by le l).
Proof.
  induction l as [|x l IH]; simpl; [constructor|].
  by apply insert_sorted_key.
Qed.

End SortedByKey.

Lemma StronglySorted_map {A B} (f : A -> B) (R : B -> B -> Prop) (l : list A) :
  StronglySorted (fun a b => R (f a) (f b)) l -> StronglySorted R (map f l).
Proof.
  induction 1 as [|x l Hl IH Hx]; simpl; constructor; [done|].
  apply Forall_forall. intros y (z & -> & Hz)%list_elem_of_fmap.
  by eapply Forall_forall in Hx.
Qed.

(** The selected assignments are the rows of the task, in ascending
    [execution_order]. *)
Lemma select_assignments_sorted (taskId : Id) (d : Db) :
  map aw_row (select_assignments taskId d)
  ≡ₚ filter (fun a => a_task_id a = taskId) (task_assignments d)
  /\ ascending_execution_order (select_assignments taskId d).
Proof.
  unfold select_assignments, ascending_execution_order. split.
  - rewrite map_map. simpl. rewrite map_id. apply order_by_perm.
  - apply StronglySorted_map
      with (f := fun a => mkAssignmentWithAgent a (agent_of d (a_agent_id a)))
           (R := fun a b => a_execution_order (aw_row a)
                            <= a_execution_order (aw_row b)).
    simpl. apply (order_by_key_sorted a_execution_order).
Qed.

Lemma filter_update_where {A} (P : A -> Prop) `{!forall x, Decision (P x)}
    (p : A -> bool) (f : A -> A) (l : list A) :
  (forall x, P (f x) <-> P x) ->
  filter P (update_where p f l) = update_where p f (filter P l).
Proof.
  intros Hf. unfold update_where.
  induction l as [|x l IH]; simpl; [done|].
  rewrite !filter_cons.
  destruct (decide (P x)) as [Hx|Hx].
  - rewrite decide_True by (destruct (p x); [by apply Hf | done]).
    simpl. by rewrite IH.
  - rewrite decide_False by (destruct (p x); [by rewrite Hf | done]).
    done.
Qed.

Lemma task_of_in_progress (taskId userId : Id) (d : Db) :
  task_of taskId userId (set_task_status taskId "IN_PROGRESS" d)
  = task_set_status "IN_PROGRESS" <$> task_of taskId userId d.
Proof.
  unfold task_of, set_task_status. simpl.
  rewrite filter_update_where by done.
  destruct (filter _ (collaborative_tasks d)) as [|t l] eqn:Hf; simpl; [done|].
  assert (Hin : t ∈ filter (fun t => t_id t = taskId /\ t_user_id t = userId)
                           (collaborative_tasks d))
    by (rewrite Hf; apply list_elem_of_here).
  apply list_elem_of_filter in Hin as [[Hid _] _].
  by rewrite bool_decide_eq_true_2.
Qed.

Lemma select_assignments_set_tasks (taskId : Id) (rows : list TaskRow) (d : Db) :
  select_assignments taskId (db_set_tasks rows d) = select_assignments taskId d.
Proof. reflexivity. Qed.

Arguments select_assignments : simpl never.
Arguments synthesizeResults : simpl never.
Arguments executeAssignment : simpl never.




(** The request of an agent carries the contributions in its system
    prompt, under the heading of [agent_context]; without contributions
    the context is empty. *)
Lemma agentCall_messages (a : AssignmentWithAgent) (desc : string)
    (cs : list Contribution) (imgs : list ImageAttachment)
    (docs : list string) :
  req_messages (agentCall a desc cs imgs docs)
  = [mkMessage RoleSystem
       (TextContent (agentSystemPrompt (arg_of_row a) desc cs docs));
     mkMessage RoleUser (agentUserContent imgs)].
Proof. reflexivity. Qed.

Lemma agent_context_first : agent_context [] = "".
Proof. reflexivity. Qed.

Lemma agent_context_later (c : Contribution) (cs : list Contribution) :
  agent_context (c :: cs)
  = (newline ++ newline ++ "Previous team contributions:" ++ newline
     ++ Js.join (newline ++ newline) (map contribution_line (c :: cs)))%string.
Proof. reflexivity. Qed.

(** Whenever the first two requests succeed and no task has the given
    id and owner, the run ends with every task of that id IN_PROGRESS:
    the task-not-found path does not undo the first update. *)
Lemma task_not_found_keeps_in_progress
    (env : Oracle) (taskId userId : Id) (w : World) :
  db_error env (n_db w) = None ->
  db_error env (S (n_db w)) = None ->
  task_of taskId userId (db w) = None ->
  db (snd (executeCollaborativeTask env taskId userId w))
  = set_task_status taskId "IN_PROGRESS" (db w).
Proof.
  intros H0 H1 Hnone.
  pose proof (task_of_in_progress taskId userId (db w)) as Htask.
  rewrite Hnone in Htask. unfold task_of, set_task_status in Htask.
  simpl in Htask.
  unfold executeCollaborativeTask, executeCollaborativeTask_try, writeHead,
         sendEvent, res_end.
  run_M. rewrite H0. simpl. rewrite H1. simpl.
  by destruct (filter _ (update_where _ _ _)).
Qed.



(** The turns of two runs on the task of two assignments, counted: when
    every request is answered both turns complete; when the write of
    the first result fails the first turn has sent its request, no turn
    completes and this request is the only one sent. *)
Lemma turns_of_two_runs :
  let assignments := select_assignments "task-1" Scenario.db0 in
  let run := executeCollaborativeTask Failing.seventh_request_fails "task-1"
               "alice" (initial_world Scenario.db0) in
  prelude_answered Scenario.calm 0 = true
  /\ completed_turns Scenario.calm 5 assignments = 2
  /\ started_turns Scenario.calm 5 assignments = 2
  /\ prelude_answered Failing.seventh_request_fails 0 = true
  /\ completed_turns Failing.seventh_request_fails 5 assignments = 0
  /\ started_turns Failing.seventh_request_fails 5 assignments = 1
  /\ llm_log (snd run)
     = [agentCall Scenario.row1 "Plan the launch" [] [] []].
Proof. repeat split; vm_compute; reflexivity. Qed.

(** ** executeCollaborativeTask: failures *)

(** The task is reset to PENDING exactly when an exception escapes the
    [try] block and the reset request succeeds; when the [try] block
    returns, the [catch] block does not run. *)
Lemma executeCollaborativeTask_rollback
    (env : Oracle) (taskId userId : Id) (w : World) :
  let final := snd (executeCollaborativeTask env taskId userId w) in
  match executeCollaborativeTask_try env taskId userId w with
  | (Ok _, w1) => final = w1
  | (Throw _, w1) =>
      match db_error env (n_db w1) with
      | None =>
          forall t, t ∈ collaborative_tasks (db final) -> t_id t = taskId ->
                    t_status t = "PENDING"
      | Some _ => db final = db w1
      end
  end.
Proof.
  unfold executeCollaborativeTask, try_catch.
  destruct (executeCollaborativeTask_try env taskId userId w)
    as [[[]|e] w1]; simpl; [done|].
  unfold executeCollaborativeTask_catch, sendEvent, res_end. run_M.
  destruct (db_error env (n_db w1)); simpl; [done|].
  intros t (y & _ & ->)%elem_of_update_where Hid.
  case_bool_decide; [done|]. contradiction.
Qed.

(** C2, amended: a failed LLM call of an agent does not roll the task
    back.  When the call of the agent of a row fails with [e] and the
    three database requests of that turn of the loop succeed, the turn
    returns with the contribution of that agent appended, its text being
    the error text; every assignment row with the id of the row is
    COMPLETED with the error text as result, one contribution row with the
    error text is added, and the task rows are not touched.  A rollback
    to PENDING happens exactly when an exception escapes the [try] block
    and the reset request succeeds. *)
Theorem failed_llm_call_completes_assignment
    (env : Oracle) (taskId userId : Id) (task : TaskRow)
    (roles : gmap Id string) (imgs : list ImageAttachment)
    (docs : list string) (cs : list Contribution) (a : AssignmentWithAgent)
    (w w0 : World) (g : AgentRow) (e : JsError) :
  aw_agents a = Some g ->
  db_error env (n_db w) = None ->
  db_error env (S (n_db w)) = None ->
  db_error env (S (S (n_db w))) = None ->
  llm env (n_llm w) (agentCall a (t_description task) cs imgs docs) = inl e ->
  let run := executeAssignment env taskId task roles imgs docs cs a w in
  fst run = Ok (cs ++ [mkContrib (ag_name g)
                                 (role_of roles (a_agent_id (aw_row a)))
                                 (subtask_error_text e)])
  /\ (forall r, r ∈ task_assignments (db (snd run)) ->
                a_id r = a_id (aw_row a) ->
                a_status r = "COMPLETED"
                /\ a_result r = Some (subtask_error_text e))
  /\ (exists c, agent_contributions (db (snd run))
                = agent_contributions (db w) ++ [c]
                /\ c_agent_id c = a_agent_id (aw_row a)
                /\ c_contribution c = subtask_error_text e)
  /\ collaborative_tasks (db (snd run)) = collaborative_tasks (db w)
  /\ let final := snd (executeCollaborativeTask env taskId userId w0) in
     match executeCollaborativeTask_try env taskId userId w0 with
     | (Ok _, w1) => final = w1
     | (Throw _, w1) =>
         match db_error env (n_db w1) with
         | None =>
             forall t, t ∈ collaborative_tasks (db final) -> t_id t = taskId ->
                       t_status t = "PENDING"
         | Some _ => db final = db w1
         end
     end.
Proof.
  intros Hg H0 H1 H2 Hllm run.
  repeat match goal with
         | |- _ /\ _ => split
         end; [..|apply executeCollaborativeTask_rollback]; subst run.
  all: unfold executeAssignment; rewrite Hg; run_M; rewrite H0; simpl.
  all: match goal with
       | |- context [executeAgentSubtask ?en ?x ?d ?c ?i ?dd ?w1] =>
           destruct (executeAgentSubtask_of_row en a d c i dd w1)
             as (result & conf & w2 & Hrun & Hdb & Hndb & _ & _ & _ & Herr);
           rewrite Hrun; simpl in *
       end.
  all: destruct (Herr _ Hllm) as [-> ->]; rewrite Hndb, H1; simpl.
  all: rewrite H2; simpl.
  - done.
  - intros r (y & Hy & ->)%elem_of_update_where Hid.
    case_bool_decide as Hy'; [done|]. simpl in Hid. contradiction.
  - eexists. split; [by rewrite Hdb|]. done.
  - by rewrite Hdb.
Qed.

Lemma failed_llm_call_completes_assignment_witness :
  fst (executeAssignment (Scenario.first_call_fails Scenario.server_error)
         "task-1" Scenario.task1
         (agentRoleMap [Scenario.member1; Scenario.member2]) [] [] []
         Scenario.row1 (initial_world Scenario.db0))
  = Ok ([] ++ [mkContrib (ag_name Scenario.researcher)
                  (role_of (agentRoleMap [Scenario.member1; Scenario.member2])
                           (a_agent_id (aw_row Scenario.row1)))
                  (subtask_error_text Scenario.server_error)]).
Proof.
  pose proof (failed_llm_call_completes_assignment
                (Scenario.first_call_fails Scenario.server_error)
                "task-1" "alice" Scenario.task1
                (agentRoleMap [Scenario.member1; Scenario.member2]) [] [] []
                Scenario.row1 (initial_world Scenario.db0)
                (initial_world Scenario.db0) Scenario.researcher
                Scenario.server_error eq_refl eq_refl eq_refl eq_refl eq_refl)
    as H.
  cbv zeta in H. destruct H as [H _]. exact H.
Defined.


(** ** The persisted confidence *)

#[local] Instance contributions_grow_by_constant_preorder :
  PreOrder contributions_grow_by_constant.
Proof.
  split.
  - intros d. exists []. by rewrite app_nil_r.
  - intros d1 d2 d3 (x & Hx & Hcx) (y & Hy & Hcy).
    exists (x ++ y). rewrite Hy, Hx, <- app_assoc. split; [done|].
    by apply Forall_app.
Qed.

(** Whatever the LLM replies and whichever requests fail, every row that
    [executeCollaborativeTask] adds to [agent_contributions] carries the
    confidence 0.85. *)
Lemma executeCollaborativeTask_confidence_constant
    (env : Oracle) (taskId userId : Id) :
  db_step contributions_grow_by_constant
          (executeCollaborativeTask env taskId userId).
Proof.
  unfold executeCollaborativeTask, executeCollaborativeTask_try,
         executeCollaborativeTask_catch, executeAssignment,
         executeAgentSubtask, executeAgentSubtask_completion,
         synthesizeResults, synthesizeResults_completion.
  db_step_go.
  all: apply db_step_mutate; try apply _; intros d; simpl.
  all: try (exists []; simpl; rewrite app_nil_r; split; [done|constructor]).
  eexists [_]. split; [done|]. by repeat constructor.
Qed.

(** ** Version numbers *)

#[local] Instance tasks_unchanged_preorder : PreOrder tasks_unchanged.
Proof.
  split; [by intros d|].
  intros d1 d2 d3 H12 H23. unfold tasks_unchanged in *. congruence.
Qed.

Lemma reads_only_db_step (P : Db -> Db -> Prop) `{!Reflexive P} {A}
    (m : M A) :
  reads_only m -> db_step P m.
Proof. intros Hm w. specialize (Hm w). simpl in Hm. by rewrite <- Hm. Qed.

(** A task created by [createCollaborativeTask] is one appended row; its
    version number is 1, or one more than that of the row named as its
    parent. *)
Lemma createCollaborativeTask_new_row
    (env : Oracle) (teamId userId : Id) (data : TaskInput) (w : World)
    (v : TaskView) :
  fst (createCollaborativeTask env teamId userId data w) = Ok v ->
  exists row,
    collaborative_tasks
      (db (snd (createCollaborativeTask env teamId userId data w)))
    = collaborative_tasks (db w) ++ [row]
    /\ t_id row = uuid env (n_uuid w)
    /\ t_parent_task_id row = truthy (in_parentTaskId data)
    /\ (t_version_number row = 1%Z
        \/ exists parent,
             parent ∈ collaborative_tasks (db w)
             /\ t_parent_task_id row = Some (t_id parent)
             /\ t_version_number row = (t_version_number parent + 1)%Z).
Proof.
  intros H.
  destruct (createCollaborativeTask env teamId userId data w) as [o w']
    eqn:Hrun.
  simpl in *. subst o. unfold createCollaborativeTask in Hrun.
  apply bind_inv_Ok in Hrun as (taskId & w1 & H1 & Hrun).
  unfold randomUUID in H1. simplify_eq.
  apply bind_inv_Ok in Hrun as (now_ & w2 & H2 & Hrun).
  unfold now in H2. simplify_eq.
  apply bind_inv_Ok in Hrun as (version & w3 & H3 & Hrun).
  assert (Hversion :
            db w3 = db w
            /\ (version = 1%Z
                \/ exists parent,
                     parent ∈ collaborative_tasks (db w)
                     /\ truthy (in_parentTaskId data) = Some (t_id parent)
                     /\ version = (t_version_number parent + 1)%Z)).
  { destruct (truthy (in_parentTaskId data)) as [parentTaskId|].
    - apply bind_inv_Ok in H3 as (r & w3' & Hsel & Hret).
      apply select_inv in Hsel as [Hdb Hr]. simpl in Hdb.
      unfold ret in Hret. simplify_eq. split; [done|].
      destruct r as [e|[e|parent]]; [by left..|].
      specialize (Hr _ eq_refl). symmetry in Hr. apply single_elem in Hr.
      assert (Hin : parent ∈ filter (fun t => t_id t = parentTaskId)
                                    (collaborative_tasks (db w)))
        by (simpl in Hr; rewrite Hr; apply list_elem_of_here).
      apply list_elem_of_filter in Hin as [<- Hin].
      right. by exists parent.
    - unfold ret in H3. simplify_eq. split; [done|]. by left. }
  destruct Hversion as [Hdb3 Hversion].
  apply bind_inv_Ok in Hrun as (r & w4 & H4 & Hrun).
  apply bind_inv_Ok in Hrun as ([] & w5 & H5 & Hrun).
  apply throw_if_error_inv in H5 as [-> ->].
  apply mutate_inv in H4; [|done]. rewrite Hdb3 in H4.
  eapply (db_step_run tasks_unchanged) in Hrun.
  2:{ unfold generateSubtasks, generateSubtasks_completion.
      db_step_go. apply db_step_mutate; [apply _|]. by intros d. }
  eexists. rewrite Hrun, H4. simpl. split; [done|]. simpl.
  split; [done|]. split; [done|].
  destruct Hversion as [->|(parent & Hin & Hp & ->)]; [by left|].
  right. by exists parent.
Qed.

Lemma getTaskById_returns_row (env : Oracle) (taskId userId : Id)
    (w w' : World) (v : TaskView) :
  getTaskById env taskId userId w = (Ok v, w') ->
  tv_task v ∈ collaborative_tasks (db w) /\ t_id (tv_task v) = taskId.
Proof.
  unfold getTaskById. intros Hrun.
  apply bind_inv_Ok in Hrun as (r & w1 & Hsel & Hrun).
  apply bind_inv_Ok in Hrun as (tasks & w2 & Hr & Hrun).
  apply throw_if_error_inv in Hr as [-> ->].
  apply select_inv in Hsel as [_ Htasks]. specialize (Htasks _ eq_refl).
  destruct tasks as [|task rest]; [done|].
  assert (Hin : task ∈ filter (fun t => t_id t = taskId)
                              (collaborative_tasks (db w)))
    by (rewrite <- Htasks; apply list_elem_of_here).
  apply list_elem_of_filter in Hin as [Hid Hin].
  apply bind_inv_Ok in Hrun as (r1 & w3 & _ & Hrun).
  apply bind_inv_Ok in Hrun as ([] & w4 & _ & Hrun).
  apply bind_inv_Ok in Hrun as (r2 & w5 & _ & Hrun).
  apply bind_inv_Ok in Hrun as (assignments & w6 & _ & Hrun).
  apply bind_inv_Ok in Hrun as (r3 & w7 & _ & Hrun).
  apply bind_inv_Ok in Hrun as (teamMembers & w8 & _ & Hrun).
  apply bind_inv_Ok in Hrun as (r4 & w9 & _ & Hrun).
  apply bind_inv_Ok in Hrun as (contributions & w10 & _ & Hrun).
  unfold ret in Hrun. by simplify_eq.
Qed.

(** Every version created by [createTaskVersion] is numbered from the
    row that its parent pointer names, the root of the family, and not
    from the versions that the family already holds. *)
Lemma createTaskVersion_numbers_from_root
    (env : Oracle) (originalTaskId userId : Id) (updates : VersionUpdates)
    (w : World) (v : TaskView) :
  fst (createTaskVersion env originalTaskId userId updates w) = Ok v ->
  exists original row,
    original ∈ collaborative_tasks (db w)
    /\ t_id original = originalTaskId
    /\ collaborative_tasks
         (db (snd (createTaskVersion env originalTaskId userId updates w)))
       = collaborative_tasks (db w) ++ [row]
    /\ t_parent_task_id row
       = truthy (Some (Js.or_else (t_parent_task_id original) originalTaskId))
    /\ (t_version_number row = 1%Z
        \/ exists parent,
             parent ∈ collaborative_tasks (db w)
             /\ t_parent_task_id row = Some (t_id parent)
             /\ t_version_number row = (t_version_number parent + 1)%Z).
Proof.
  intros H.
  destruct (createTaskVersion env originalTaskId userId updates w) as [o w']
    eqn:Hrun.
  simpl in *. subst o. unfold createTaskVersion in Hrun.
  apply bind_inv_Ok in Hrun as (view & w1 & Hget & Hrun).
  destruct (getTaskById_returns_row _ _ _ _ _ _ Hget) as [Hin Hid].
  eapply (db_step_run eq) in Hget; [|apply getTaskById_reads_only].
  match type of Hrun with
  | createCollaborativeTask ?en ?t ?u ?d ?w0 = _ =>
      destruct (createCollaborativeTask_new_row en t u d w0 v)
        as (row & Hrows & _ & Hparent & Hversion);
        [by rewrite Hrun|]
  end.
  rewrite Hrun in Hrows. simpl in Hrows. rewrite <- Hget in Hrows, Hversion.
  exists (tv_task view), row. by repeat (split; [done|]).
Qed.

(** * Further properties *)

(** ** Inversion of runs, continued *)

Lemma bind_inv_Throw {A B} (m : M A) (k : A -> M B) (w w' : World)
    (e : JsError) :
  (m ≫= k) w = (Throw e, w') ->
  m w = (Throw e, w')
  \/ exists a w1, m w = (Ok a, w1) /\ k a w1 = (Throw e, w').
Proof.
  unfold mbind, M_bind, bind. destruct (m w) as [[a|e'] w1]; [eauto|].
  intros [= <- <-]. by left.
Qed.

(** A select whose result is looked at as it is. *)
Lemma bind_select_inv (env : Oracle) {A B} (q : Db -> A)
    (k : JsError + A -> M B) (w w' : World) (b : B) :
  (select env q ≫= k) w = (Ok b, w') ->
  exists r w1,
    db w1 = db w /\ (forall a, r = inr a -> a = q (db w))
    /\ k r w1 = (Ok b, w').
Proof.
  intros (r & w1 & Hsel & Hk)%bind_inv_Ok.
  apply select_inv in Hsel as [Hdb Hr]. eauto.
Qed.

(** A select followed by [if (error) throw error]. *)
Lemma bind_select_throw_inv (env : Oracle) {A B} (q : Db -> A)
    (k : A -> M B) (w w' : World) (b : B) :
  (select env q ≫= fun r => throw_if_error r ≫= k) w = (Ok b, w') ->
  exists w1, db w1 = db w /\ k (q (db w)) w1 = (Ok b, w').
Proof.
  intros (r & w1 & Hdb & Hr & Hk)%bind_select_inv.
  apply bind_inv_Ok in Hk as (a & w2 & Hthrow & Hk).
  apply throw_if_error_inv in Hthrow as [-> ->].
  rewrite <- (Hr _ eq_refl). eauto.
Qed.

(** A write followed by [if (error) throw error]. *)
Lemma bind_mutate_throw_inv (env : Oracle) {B} (q : Db -> Db)
    (k : unit -> M B) (w w' : World) (b : B) :
  (mutate env q ≫= fun r => throw_if_error r ≫= k) w = (Ok b, w') ->
  exists w1, db w1 = q (db w) /\ n_uuid w1 = n_uuid w
             /\ n_clock w1 = n_clock w /\ k tt w1 = (Ok b, w').
Proof.
  intros (r & w1 & Hmut & Hk)%bind_inv_Ok.
  apply bind_inv_Ok in Hk as ([] & w2 & Hthrow & Hk).
  apply throw_if_error_inv in Hthrow as [-> ->].
  exists w1. unfold mutate, supabase in Hmut.
  destruct (db_error env (n_db w)); simplify_eq. by simpl.
Qed.

Lemma elem_of_head {A} (l : list A) (x : A) : head l = Some x -> x ∈ l.
Proof. destruct l; simpl; intros; simplify_eq. apply list_elem_of_here. Qed.

(** What an approved share found by [select_shared_access] proves. *)
Lemma select_shared_access_share (d : Db) (owner userId : Id)
    (ownerAgents : list AgentRow) (s : ShareRequestRow) :
  ownerAgents = filter (fun g => ag_user_id g = owner) (agents d) ->
  select_shared_access (map ag_id ownerAgents) userId d = Some s ->
  has_agent_share d owner userId.
Proof.
  intros -> Hs. apply elem_of_head in Hs.
  apply list_elem_of_filter in Hs as [(Hty & Hid & Hreq & Hst) Hin].
  apply list_elem_of_fmap in Hid as (g & Hg & Hgin).
  apply list_elem_of_filter in Hgin as [Hown Hgin].
  exists g, s. by repeat (split; [done|]).
Qed.

(** ** getTaskById *)

(** X1: a task is returned only to a user who may view it. *)
Theorem getTaskById_access_control
    (env : Oracle) (taskId userId : Id) (w : World) (v : TaskView) :
  fst (getTaskById env taskId userId w) = Ok v ->
  tv_task v ∈ collaborative_tasks (db w)
  /\ t_id (tv_task v) = taskId
  /\ may_view_task (db w) (tv_task v) userId.
Proof.
  intros H.
  destruct (getTaskById env taskId userId w) as [o w'] eqn:Hrun.
  simpl in H. subst o.
  destruct (getTaskById_returns_row _ _ _ _ _ _ Hrun) as [Hin Hid].
  split; [done|]. split; [done|].
  unfold getTaskById in Hrun.
  apply bind_select_throw_inv in Hrun as (w1 & Hdb1 & Hrun).
  destruct (filter _ _) as [|task rest]; [done|].
  apply bind_select_inv in Hrun as (r & w2 & Hdb2 & Hr & Hrun).
  apply bind_inv_Ok in Hrun as ([] & w3 & Hacc & Hrun).
  assert (Htask : tv_task v = task).
  { apply bind_select_throw_inv in Hrun as (w4 & _ & Hrun).
    apply bind_select_throw_inv in Hrun as (w5 & _ & Hrun).
    apply bind_select_throw_inv in Hrun as (w6 & _ & Hrun).
    unfold ret in Hrun. injection Hrun as <- <-. reflexivity. }
  rewrite Htask. clear Hrun Htask Hin Hid.
  destruct (bool_decide (t_user_id task = userId)) eqn:Hown; simpl in Hacc.
  { left. by apply bool_decide_eq_true in Hown. }
  right. destruct r as [e|[e|team]]; simpl in Hacc.
  1,2: apply bind_select_inv in Hacc as (r' & w4 & _ & Hr' & Hacc);
       destruct r' as [e'|rows]; [done|];
       rewrite (Hr' _ eq_refl) in Hacc; done.
  specialize (Hr _ eq_refl). symmetry in Hr. apply single_elem in Hr.
  rewrite Hdb1 in Hr.
  assert (Hteam : team ∈ filter (fun t => tm_id t = t_team_id task)
                                (teams (db w)))
    by (rewrite Hr; apply list_elem_of_here).
  apply list_elem_of_filter in Hteam as [Hteamid Hteamin].
  exists team. split; [done|]. split; [done|].
  destruct (bool_decide (Some (tm_user_id team) = Some userId)) eqn:Hteamown;
    simpl in Hacc.
  { left. apply bool_decide_eq_true in Hteamown. congruence. }
  right.
  apply bind_select_inv in Hacc as (r' & w4 & Hdb4 & Hr' & Hacc).
  destruct r' as [e'|ownerAgents]; [done|]. simpl in Hacc.
  specialize (Hr' _ eq_refl). rewrite Hdb2, Hdb1 in Hr'.
  destruct ownerAgents as [|g gs] eqn:Hagents; [done|]. rewrite <- Hagents in *.
  apply bind_select_inv in Hacc as (r'' & w5 & Hdb5 & Hr'' & Hacc).
  destruct r'' as [e''|[s|]]; try done.
  specialize (Hr'' _ eq_refl). symmetry in Hr''.
  rewrite Hdb4, Hdb2, Hdb1 in Hr''.
  by eapply select_shared_access_share.
Qed.

Lemma agentRoleMap_snoc (members : list MemberRow) (m : MemberRow) :
  agentRoleMap (members ++ [m])
  = <[m_agent_id m := m_role m]> (agentRoleMap members).
Proof. unfold agentRoleMap. by rewrite foldl_snoc. Qed.

(** In the map built by [new Map(...)], an agent has the role of its
    last row. *)
Lemma agentRoleMap_lookup (members : list MemberRow) (agent_id : Id) :
  agentRoleMap members !! agent_id
  = m_role <$> last (filter (fun m => m_agent_id m = agent_id) members).
Proof.
  induction members as [|m members IH] using rev_ind; [done|].
  rewrite agentRoleMap_snoc, filter_app, filter_cons, filter_nil.
  destruct (decide (m_agent_id m = agent_id)) as [<-|Hne].
  - rewrite lookup_insert_eq. by rewrite last_snoc.
  - rewrite lookup_insert_ne by done. by rewrite app_nil_r.
Qed.

Lemma role_of_shown (members : list MemberRow) (agent_id : Id) :
  role_of (agentRoleMap members) agent_id = shown_role members agent_id.
Proof. unfold role_of, shown_role. by rewrite agentRoleMap_lookup. Qed.

(** X2: the view returned by [getTaskById] lists the assignment rows of the
    task in ascending [execution_order], lists no other row, shows for
    each the role of the last [team_members] row of its agent in the
    task's team ('Agent' without one), flags the task's owner and lets
    everyone edit. *)
Theorem getTaskById_view
    (env : Oracle) (taskId userId : Id) (w : World) (v : TaskView) :
  fst (getTaskById env taskId userId w) = Ok v ->
  map av_row (tv_assignments v)
  ≡ₚ filter (fun a => a_task_id a = taskId) (task_assignments (db w))
  /\ StronglySorted
       (fun a b => a_execution_order (av_row a) <= a_execution_order (av_row b))
       (tv_assignments v)
  /\ Forall (fun a =>
               av_agentId a = a_agent_id (av_row a)
               /\ av_role a
                  = shown_role (select_team_members (t_team_id (tv_task v))
                                                    (db w))
                               (av_agentId a))
            (tv_assignments v)
  /\ (tv_isOwner v = 1%Z <-> t_user_id (tv_task v) = userId)
  /\ tv_canEdit v = 1%Z.
Proof.
  intros H.
  destruct (getTaskById env taskId userId w) as [o w'] eqn:Hrun.
  simpl in H. subst o. unfold getTaskById in Hrun.
  apply bind_select_throw_inv in Hrun as (w1 & Hdb1 & Hrun).
  destruct (filter _ _) as [|task rest]; [done|].
  apply bind_select_inv in Hrun as (r & w2 & Hdb2 & _ & Hrun).
  apply bind_inv_Ok in Hrun as ([] & w3 & Hacc & Hrun).
  eapply (db_step_run eq) in Hacc; [|db_step_go]. simpl in Hacc.
  apply bind_select_throw_inv in Hrun as (w4 & Hdb4 & Hrun).
  apply bind_select_throw_inv in Hrun as (w5 & Hdb5 & Hrun).
  apply bind_select_throw_inv in Hrun as (w6 & Hdb6 & Hrun).
  unfold ret in Hrun. injection Hrun as <- <-. simpl.
  rewrite Hdb4, <- Hacc, Hdb2, Hdb1.
  destruct (select_assignments_sorted taskId (db w)) as [Hperm Hsorted].
  split; [by rewrite map_map|]. split.
  { apply StronglySorted_map
      with (R := fun a b => a_execution_order (av_row a)
                            <= a_execution_order (av_row b)).
    exact Hsorted. }
  split.
  { apply Forall_forall. intros a (x & -> & _)%list_elem_of_fmap. simpl.
    split; [done|]. apply role_of_shown. }
  split; [|done].
  case_bool_decide; split; intros; done.
Qed.

(** ** Access to a team *)

Lemma select_team_access_grant (dir : Directory) (teamId userId : Id)
    (a : ResourceAccessRow) :
  select_team_access dir teamId userId = Some a ->
  a ∈ resource_access dir /\ ra_resource_type a = "team"
  /\ ra_resource_id a = teamId /\ ra_user_id a = userId.
Proof.
  unfold select_team_access, maybeSingle. intros H.
  destruct (filter _ _) as [|x [|y rows]] eqn:Hf; simplify_eq.
  assert (Hin : a ∈ filter (fun a => ra_resource_type a = "team"
                                     /\ ra_resource_id a = teamId
                                     /\ ra_user_id a = userId)
                           (resource_access dir))
    by (rewrite Hf; apply list_elem_of_here).
  apply list_elem_of_filter in Hin as [(? & ? & ?) ?]. done.
Qed.

(** The branch that [verifyTeamAccess] and [getTeamById] share for a
    user who is not the owner: it returns only for a grant of the team
    or a share of an agent of the owner. *)
Lemma shared_team_access_inv (env : Oracle) (dir : Directory)
    (team : TeamRow) (teamId userId : Id) (fail : M unit)
    (w w' : World) :
  (forall w0, fst (fail w0) <> Ok tt) ->
  (select env (fun _ => select_team_access dir teamId userId)
   ≫= fun r =>
        match r with
        | inr (Some _) => ret tt
        | _ =>
            select env (fun d =>
              filter (fun g => ag_user_id g = tm_user_id team) (agents d))
            ≫= fun r =>
                 let ownerAgents :=
                   match r with inr rows => rows | inl _ => [] end in
                 match ownerAgents with
                 | [] => fail
                 | _ =>
                     let agentIds := map ag_id ownerAgents in
                     select env (select_shared_access agentIds userId)
                     ≫= fun r => match r with
                                 | inr (Some _) => ret tt
                                 | _ => fail
                                 end
                 end
        end) w = (Ok tt, w') ->
  (exists a, a ∈ resource_access dir /\ ra_resource_type a = "team"
             /\ ra_resource_id a = teamId /\ ra_user_id a = userId)
  \/ has_agent_share (db w) (tm_user_id team) userId.
Proof.
  intros Hfail Hrun.
  assert (Hno : forall w0 w1, fail w0 = (Ok tt, w1) -> False).
  { intros w0 w1 H0. apply (Hfail w0). by rewrite H0. }
  apply bind_select_inv in Hrun as (r & w1 & Hdb1 & Hr & Hrun).
  destruct r as [e|[a|]].
  2:{ left. exists a. apply select_team_access_grant. symmetry. by apply Hr. }
  all: right.
  all: apply bind_select_inv in Hrun as (r' & w2 & Hdb2 & Hr' & Hrun).
  all: destruct r' as [e'|ownerAgents]; simpl in Hrun;
    [by apply Hno in Hrun|].
  all: specialize (Hr' _ eq_refl); rewrite Hdb1 in Hr'.
  all: destruct ownerAgents as [|g gs] eqn:Hagents; [by apply Hno in Hrun|].
  all: rewrite <- Hagents in *.
  all: apply bind_select_inv in Hrun as (r'' & w3 & Hdb3 & Hr'' & Hrun).
  all: destruct r'' as [e''|[s|]]; try (by apply Hno in Hrun).
  all: specialize (Hr'' _ eq_refl); symmetry in Hr''.
  all: rewrite Hdb2, Hdb1 in Hr''.
  all: by eapply select_shared_access_share.
Qed.

(** ** Sorting by a total preorder *)

Section OrderBySorted.
Context {A : Type} (le : A -> A -> bool).
Hypothesis le_total : forall a b, le a b = true \/ le b a = true.
Hypothesis le_trans : forall a b c, le a b = true -> le b c = true ->
                                    le a c = true.

Lemma insert_sorted_sorted (x : A) (l : list A) :
  StronglySorted (fun a b => le a b = true) l ->
  StronglySorted (fun a b => le a b = true) (insert_sorted le x l).
Proof.
  induction 1 as [|y l Hl IH Hy]; simpl.
  - repeat constructor.
  - destruct (le x y) eqn:Hxy.
    + constructor; [by constructor|].
      constructor; [done|].
      eapply Forall_impl; [exact Hy|]. simpl. intros z Hz. by eapply le_trans.
    + constructor; [done|].
      apply Forall_forall. intros z Hz.
      apply elem_of_insert_sorted in Hz as [->|Hz].
      * destruct (le_total x y) as [H|H]; congruence.
      * by eapply Forall_forall in Hy.
Qed.

Lemma order_by_sorted (l : list A) :
  StronglySorted (fun a b => le a b = true) (order_by le l).
Proof.
  induction l as [|x l IH]; simpl; [constructor|].
  by apply insert_sorted_sorted.
Qed.

End OrderBySorted.

Lemma StronglySorted_impl {A} (R R' : A -> A -> Prop) (l : list A) :
  (forall a b, R a b -> R' a b) -> StronglySorted R l -> StronglySorted R' l.
Proof.
  intros HR. induction 1 as [|x l Hl IH Hx]; constructor; [done|].
  eapply Forall_impl; [exact Hx|]. intros y. apply HR.
Qed.

(** ** getTeamMembers and getTeamsByUser *)

Lemma member_le_total (a b : MemberRow) :
  member_le a b = true \/ member_le b a = true.
Proof.
  unfold member_le.
  destruct (m_is_primary_agent a), (m_is_primary_agent b); simpl; auto.
  all: destruct (Nat.leb_spec (m_added_at a) (m_added_at b)); auto.
  all: right; apply Nat.leb_le; lia.
Qed.

Lemma member_le_trans (a b c : MemberRow) :
  member_le a b = true -> member_le b c = true -> member_le a c = true.
Proof.
  unfold member_le.
  destruct (m_is_primary_agent a), (m_is_primary_agent b),
           (m_is_primary_agent c); simpl; try done.
  all: rewrite !Nat.leb_le; lia.
Qed.

Lemma getTeamMembers_inv (env : Oracle) (teamId : Id) (w w' : World)
    (members : list TeamMemberView) :
  getTeamMembers env teamId w = (Ok members, w') ->
  db w' = db w
  /\ members
     = map (fun m => team_member_view
                       (mkMemberWithAgent m (agent_of (db w) (m_agent_id m))))
           (order_by member_le
                     (filter (fun m => m_team_id m = teamId)
                             (team_members (db w)))).
Proof.
  unfold getTeamMembers. intros Hrun.
  apply bind_select_throw_inv in Hrun as (w1 & Hdb1 & Hrun).
  unfold ret in Hrun. injection Hrun as <- <-.
  split; [done|]. by rewrite !map_map.
Qed.

Lemma getTeamMembers_run (env : Oracle) (teamId : Id) (w w' : World)
    (members : list TeamMemberView) :
  getTeamMembers env teamId w = (Ok members, w') ->
  db w' = db w
  /\ map tmv_id members
     ≡ₚ map m_id (filter (fun m => m_team_id m = teamId) (team_members (db w)))
  /\ Forall (fun m => tmv_teamId m = teamId) members
  /\ StronglySorted member_before members.
Proof.
  intros Hrun.
  apply getTeamMembers_inv in Hrun as [Hdb ->].
  split; [done|]. split; [|split].
  - rewrite map_map. simpl. by rewrite order_by_perm.
  - apply Forall_forall. intros m (x & -> & Hx)%list_elem_of_fmap. simpl.
    apply elem_of_order_by, list_elem_of_filter in Hx as [Hx _]. done.
  - apply StronglySorted_map with (R := member_before).
    eapply StronglySorted_impl;
      [|apply (order_by_sorted member_le member_le_total member_le_trans)];
      simpl.
    intros a b Hab. unfold member_before, member_le in *. simpl.
    destruct (m_is_primary_agent a), (m_is_primary_agent b);
      simpl in *; try done; auto.
    all: right; split; [done|]; by apply Nat.leb_le.
Qed.


Lemma getTeamsByUser_loop_members (env : Oracle) (teams_ : list TeamRow)
    (acc listing : list Team) (w : World) :
  fst (for_of teams_
         (fun acc team =>
            members ← getTeamMembers env (tm_id team);
            ret (acc ++ [mkTeamView team members])%list)
         acc w) = Ok listing ->
  Forall (fun team => Forall (fun m => tmv_teamId m = tm_id (team_row team))
                             (team_members_of team)) acc ->
  Forall (fun team => Forall (fun m => tmv_teamId m = tm_id (team_row team))
                             (team_members_of team)) listing.
Proof.
  revert acc w. induction teams_ as [|t teams_ IH]; intros acc w; simpl.
  - by intros [= <-].
  - unfold mbind, M_bind, bind.
    destruct (getTeamMembers env (tm_id t) w) as [[members|e] w1] eqn:Hm;
      [|done].
    intros Hloop Hacc. eapply IH; [exact Hloop|].
    apply Forall_app. split; [done|]. constructor; [|done]. simpl.
    by apply getTeamMembers_run in Hm as (_ & _ & ? & _).
Qed.

(** X4: [getTeamsByUser] lists the ACTIVE teams owned by the user, all of
    them and no other team, newest first, each with members of that
    team only. *)
Theorem getTeamsByUser_listing
    (env : Oracle) (userId : Id) (w : World) (listing : list Team) :
  fst (getTeamsByUser env userId w) = Ok listing ->
  map team_row listing ≡ₚ active_teams_of userId (db w)
  /\ StronglySorted (fun a b => tm_created_at b <= tm_created_at a)
                    (map team_row listing)
  /\ Forall (fun team =>
               Forall (fun m => tmv_teamId m = tm_id (team_row team))
                      (team_members_of team))
            listing.
Proof.
  intros H.
  destruct (getTeamsByUser env userId w) as [o w'] eqn:Hrun.
  simpl in H. subst o. unfold getTeamsByUser in Hrun.
  apply bind_select_throw_inv in Hrun as (w1 & Hdb1 & Hrun).
  assert (Hfst : fst (for_of
                        (order_by (fun a b => (tm_created_at b <=? tm_created_at a)%nat)
                                  (active_teams_of userId (db w)))
                        (fun acc team =>
                           members ← getTeamMembers env (tm_id team);
                           ret (acc ++ [mkTeamView team members])%list)
                        [] w1) = Ok listing)
    by (unfold active_teams_of; by rewrite Hrun).
  pose proof (getTeamsByUser_loop _ _ _ _ _ Hfst) as Hrows. simpl in Hrows.
  rewrite Hrows. split; [apply order_by_perm|]. split.
  - apply StronglySorted_impl
      with (R := fun a b => (tm_created_at b <=? tm_created_at a)%nat = true);
      [intros a b; apply Nat.leb_le|].
    apply (order_by_sorted
             (fun a b => (tm_created_at b <=? tm_created_at a)%nat)).
    + intros a b. rewrite !Nat.leb_le. lia.
    + intros a b c. rewrite !Nat.leb_le. lia.
  - eapply getTeamsByUser_loop_members; [exact Hfst|constructor].
Qed.

(** ** verifyTeamAccess and getTeamById *)

Lemma teamNotFound_throws (w : World) : fst (@teamNotFound unit w) <> Ok tt.
Proof. done. Qed.

Lemma verifyTeamAccess_run (env : Oracle) (dir : Directory)
    (teamId userId : Id) (w w' : World) :
  verifyTeamAccess env dir teamId userId w = (Ok tt, w') ->
  db w' = db w
  /\ exists team,
       filter (fun t => tm_id t = teamId) (teams (db w)) = [team]
       /\ may_view_team dir (db w) team userId.
Proof.
  intros Hrun. split.
  { symmetry. eapply (db_step_run eq); [|exact Hrun].
    unfold verifyTeamAccess, teamNotFound. db_step_go. }
  unfold verifyTeamAccess in Hrun.
  apply bind_select_inv in Hrun as (r & w1 & Hdb1 & Hr & Hrun).
  destruct r as [e|[e|team]]; [done..|].
  specialize (Hr _ eq_refl). symmetry in Hr. apply single_elem in Hr.
  exists team. split; [done|].
  assert (Hid : tm_id team = teamId).
  { assert (Hin : team ∈ filter (fun t => tm_id t = teamId) (teams (db w)))
      by (rewrite Hr; apply list_elem_of_here).
    by apply list_elem_of_filter in Hin as [? _]. }
  destruct (bool_decide (tm_user_id team = userId)) eqn:Hown.
  { left. by apply bool_decide_eq_true in Hown. }
  right.
  apply shared_team_access_inv in Hrun; [|apply teamNotFound_throws].
  rewrite Hdb1, Hid in *. exact Hrun.
Qed.

(** X5: [verifyTeamAccess] returns only when exactly one team has the id
    and the user may view it. *)
Theorem verifyTeamAccess_sound
    (env : Oracle) (dir : Directory) (teamId userId : Id) (w : World) :
  fst (verifyTeamAccess env dir teamId userId w) = Ok tt ->
  exists team,
    filter (fun t => tm_id t = teamId) (teams (db w)) = [team]
    /\ may_view_team dir (db w) team userId.
Proof.
  intros H.
  destruct (verifyTeamAccess env dir teamId userId w) as [o w'] eqn:Hrun.
  simpl in H. subst o.
  by apply verifyTeamAccess_run in Hrun as [_ ?].
Qed.

Lemma getTeamById_run (env : Oracle) (dir : Directory) (teamId userId : Id)
    (w w' : World) (v : Team) :
  getTeamById env dir teamId userId w = (Ok v, w') ->
  db w' = db w
  /\ head (filter (fun t => tm_id t = teamId) (teams (db w)))
     = Some (team_row v)
  /\ team_row v ∈ teams (db w)
  /\ tm_id (team_row v) = teamId
  /\ may_view_team dir (db w) (team_row v) userId
  /\ map tmv_id (team_members_of v)
     ≡ₚ map m_id (filter (fun m => m_team_id m = teamId)
                         (team_members (db w))).
Proof.
  intros Hrun. split.
  { symmetry. eapply (db_step_run eq); [|exact Hrun].
    unfold getTeamById, getTeamMembers, teamNotFound. db_step_go. }
  unfold getTeamById in Hrun.
  apply bind_select_throw_inv in Hrun as (w1 & Hdb1 & Hrun).
  destruct (filter _ _) as [|team rest] eqn:Hf; [done|].
  assert (Hin : team ∈ filter (fun t => tm_id t = teamId) (teams (db w)))
    by (rewrite Hf; apply list_elem_of_here).
  apply list_elem_of_filter in Hin as [Hid Hin].
  apply bind_inv_Ok in Hrun as ([] & w2 & Hacc & Hrun).
  apply bind_inv_Ok in Hrun as (members & w3 & Hmembers & Hrun).
  unfold ret in Hrun. injection Hrun as <- <-. simpl.
  split; [done|]. split; [done|]. split; [done|]. split.
  - destruct (bool_decide (tm_user_id team = userId)) eqn:Hown.
    { left. by apply bool_decide_eq_true in Hown. }
    right. apply shared_team_access_inv in Hacc; [|apply teamNotFound_throws].
    rewrite Hdb1, Hid in *. exact Hacc.
  - eapply (db_step_run eq) in Hacc; [|db_step_go]. simpl in Hacc.
    apply getTeamMembers_run in Hmembers as (_ & Hperm & _).
    by rewrite <- Hacc, Hdb1 in Hperm.
Qed.

(** X6: [getTeamById] returns a team only to a user who may view it, and
    with the members of that team. *)
Theorem getTeamById_sound
    (env : Oracle) (dir : Directory) (teamId userId : Id) (w : World)
    (v : Team) :
  fst (getTeamById env dir teamId userId w) = Ok v ->
  team_row v ∈ teams (db w)
  /\ tm_id (team_row v) = teamId
  /\ may_view_team dir (db w) (team_row v) userId
  /\ map tmv_id (team_members_of v)
     ≡ₚ map m_id (filter (fun m => m_team_id m = teamId)
                         (team_members (db w))).
Proof.
  intros H.
  destruct (getTeamById env dir teamId userId w) as [o w'] eqn:Hrun.
  simpl in H. subst o.
  by apply getTeamById_run in Hrun as (_ & _ & ?).
Qed.

(** ** Methods that only read *)

(** X7: the read methods of the two services leave the database as it is,
    whether they return or throw. *)
Theorem read_methods_read_only (env : Oracle) (dir : Directory) :
  (forall taskId userId, reads_only (getTaskById env taskId userId))
  /\ (forall teamId userId, reads_only (verifyTeamAccess env dir teamId userId))
  /\ (forall teamId userId, reads_only (getTasksByTeam env dir teamId userId))
  /\ (forall taskId userId,
        reads_only (getTaskWithVersions env dir taskId userId))
  /\ (forall teamId, reads_only (getTeamMembers env teamId))
  /\ (forall teamId userId, reads_only (getTeamById env dir teamId userId))
  /\ (forall userId, reads_only (getTeamsByUser env userId)).
Proof.
  repeat split; intros;
    unfold reads_only, getTasksByTeam, getTaskWithVersions, verifyTeamAccess,
           getTeamById, getTeamsByUser, getTeamMembers, getTaskById,
           notFound, teamNotFound;
    db_step_go.
Qed.

(** ** generateSubtasks *)

(** X8: [generateSubtasks] never throws and never touches the database or
    the response.  It sends the first request and, exactly when that
    fails with a model error, the fallback request.  What it returns is
    decided by the replies: when the reply read has a choice whose
    content parses to an array in which the search for the subtask of
    every agent goes through, it returns for every member, in order,
    the subtask that the array names for its agent, or else the default
    one; in every other case it returns the generic subtask of every
    member. *)
Theorem generateSubtasks_always_returns
    (env : Oracle) (taskDescription : string)
    (members : list MemberWithAgent) (w : World) :
  exists subtasks w',
    generateSubtasks env taskDescription members w = (Ok subtasks, w')
    /\ db w' = db w
    /\ res w' = res w
    /\ llm_log w'
       = llm_log w
         ++ decomposition_calls env (n_llm w)
              (decompositionPrompt taskDescription (map agentProfile members))
    /\ subtasks = expected_subtasks env (n_llm w) taskDescription members.
Proof. apply generateSubtasks_exact. Qed.

(** ** executeAgentSubtask and synthesizeResults *)




(** ** Steps of the world *)

Section RunStep.
Context (P : World -> World -> Prop) `{!PreOrder P}.

Lemma run_step_ret {A} (a : A) : run_step P (mret a : M A).
Proof. intros w. simpl. reflexivity. Qed.

Lemma run_step_throw {A} (e : JsError) : run_step P (throw e : M A).
Proof. intros w. simpl. reflexivity. Qed.

Lemma run_step_bind {A B} (m : M A) (k : A -> M B) :
  run_step P m -> (forall a, run_step P (k a)) -> run_step P (m ≫= k).
Proof.
  intros Hm Hk w. unfold mbind, M_bind, bind.
  specialize (Hm w). destruct (m w) as [[a|e] w1]; simpl in *; [|done].
  etrans; [exact Hm | apply Hk].
Qed.

Lemma run_step_try_catch {A} (m : M A) (h : JsError -> M A) :
  run_step P m -> (forall e, run_step P (h e)) -> run_step P (try_catch m h).
Proof.
  intros Hm Hh w. unfold try_catch.
  specialize (Hm w). destruct (m w) as [[a|e] w1]; simpl in *; [done|].
  etrans; [exact Hm | apply Hh].
Qed.

Lemma run_step_for_of {A S} (xs : list A) (body : S -> A -> M S) (acc : S) :
  (forall acc x, run_step P (body acc x)) -> run_step P (for_of xs body acc).
Proof.
  intros Hbody. revert acc. induction xs as [|x xs IH]; intros acc; simpl.
  - apply run_step_ret.
  - apply run_step_bind; [apply Hbody | intros acc'; apply IH].
Qed.

Lemma run_step_throw_if_error {A} (r : JsError + A) :
  run_step P (throw_if_error r).
Proof. destruct r; [apply run_step_throw | apply run_step_ret]. Qed.

Lemma run_step_first_choice (response : ChatCompletion) :
  run_step P (first_choice response).
Proof.
  unfold first_choice.
  destruct (choices response); [apply run_step_throw | apply run_step_ret].
Qed.

End RunStep.

(** Takes a goal [run_step P m] apart along the structure of [m]; what
    is left are the primitive steps of [m]. *)
Ltac run_step_go :=
  repeat first
    [ match goal with
      | |- forall _, _ => intros ?
      | |- PreOrder _ => apply _
      end
    | apply run_step_bind
    | apply run_step_try_catch
    | apply run_step_for_of
    | apply run_step_ret
    | apply run_step_throw
    | apply run_step_throw_if_error
    | apply run_step_first_choice
    | match goal with
      | |- run_step _ (match ?x with _ => _ end) => destruct x
      end
    | progress cbv zeta ].

(** ** The event stream of executeCollaborativeTask *)

#[local] Instance stream_grows_preorder : PreOrder stream_grows.
Proof.
  split.
  - intros r. split; [done|]. split; [done|].
    exists []. by rewrite app_nil_r.
  - intros r1 r2 r3 (Hh & He & evs & Hevs & Hall)
                    (Hh' & He' & evs' & Hevs' & Hall').
    split; [congruence|]. split; [congruence|].
    exists (evs ++ evs'). rewrite Hevs', Hevs, <- app_assoc.
    split; [done|]. by apply Forall_app.
Qed.

#[local] Instance stream_grows_world_preorder :
  PreOrder (fun w w' : World => stream_grows (res w) (res w')).
Proof.
  split.
  - intros w. reflexivity.
  - intros w1 w2 w3 H1 H2. by etrans.
Qed.

(** A primitive step that leaves the response alone or writes one
    event that does not close the stream. *)
Ltac stream_leaf :=
  intros ?w;
  unfold select, mutate, supabase, openai_create, randomUUID, now, sendEvent;
  simpl;
  repeat match goal with
         | |- context [match ?x with _ => _ end] => destruct x
         end;
  simpl;
  first [ reflexivity
        | split; [done|]; split; [done|]; eexists [_]; split; [done|];
          constructor; [|constructor];
          let H := fresh in intros [H|H]; discriminate H ].

Lemma executeAssignment_stream (env : Oracle) (taskId : Id) (task : TaskRow)
    (roles : gmap Id string) (imgs : list ImageAttachment)
    (docs : list string) (cs : list Contribution) (a : AssignmentWithAgent) :
  run_step (fun w w' => stream_grows (res w) (res w'))
           (executeAssignment env taskId task roles imgs docs cs a).
Proof.
  unfold executeAssignment, executeAgentSubtask,
         executeAgentSubtask_completion.
  run_step_go. all: stream_leaf.
Qed.

(** [synthesizeResults] always returns, and touches neither the
    database, nor the response, nor the counters of the other
    oracles. *)
Lemma synthesizeResults_run (env : Oracle) (desc : string)
    (cs : list Contribution) (w : World) :
  exists out w',
    synthesizeResults env desc cs w = (Ok out, w')
    /\ db w' = db w /\ res w' = res w /\ n_db w' = n_db w
    /\ n_uuid w' = n_uuid w /\ n_clock w' = n_clock w.
Proof.
  unfold synthesizeResults, synthesizeResults_completion, first_choice,
         openai_create.
  run_M.
  destruct (llm env (n_llm w) _) as [e|c]; simpl.
  - destruct (isModelError e); simpl.
    + destruct (llm env (S (n_llm w)) _) as [e'|c]; simpl.
      * eexists _, _. split; [reflexivity|]. done.
      * destruct (choices c); simpl;
          (eexists _, _; split; [reflexivity|]; done).
    + eexists _, _. split; [reflexivity|]. done.
  - destruct (choices c); simpl;
      (eexists _, _; split; [reflexivity|]; done).
Qed.

(** Closes a goal on the events of a run from the events written. *)
Ltac nonterminal :=
  repeat constructor;
  let H := fresh in intros [H|H]; cbv in H; discriminate H.

Ltac stream_thrown evs :=
  split; [done|]; exists evs; split; [nonterminal|];
  simpl; rewrite ?app_nil_r, <- ?app_assoc; done.

Ltac stream_closed evs :=
  split; [done|]; exists evs; split; [nonterminal|];
  simpl; split; [done|]; eexists; split; [|by rewrite <- ?app_assoc];
  first [by left | by right].

(** The response after the [try] block: closed by one last event when
    the block returns, and still open, with its head written, when the
    block throws. *)
Lemma executeCollaborativeTask_try_stream
    (env : Oracle) (taskId userId : Id) (w : World) :
  let run := executeCollaborativeTask_try env taskId userId w in
  res_head (res run.2) = Some 200
  /\ exists events,
       Forall (fun e => ~ terminal e) events
       /\ match run.1 with
          | Ok _ =>
              res_ended (res run.2) = true
              /\ exists last,
                   terminal last
                   /\ res_events (res run.2)
                      = res_events (res w) ++ events ++ [last]
          | Throw _ =>
              res_ended (res run.2) = res_ended (res w)
              /\ res_events (res run.2) = res_events (res w) ++ events
          end.
Proof.
  unfold executeCollaborativeTask_try, writeHead, sendEvent, res_end.
  run_M.
  destruct (db_error env (n_db w)) as [e|]; simpl;
    [stream_thrown (@nil (string * EventData))|].
  destruct (db_error env (S (n_db w))) as [e|]; simpl;
    [stream_thrown [event_started]|].
  destruct (filter _ (update_where _ _ _)) as [|task rest]; simpl.
  { stream_closed [event_started]. }
  destruct (db_error env (S (S (n_db w)))); simpl;
    [|destruct (processAttachments (fs env) _) as [imgs docs]; simpl].
  all: destruct (db_error env (S (S (S (n_db w))))); simpl;
    [stream_thrown [event_started]|].
  all: destruct (db_error env (S (S (S (S (n_db w)))))); simpl;
    [stream_thrown [event_started]|].
  all: match goal with
       | |- context [for_of ?xs (executeAssignment ?en ?tid ?task ?roles
                                                   ?imgs ?docs) ?cs ?w0] =>
           pose proof (run_step_for_of
                         (fun w w' => stream_grows (res w) (res w'))
                         xs (executeAssignment en tid task roles imgs docs) cs
                         (executeAssignment_stream en tid task roles imgs docs)
                         w0) as Hloop;
           destruct (for_of xs (executeAssignment en tid task roles
                                                  imgs docs) cs w0)
             as [[cs'|e] w1];
           simpl in Hloop;
           destruct Hloop as (Hhead & Hended & evs & Hevs & Hall)
       end.
  all: simpl in Hhead, Hended, Hevs; simpl.
  2,4: split; [done|];
       exists (event_started :: evs);
       split; [constructor; [nonterminal|done]|];
       split; [done|]; by rewrite Hevs, <- app_assoc.
  all: match goal with
       | |- context [synthesizeResults ?en ?d ?c ?w2] =>
           destruct (synthesizeResults_run en d c w2)
             as (out & w3 & Hs & Hdb & Hres & _);
           rewrite Hs; simpl in *
       end.
  all: destruct (db_error env (n_db w3)); simpl; rewrite ?Hres; simpl.
  all: split; [done|].
  1,3: exists (event_started :: evs ++ [event_synthesizing]);
       (split; [constructor; [nonterminal|]; apply Forall_app;
                split; [done|nonterminal] |]);
       split; [done|]; rewrite Hevs, <- !app_assoc; done.
  all: exists (event_started :: evs ++ [event_synthesizing]);
       (split; [constructor; [nonterminal|]; apply Forall_app;
                split; [done|nonterminal] |]);
       split; [done|]; eexists; split;
       [|rewrite Hevs, <- !app_assoc; simpl; rewrite <- !app_assoc; reflexivity];
       by left.
Qed.

Lemma executeCollaborativeTask_stream
    (env : Oracle) (taskId userId : Id) (w : World) :
  exists w' events last,
    executeCollaborativeTask env taskId userId w = (Ok tt, w')
    /\ res_head (res w') = Some 200
    /\ res_ended (res w') = true
    /\ res_events (res w') = res_events (res w) ++ events ++ [last]
    /\ Forall (fun e => ~ terminal e) events
    /\ terminal last.
Proof.
  pose proof (executeCollaborativeTask_try_stream env taskId userId w) as Htry.
  unfold executeCollaborativeTask, try_catch.
  destruct (executeCollaborativeTask_try env taskId userId w)
    as [[[]|e] w1]; simpl in Htry.
  - destruct Htry as (Hhead & events & Hall & Hended & last & Hlast & Hevs).
    exists w1, events, last. done.
  - destruct Htry as (Hhead & events & Hall & Hended & Hevs).
    unfold executeCollaborativeTask_catch, sendEvent, res_end. run_M.
    destruct (db_error env (n_db w1)); simpl.
    all: eexists _, events, _; split; [reflexivity|]; simpl.
    all: split; [done|]; split; [done|]; rewrite Hevs, <- app_assoc.
    all: split; [reflexivity|]; split; [done|]; by right.
Qed.

(** X10: every run of [executeCollaborativeTask] returns to its caller
    without throwing, with the status 200 written and the response
    ended; what it writes to the stream ends with exactly one closing
    event, 'complete' or 'error', and no event before it closes the
    stream. *)
Theorem executeCollaborativeTask_closes_stream
    (env : Oracle) (taskId userId : Id) (w : World) :
  exists w' events last,
    executeCollaborativeTask env taskId userId w = (Ok tt, w')
    /\ res_head (res w') = Some 200
    /\ res_ended (res w') = true
    /\ res_events (res w') = res_events (res w) ++ events ++ [last]
    /\ Forall (fun e => ~ terminal e) events
    /\ terminal last.
Proof. apply executeCollaborativeTask_stream. Qed.

(** X11: fed, in order, the events that a run of [executeCollaborativeTask]
    writes, the callback of [handleExecute] always leaves the page out
    of the executing state, showing either the message of success or a
    message that starts with 'Error: '. *)
Theorem handleExecute_stops_executing
    (env : Oracle) (taskId userId : Id) (w : World) (st : ExecutionState) :
  let w' := (executeCollaborativeTask env taskId userId w).2 in
  let events := drop (length (res_events (res w))) (res_events (res w')) in
  let st' := foldl handleExecute_onEvent st events in
  isExecuting st' = false
  /\ (executionMessage st' = "Task completed successfully!"
      \/ exists m, executionMessage st' = ("Error: " ++ m)%string).
Proof.
  destruct (executeCollaborativeTask_stream env taskId userId w)
    as (w' & events & [event data] & Hrun & _ & _ & Hevs & _ & Hlast).
  rewrite Hrun. simpl. rewrite Hevs, drop_app_length, foldl_snoc.
  destruct Hlast as [Hlast|Hlast]; simpl in Hlast; subst event; simpl.
  - split; [done|]. by left.
  - split; [done|]. right. by eexists.
Qed.

(** ** The writes of executeCollaborativeTask *)

Lemma Forall2_update_where {A} (R : A -> A -> Prop) (p : A -> bool)
    (f : A -> A) (l : list A) :
  (forall x, R x x) -> (forall x, p x = true -> R x (f x)) ->
  Forall2 R l (update_where p f l).
Proof.
  intros Hrefl Hf. unfold update_where.
  induction l as [|x l IH]; simpl; constructor; [|done].
  destruct (p x) eqn:Hp; auto.
Qed.

Lemma Forall2_refl_all {A} (R : A -> A -> Prop) (l : list A) :
  (forall x, R x x) -> Forall2 R l l.
Proof. intros H. induction l; constructor; auto. Qed.

Lemma Forall2_trans_all {A} (R : A -> A -> Prop) (l1 l2 l3 : list A) :
  (forall x y z, R x y -> R y z -> R x z) ->
  Forall2 R l1 l2 -> Forall2 R l2 l3 -> Forall2 R l1 l3.
Proof.
  intros Htrans H12. revert l3.
  induction H12 as [|x y l1 l2 Hxy H12 IH]; intros l3 H23;
    inversion H23; subst; constructor; eauto.
Qed.

Lemma task_progress_refl (t : TaskRow) : task_progress t t.
Proof. by destruct t. Qed.

Lemma task_progress_trans (t1 t2 t3 : TaskRow) :
  task_progress t1 t2 -> task_progress t2 t3 -> task_progress t1 t3.
Proof.
  unfold task_progress. intros H12 H23. rewrite H23.
  rewrite H12. simpl. reflexivity.
Qed.

Lemma assignment_progress_refl (a : AssignmentRow) : assignment_progress a a.
Proof. by destruct a. Qed.

Lemma assignment_progress_trans (a1 a2 a3 : AssignmentRow) :
  assignment_progress a1 a2 -> assignment_progress a2 a3 ->
  assignment_progress a1 a3.
Proof.
  unfold assignment_progress. intros H12 H23. rewrite H23.
  rewrite H12. simpl. reflexivity.
Qed.

#[local] Instance execution_frame_preorder (taskId : Id) (ids : list Id) :
  PreOrder (execution_frame taskId ids).
Proof.
  split.
  - intros d. do 5 (split; [done|]).
    split; [apply Forall2_refl_all; intros t; split;
            [apply task_progress_refl|done]|].
    split; [apply Forall2_refl_all; intros a; split;
            [apply assignment_progress_refl|done]|].
    exists []. by rewrite app_nil_r.
  - intros d1 d2 d3
      (Hm & Ht & Hg & Hs & Ha & Htasks & Hassign & extra & Hc & Hextra)
      (Hm' & Ht' & Hg' & Hs' & Ha' & Htasks' & Hassign' & extra' & Hc' & Hextra').
    do 5 (split; [congruence|]).
    split.
    { eapply Forall2_trans_all; [|exact Htasks|exact Htasks'].
      intros x y z [Hxy Hx] [Hyz Hy]. split.
      - by eapply task_progress_trans.
      - intros Hid. specialize (Hx Hid). subst y. by apply Hy. }
    split.
    { eapply Forall2_trans_all; [|exact Hassign|exact Hassign'].
      intros x y z [Hxy Hx] [Hyz Hy]. split.
      - by eapply assignment_progress_trans.
      - intros Hid. specialize (Hx Hid). subst y. by apply Hy. }
    exists (extra ++ extra'). rewrite Hc', Hc, <- app_assoc.
    split; [done|]. by apply Forall_app.
Qed.

Lemma db_step_for_of_in (P : Db -> Db -> Prop) `{!PreOrder P} {A S}
    (xs : list A) (body : S -> A -> M S) (acc : S) :
  (forall acc x, x ∈ xs -> db_step P (body acc x)) ->
  db_step P (for_of xs body acc).
Proof.
  revert acc. induction xs as [|x xs IH]; intros acc Hbody; simpl.
  - by apply db_step_ret.
  - apply db_step_bind; [done| |].
    + apply Hbody. apply list_elem_of_here.
    + intros acc'. apply IH. intros acc'' y Hy. apply Hbody.
      by apply list_elem_of_further.
Qed.

Lemma frame_task_update (taskId : Id) (ids : list Id) (f : TaskRow -> TaskRow)
    (d : Db) :
  (forall t, task_progress t (f t)) ->
  execution_frame taskId ids d
    (db_set_tasks (update_where (fun t => bool_decide (t_id t = taskId)) f
                                (collaborative_tasks d)) d).
Proof.
  intros Hf. do 5 (split; [done|]). simpl. split.
  { apply Forall2_update_where.
    - intros t. split; [apply task_progress_refl|done].
    - intros t Ht%bool_decide_eq_true. split; [apply Hf|done]. }
  split; [apply Forall2_refl_all; intros a; split;
          [apply assignment_progress_refl|done]|].
  exists []. by rewrite app_nil_r.
Qed.

Lemma frame_assignment_update (taskId : Id) (ids : list Id) (id : Id)
    (f : AssignmentRow -> AssignmentRow) (d : Db) :
  id ∈ ids -> (forall a, assignment_progress a (f a)) ->
  execution_frame taskId ids d
    (db_set_assignments
       (update_where (fun a => bool_decide (a_id a = id)) f
                     (task_assignments d)) d).
Proof.
  intros Hid Hf. do 5 (split; [done|]). simpl.
  split; [apply Forall2_refl_all; intros t; split;
          [apply task_progress_refl|done]|].
  split.
  { apply Forall2_update_where.
    - intros a. split; [apply assignment_progress_refl|done].
    - intros a Ha%bool_decide_eq_true. split; [apply Hf|].
      intros Hnot. by rewrite Ha in Hnot. }
  exists []. by rewrite app_nil_r.
Qed.

Lemma frame_insert_contribution (taskId : Id) (ids : list Id)
    (c : ContributionRow) (d : Db) :
  c_task_id c = taskId ->
  execution_frame taskId ids d (insert_contribution c d).
Proof.
  intros Hc. do 5 (split; [done|]). simpl.
  split; [apply Forall2_refl_all; intros t; split;
          [apply task_progress_refl|done]|].
  split; [apply Forall2_refl_all; intros a; split;
          [apply assignment_progress_refl|done]|].
  exists [c]. split; [done|]. by constructor.
Qed.

Lemma executeAssignment_frame (env : Oracle) (taskId : Id) (task : TaskRow)
    (roles : gmap Id string) (imgs : list ImageAttachment)
    (docs : list string) (cs : list Contribution) (a : AssignmentWithAgent)
    (ids : list Id) :
  a_id (aw_row a) ∈ ids ->
  db_step (execution_frame taskId ids)
          (executeAssignment env taskId task roles imgs docs cs a).
Proof.
  intros Hid.
  unfold executeAssignment, executeAgentSubtask,
         executeAgentSubtask_completion.
  db_step_go.
  all: apply db_step_mutate; [apply _|]; intros d.
  - by apply frame_assignment_update.
  - by apply frame_assignment_update.
  - by apply frame_insert_contribution.
Qed.

Lemma select_assignments_ids (taskId : Id) (d : Db) (a : AssignmentWithAgent) :
  a ∈ select_assignments taskId d ->
  a_id (aw_row a) ∈ assignment_ids taskId d.
Proof.
  unfold select_assignments, assignment_ids.
  intros (x & -> & Hx)%list_elem_of_fmap. simpl.
  apply elem_of_order_by in Hx. apply list_elem_of_fmap. eauto.
Qed.

Lemma executeCollaborativeTask_try_frame
    (env : Oracle) (taskId userId : Id) (w : World) :
  execution_frame taskId (assignment_ids taskId (db w)) (db w)
    (db (executeCollaborativeTask_try env taskId userId w).2).
Proof.
  assert (H0 : execution_frame taskId (assignment_ids taskId (db w)) (db w)
                 (set_task_status taskId "IN_PROGRESS" (db w)))
    by (apply frame_task_update; by intros []).
  unfold executeCollaborativeTask_try, writeHead, sendEvent, res_end.
  run_M.
  destruct (db_error env (n_db w)) as [e|]; simpl; [reflexivity|].
  destruct (db_error env (S (n_db w))) as [e|]; simpl; [done|].
  destruct (filter _ (update_where _ _ _)) as [|task rest]; simpl; [done|].
  destruct (db_error env (S (S (n_db w)))); simpl;
    [|destruct (processAttachments (fs env) _) as [imgs docs]; simpl].
  all: destruct (db_error env (S (S (S (n_db w))))); simpl; [done|].
  all: destruct (db_error env (S (S (S (S (n_db w)))))); simpl; [done|].
  all: match goal with
       | |- context [select_assignments ?t (set_task_status ?t ?s ?d)] =>
           change (select_assignments t (set_task_status t s d))
             with (select_assignments t d)
       end.
  all: match goal with
       | |- context [for_of ?xs (executeAssignment ?en ?tid ?task ?roles
                                                   ?imgs ?docs) ?cs ?w0] =>
           pose proof (db_step_for_of_in
                         (execution_frame taskId (assignment_ids taskId (db w)))
                         xs (executeAssignment en tid task roles imgs docs) cs
                         (fun acc x Hx =>
                            executeAssignment_frame en tid task roles imgs docs
                              acc x _ (select_assignments_ids _ _ _ Hx))
                         w0) as Hloop;
           destruct (for_of xs (executeAssignment en tid task roles
                                                  imgs docs) cs w0)
             as [[cs'|e] w1];
           simpl in Hloop
       end.
  2,4: by etrans.
  all: match goal with
       | |- context [synthesizeResults ?en ?d ?c ?w2] =>
           destruct (synthesizeResults_run en d c w2)
             as (out & w3 & Hs & Hdb & _);
           rewrite Hs; simpl in *
       end.
  all: destruct (db_error env (n_db w3)); simpl; rewrite ?Hdb.
  1,3: by etrans.
  all: etrans; [exact H0|]; etrans; [exact Hloop|].
  all: apply frame_task_update; by intros [].
Qed.

(** X12: whatever happens in a run of [executeCollaborativeTask], it adds,
    removes and moves no row of [collaborative_tasks] or
    [task_assignments]; it changes only [status], [result] and
    [completed_at] of task rows with the given id, and only [status],
    [result], [started_at] and [completed_at] of assignment rows with
    the id of an assignment of the task; it only appends rows of the
    task to [agent_contributions]; and it leaves the other tables as
    they are. *)
Theorem executeCollaborativeTask_frame
    (env : Oracle) (taskId userId : Id) (w : World) :
  execution_frame taskId (assignment_ids taskId (db w)) (db w)
    (db (executeCollaborativeTask env taskId userId w).2).
Proof.
  pose proof (executeCollaborativeTask_try_frame env taskId userId w) as Htry.
  unfold executeCollaborativeTask, try_catch.
  destruct (executeCollaborativeTask_try env taskId userId w)
    as [[[]|e] w1]; simpl in *; [done|].
  etrans; [exact Htry|].
  unfold executeCollaborativeTask_catch, sendEvent, res_end. run_M.
  destruct (db_error env (n_db w1)); simpl; [reflexivity|].
  apply frame_task_update. by intros [].
Qed.

(** ** executeCollaborativeTask: a run that completes *)

Lemma executeAssignment_ok (env : Oracle) (taskId : Id) (task : TaskRow)
    (roles : gmap Id string) (imgs : list ImageAttachment)
    (docs : list string) (cs : list Contribution) (a : AssignmentWithAgent)
    (w : World) :
  match executeAssignment env taskId task roles imgs docs cs a w with
  | (Ok _, w') =>
      exists started completed result c,
        c_task_id c = taskId
        /\ db w' = assignment_executed (a_id (aw_row a)) started completed
                                       result c (db w)
  | (Throw _, _) => True
  end.
Proof.
  unfold executeAssignment. destruct (aw_agents a) as [g|]; run_M; [|done].
  destruct (db_error env (n_db w)); simpl; [done|].
  match goal with |- context [executeAgentSubtask env ?x ?d ?c ?i ?dd ?w0] =>
    destruct (executeAgentSubtask_of_row env a d c i dd w0)
      as (result & conf & w1 & Hrun & Hdb & _);
    rewrite Hrun
  end. simpl in *.
  destruct (db_error env (n_db w1)); simpl; [done|].
  destruct (db_error env (S (n_db w1))); simpl; [done|].
  eexists _, _, _, _. split; [|rewrite Hdb; reflexivity]. done.
Qed.

Lemma assignment_executed_completed (id : Id) (started completed : Timestamp)
    (result : string) (c : ContributionRow) (d : Db) (S : Id -> Prop) :
  (forall a, a ∈ task_assignments d -> S (a_id a) -> assignment_completed a) ->
  forall a,
    a ∈ task_assignments (assignment_executed id started completed result c d) ->
    S (a_id a) \/ a_id a = id -> assignment_completed a.
Proof.
  intros Hinv a Ha Hid. simpl in Ha.
  apply elem_of_update_where in Ha as (y & Hy & ->).
  apply elem_of_update_where in Hy as (z & Hz & ->).
  destruct (bool_decide (a_id z = id)) eqn:Hz'; simpl.
  - rewrite Hz'. unfold assignment_completed. simpl. eauto.
  - rewrite Hz' in *. apply Hinv; [done|].
    destruct Hid as [Hid|Hid]; [done|].
    apply bool_decide_eq_false in Hz'. contradiction.
Qed.

Lemma executeAssignments_completed (env : Oracle) (taskId : Id)
    (task : TaskRow) (roles : gmap Id string) (imgs : list ImageAttachment)
    (docs : list string) (xs : list AssignmentWithAgent) :
  forall (cs : list Contribution) (w : World) (S : Id -> Prop),
    (forall a, a ∈ task_assignments (db w) -> S (a_id a) ->
               assignment_completed a) ->
    match for_of xs (executeAssignment env taskId task roles imgs docs) cs w with
    | (Ok _, w') =>
        (forall a, a ∈ task_assignments (db w') ->
                   S (a_id a) \/ a_id a ∈ map (a_id ∘ aw_row) xs ->
                   assignment_completed a)
        /\ collaborative_tasks (db w') = collaborative_tasks (db w)
        /\ length (agent_contributions (db w'))
           = length (agent_contributions (db w)) + length xs
    | (Throw _, _) => True
    end.
Proof.
  induction xs as [|x xs IH]; intros cs w S Hinv; simpl.
  - split; [|split; [done|lia]].
    intros a Ha [Hs|Hin]; [by apply Hinv|]. by apply elem_of_nil in Hin.
  - unfold mbind, M_bind, bind.
    pose proof (executeAssignment_ok env taskId task roles imgs docs cs x w)
      as Hx.
    destruct (executeAssignment env taskId task roles imgs docs cs x w)
      as [[cs1|e] w1]; [|done].
    destruct Hx as (started & completed & result & c & Hc & Hdb).
    specialize (IH cs1 w1 (fun id => S id \/ id = a_id (aw_row x))).
    destruct (for_of xs _ cs1 w1) as [[cs2|e] w2]; [|done].
    destruct IH as (Hdone & Htasks & Hlen).
    { rewrite Hdb. by apply assignment_executed_completed. }
    split; [|split].
    + intros a Ha Hid. apply Hdone; [done|].
      destruct Hid as [Hid|Hid]; [by left; left|].
      apply elem_of_cons in Hid as [Hid|Hid]; [by left; right|by right].
    + rewrite Htasks, Hdb. done.
    + rewrite Hlen, Hdb. simpl. rewrite length_app. simpl. lia.
Qed.

Lemma progress_elem_of (ids : list Id) (l l' : list AssignmentRow)
    (a' : AssignmentRow) :
  Forall2 (fun a a' => assignment_progress a a' /\ (a_id a ∉ ids -> a' = a))
          l l' ->
  a' ∈ l' ->
  exists a, a ∈ l /\ a_id a = a_id a' /\ a_task_id a = a_task_id a'.
Proof.
  intros Hall (i & Hi)%list_elem_of_lookup.
  destruct (Forall2_lookup_r _ _ _ _ _ Hall Hi) as (a & Ha & Hprog & _).
  exists a. split; [by eapply list_elem_of_lookup_2|].
  rewrite Hprog. done.
Qed.

Lemma select_assignments_ids_perm (taskId : Id) (d : Db) :
  map (a_id ∘ aw_row) (select_assignments taskId d)
  ≡ₚ assignment_ids taskId d.
Proof.
  unfold select_assignments, assignment_ids.
  rewrite map_map. simpl. by rewrite order_by_perm.
Qed.

Lemma executeCollaborativeTask_try_complete
    (env : Oracle) (taskId userId : Id) (w : World) :
  match executeCollaborativeTask_try env taskId userId w with
  | (Ok _, w1) =>
      (exists msg,
         last (res_events (res w1)) = Some ("error", DataMessage msg))
      \/ exists out,
           last (res_events (res w1)) = Some ("complete", DataComplete out)
           /\ is_Some (task_of taskId userId (db w))
           /\ (forall t, t ∈ collaborative_tasks (db w1) -> t_id t = taskId ->
                         t_status t = "COMPLETED" /\ t_result t = Some out
                         /\ is_Some (t_completed_at t))
           /\ (forall a, a ∈ task_assignments (db w1) -> a_task_id a = taskId ->
                         assignment_completed a)
           /\ length (agent_contributions (db w1))
              = length (agent_contributions (db w))
                + length (assignment_ids taskId (db w))
  | (Throw _, _) => True
  end.
Proof.
  unfold executeCollaborativeTask_try, writeHead, sendEvent, res_end.
  run_M.
  destruct (db_error env (n_db w)) as [e|]; simpl; [done|].
  destruct (db_error env (S (n_db w))) as [e|]; simpl; [done|].
  pose proof (task_of_in_progress taskId userId (db w)) as Htask.
  unfold task_of at 1 in Htask. unfold set_task_status in Htask. simpl in Htask.
  destruct (filter _ (update_where _ _ _)) as [|task rest]; simpl.
  { left. eexists. apply last_snoc. }
  assert (Hsome : is_Some (task_of taskId userId (db w))).
  { destruct (task_of _ _ _); [by eexists|discriminate]. }
  clear Htask.
  destruct (db_error env (S (S (n_db w)))); simpl;
    [|destruct (processAttachments (fs env) _) as [imgs docs]; simpl].
  all: destruct (db_error env (S (S (S (n_db w))))); simpl; [done|].
  all: destruct (db_error env (S (S (S (S (n_db w)))))); simpl; [done|].
  all: match goal with
       | |- context [select_assignments ?t (set_task_status ?t ?s ?d)] =>
           change (select_assignments t (set_task_status t s d))
             with (select_assignments t d)
       end.
  all: match goal with
       | |- context [for_of ?xs (executeAssignment ?en ?tid ?task ?roles
                                                   ?imgs ?docs) ?cs ?w0] =>
           pose proof (db_step_for_of_in
                         (execution_frame taskId (assignment_ids taskId (db w)))
                         xs (executeAssignment en tid task roles imgs docs) cs
                         (fun acc x Hx =>
                            executeAssignment_frame en tid task roles imgs docs
                              acc x _ (select_assignments_ids _ _ _ Hx))
                         w0) as Hframe;
           pose proof (executeAssignments_completed en tid task roles imgs docs
                         xs cs w0 (fun _ => False)) as Hloop;
           destruct (for_of xs (executeAssignment en tid task roles
                                                  imgs docs) cs w0)
             as [[cs'|e] w1];
           simpl in Hframe, Hloop; [|done]
       end.
  all: destruct Hloop as (Hdone & Htasks & Hlen); [done|].
  all: match goal with
       | |- context [synthesizeResults ?en ?d ?c ?w2] =>
           destruct (synthesizeResults_run en d c w2)
             as (out & w3 & Hs & Hdb & Hres & _);
           rewrite Hs; simpl in *
       end.
  all: destruct (db_error env (n_db w3)); simpl; [done|].
  all: right; exists out; rewrite Hdb.
  all: split; [apply last_snoc|]; split; [done|].
  all: split; [|split].
  1,4: intros t (y & _ & ->)%elem_of_update_where Hid;
       case_bool_decide; [simpl; by eauto|contradiction].
  1,3: intros a Ha Hid; apply Hdone; [done|]; right;
       destruct Hframe as (_ & _ & _ & _ & _ & _ & Hassign & _);
       destruct (progress_elem_of _ _ _ _ Hassign Ha)
         as (a0 & Ha0 & Hid0 & Htask0);
       rewrite select_assignments_ids_perm, <- Hid0;
       apply list_elem_of_fmap; exists a0; split; [done|];
       apply list_elem_of_filter; split; [congruence|done].
  all: rewrite Hlen; f_equal;
       rewrite <- (select_assignments_ids_perm taskId (db w));
       by rewrite length_map.
Qed.

(** X13: when the stream of [executeCollaborativeTask] ends with the event
    'complete', the user owns a task of that id, every task row of
    that id is COMPLETED with the result of the event and a completion
    time, every assignment row of the task is COMPLETED with a result
    and a completion time, and one contribution was saved for each
    assignment row of the task. *)
Theorem executeCollaborativeTask_complete_event
    (env : Oracle) (taskId userId : Id) (w : World) (result : string) :
  let w' := (executeCollaborativeTask env taskId userId w).2 in
  last (res_events (res w')) = Some ("complete", DataComplete result) ->
  is_Some (task_of taskId userId (db w))
  /\ (forall t, t ∈ collaborative_tasks (db w') -> t_id t = taskId ->
                t_status t = "COMPLETED" /\ t_result t = Some result
                /\ is_Some (t_completed_at t))
  /\ (forall a, a ∈ task_assignments (db w') -> a_task_id a = taskId ->
                assignment_completed a)
  /\ length (agent_contributions (db w'))
     = length (agent_contributions (db w))
       + length (assignment_ids taskId (db w)).
Proof.
  pose proof (executeCollaborativeTask_try_complete env taskId userId w)
    as Htry.
  unfold executeCollaborativeTask, try_catch.
  destruct (executeCollaborativeTask_try env taskId userId w)
    as [[[]|e] w1]; simpl.
  - intros Hlast.
    destruct Htry as [(msg & Hmsg)|(out & Hout & Hrest)]; [congruence|].
    rewrite Hout in Hlast. by injection Hlast as <-.
  - unfold executeCollaborativeTask_catch, sendEvent, res_end. run_M.
    destruct (db_error env (n_db w1)); simpl; rewrite last_snoc;
      intros [=].
Qed.

(** ** synthesizeResults *)

Lemma or_else_nonempty (x : option string) (d : string) :
  d <> "" -> Js.or_else x d <> "".
Proof.
  intros Hd. unfold Js.or_else. destruct x as [s|]; [|done].
  destruct (String.eqb s "") eqn:Hs; [done|].
  by apply String.eqb_neq in Hs.
Qed.

Lemma synthesis_fallback_nonempty (c : Contribution) (cs : list Contribution) :
  synthesis_fallback (c :: cs) <> "".
Proof.
  unfold synthesis_fallback, Js.join. simpl.
  destruct (map _ cs); destruct (agentName c); simpl; discriminate.
Qed.

(** X14: [synthesizeResults] never throws and touches neither the database
    nor the response.  When the first request fails with an error that
    is not a model error, no second request is sent and the result is
    the contributions written one after the other, each as 'name:
    result'; the same text is the result when the reply has no choice.
    The result is the empty string only when there is no contribution
    at all. *)
Theorem synthesizeResults_never_throws
    (env : Oracle) (desc : string) (cs : list Contribution) (w : World) :
  let first := synthesisRequest "gpt-4o-mini" (synthesisPrompt desc cs) in
  exists out w',
    synthesizeResults env desc cs w = (Ok out, w')
    /\ db w' = db w /\ res w' = res w
    /\ (forall e, llm env (n_llm w) first = inl e -> isModelError e = false ->
                  out = synthesis_fallback cs
                  /\ llm_log w' = llm_log w ++ [first])
    /\ (forall c, llm env (n_llm w) first = inr c ->
                  llm_log w' = llm_log w ++ [first]
                  /\ out = match choices c with
                           | [] => synthesis_fallback cs
                           | ch :: _ =>
                               Js.or_else (message_content ch)
                                          "Synthesis failed"
                           end)
    /\ (out = "" -> cs = []).
Proof.
  unfold synthesizeResults, synthesizeResults_completion, first_choice,
         openai_create.
  run_M.
  assert (Hfallback : synthesis_fallback cs = "" -> cs = []).
  { destruct cs as [|c cs]; [done|].
    intros H. by apply synthesis_fallback_nonempty in H. }
  assert (Hreply : forall x, Js.or_else x "Synthesis failed" = "" -> cs = []).
  { intros x H. by apply or_else_nonempty in H. }
  destruct (llm env (n_llm w) _) as [e|c]; simpl.
  - destruct (isModelError e) eqn:Hmodel; simpl.
    + destruct (llm env (S (n_llm w)) _) as [e'|c]; simpl.
      * eexists _, _. split; [reflexivity|]. simpl.
        do 2 (split; [done|]). split; [intros ? [= <-]; congruence|].
        split; [done|]. exact Hfallback.
      * destruct (choices c); simpl;
          (eexists _, _; split; [reflexivity|]; simpl;
           do 2 (split; [done|]); split; [intros ? [= <-]; congruence|];
           split; [done|]; first [exact Hfallback | apply Hreply]).
    + eexists _, _. split; [reflexivity|]. simpl.
      do 2 (split; [done|]). split; [done|].
      split; [done|]. exact Hfallback.
  - destruct (choices c) eqn:Hc; simpl;
      (eexists _, _; split; [reflexivity|]; simpl;
       do 2 (split; [done|]); split; [done|];
       split; [intros ? [= <-]; by rewrite Hc|];
       first [exact Hfallback | apply Hreply]).
Qed.

(** ** createTeam *)

Lemma filter_none {A} (P : A -> Prop) `{!forall x, Decision (P x)}
    (l : list A) :
  (forall x, x ∈ l -> ~ P x) -> filter P l = [].
Proof.
  induction l as [|x l IH]; intros Hl; [done|].
  rewrite filter_cons_False by (apply Hl; apply list_elem_of_here).
  apply IH. intros y Hy. apply Hl. by apply list_elem_of_further.
Qed.

Lemma filter_all {A} (P : A -> Prop) `{!forall x, Decision (P x)}
    (l : list A) :
  (forall x, x ∈ l -> P x) -> filter P l = l.
Proof.
  induction l as [|x l IH]; intros Hl; [done|].
  rewrite filter_cons_True by (apply Hl; apply list_elem_of_here).
  f_equal. apply IH. intros y Hy. apply Hl. by apply list_elem_of_further.
Qed.

Lemma Forall2_right {A B} (R : A -> B -> Prop) (Q : B -> Prop)
    (l : list A) (k : list B) :
  (forall x y, R x y -> Q y) -> Forall2 R l k -> forall y, y ∈ k -> Q y.
Proof.
  intros HR. induction 1 as [|x y l k Hxy Hlk IH]; intros z Hz.
  - by apply elem_of_nil in Hz.
  - apply elem_of_cons in Hz as [->|Hz]; eauto.
Qed.

Lemma createMembers_loop (env : Oracle) (teamId : Id) (now_ : Timestamp)
    (members : list MemberInput) :
  forall (w w' : World),
    for_of members
      (fun _ member =>
         id ← randomUUID env;
         r ← mutate env
               (insert_member
                  (mkMember id teamId (mi_agentId member) (mi_role member)
                            (default false (mi_isPrimaryAgent member)) now_));
         throw_if_error r)
      tt w = (Ok tt, w') ->
    teams (db w') = teams (db w)
    /\ exists created,
         team_members (db w') = team_members (db w) ++ created
         /\ Forall2 (fun mi m =>
                       m_team_id m = teamId /\ m_agent_id m = mi_agentId mi
                       /\ m_role m = mi_role mi
                       /\ m_is_primary_agent m
                          = default false (mi_isPrimaryAgent mi)
                       /\ m_added_at m = now_)
                    members created.
Proof.
  induction members as [|mi members IH]; intros w w'; simpl.
  - intros [= <-]. split; [done|]. exists []. by rewrite app_nil_r.
  - intros Hrun.
    apply bind_inv_Ok in Hrun as ([] & w1 & Hbody & Hrun).
    apply bind_inv_Ok in Hbody as (id & w2 & Hid & Hbody).
    unfold randomUUID in Hid. injection Hid as <- <-.
    apply bind_inv_Ok in Hbody as (r & w3 & Hmut & Hthrow).
    apply throw_if_error_inv in Hthrow as [-> ->].
    apply mutate_inv in Hmut; [|done]. simpl in Hmut.
    apply IH in Hrun as (Hteams & created & Hrows & Hall).
    rewrite Hteams, Hrows, Hmut. simpl. split; [done|].
    eexists (_ :: created). rewrite <- app_assoc. split; [done|].
    constructor; [|done]. done.
Qed.

(** X15: when [createTeam] returns, it has appended one ACTIVE team row
    owned by the user, with a fresh id and the given name, and one
    member row per element of [data.members], in their order, each for
    the new team; an absent description or objective is stored as the
    empty string and an absent [isPrimaryAgent] as false.  The team
    returned has the new id; when no team had that id before, it is the
    row just written, with one member per element of [data.members]
    when no member row named that team before. *)
Theorem createTeam_inserts
    (env : Oracle) (dir : Directory) (userId : Id) (data : TeamInput)
    (w : World) (v : Team) :
  let run := createTeam env dir userId data w in
  let teamId := uuid env (n_uuid w) in
  let now_ := clock env (n_clock w) in
  let row := mkTeam teamId (ti_name data) (Js.or_else (ti_description data) "")
                    userId (Js.or_else (ti_objective data) "") "ACTIVE"
                    now_ now_ in
  run.1 = Ok v ->
  teams (db run.2) = teams (db w) ++ [row]
  /\ (exists created,
        team_members (db run.2) = team_members (db w) ++ created
        /\ Forall2 (fun mi m =>
                      m_team_id m = teamId /\ m_agent_id m = mi_agentId mi
                      /\ m_role m = mi_role mi
                      /\ m_is_primary_agent m
                         = default false (mi_isPrimaryAgent mi)
                      /\ m_added_at m = now_)
                   (ti_members data) created)
  /\ tm_id (team_row v) = teamId
  /\ ((forall t, t ∈ teams (db w) -> tm_id t <> teamId) -> team_row v = row)
  /\ ((forall m, m ∈ team_members (db w) -> m_team_id m <> teamId) ->
      length (team_members_of v) = length (ti_members data)).
Proof.
  intros run teamId now_ row H. subst run.
  destruct (createTeam env dir userId data w) as [o w'] eqn:Hrun.
  simpl in H. subst o. simpl. unfold createTeam in Hrun.
  apply bind_inv_Ok in Hrun as (teamId' & w1 & Hid & Hrun).
  unfold randomUUID in Hid. injection Hid as <- <-.
  apply bind_inv_Ok in Hrun as (now' & w2 & Hnow & Hrun).
  unfold now in Hnow. injection Hnow as <- <-.
  apply bind_mutate_throw_inv in Hrun as (w3 & Hdb3 & _ & _ & Hrun).
  apply bind_inv_Ok in Hrun as ([] & w4 & Hloop & Hrun).
  apply createMembers_loop in Hloop as (Hteams & created & Hrows & Hall).
  apply getTeamById_run in Hrun as (Hdb & Hhead & _ & Hrowid & _ & Hperm).
  simpl in *. fold teamId now_ in Hdb3, Hall, Hhead, Hperm, Hrowid |- *.
  rewrite Hdb, Hteams, Hrows, Hdb3 in *. simpl in *. fold row in Hhead |- *.
  split; [done|]. split; [by exists created|]. split; [done|]. split.
  - intros Hfresh. rewrite filter_app in Hhead.
    rewrite filter_none in Hhead
      by (intros t Ht Hid; by apply (Hfresh t)).
    simpl in Hhead. rewrite filter_cons_True in Hhead by done.
    by injection Hhead as <-.
  - intros Hfresh.
    apply Permutation_length in Hperm. rewrite !length_map in Hperm.
    rewrite Hperm, filter_app.
    rewrite filter_none by (intros m Hm Hid; by apply (Hfresh m)).
    simpl. apply Forall2_length in Hall as Hlen. rewrite Hlen. f_equal.
    apply filter_all.
    eapply (Forall2_right _ (fun m => m_team_id m = teamId));
      [|exact Hall].
    by intros ? ? [? _].
Qed.

(** ** updateTeam *)

Lemma update_where_none {A} (p : A -> bool) (f : A -> A) (l : list A) :
  (forall x, x ∈ l -> p x = false) -> update_where p f l = l.
Proof.
  unfold update_where. induction l as [|x l IH]; intros Hl; [done|].
  simpl. rewrite (Hl x) by apply list_elem_of_here. f_equal.
  apply IH. intros y Hy. apply Hl. by apply list_elem_of_further.
Qed.

Lemma db_set_teams_same (d : Db) : db_set_teams (teams d) d = d.
Proof. by destruct d. Qed.

(** X16: when [updateTeam] returns, the team rows with the given id that
    the user owns have the columns named in [data] replaced and
    [updated_at] set, and keep the other columns; every other row of
    the database is as before.  A user who owns no team of that id
    changes nothing, even when a team is returned.  A returned team
    that the user owns shows the values given. *)
Theorem updateTeam_effect
    (env : Oracle) (dir : Directory) (teamId userId : Id) (data : TeamUpdate)
    (w : World) (v : Team) :
  let run := updateTeam env dir teamId userId data w in
  let now_ := clock env (n_clock w) in
  run.1 = Ok v ->
  db run.2
  = db_set_teams
      (map (fun t => if bool_decide (tm_id t = teamId /\ tm_user_id t = userId)
                     then apply_team_update data now_ t else t)
           (teams (db w)))
      (db w)
  /\ ((forall t, t ∈ teams (db w) -> tm_id t = teamId ->
                 tm_user_id t <> userId) ->
      db run.2 = db w)
  /\ tm_id (team_row v) = teamId
  /\ (tm_user_id (team_row v) = userId ->
      tm_updated_at (team_row v) = now_
      /\ (forall x, tu_name data = Some x -> tm_name (team_row v) = x)
      /\ (forall x, tu_description data = Some x ->
                    tm_description (team_row v) = x)
      /\ (forall x, tu_objective data = Some x ->
                    tm_objective (team_row v) = x)
      /\ (forall x, tu_status data = Some x -> tm_status (team_row v) = x)).
Proof.
  intros run now_ H. subst run.
  destruct (updateTeam env dir teamId userId data w) as [o w'] eqn:Hrun.
  simpl in H. subst o. simpl. unfold updateTeam in Hrun.
  apply bind_inv_Ok in Hrun as (now' & w1 & Hnow & Hrun).
  unfold now in Hnow. injection Hnow as <- <-.
  apply bind_mutate_throw_inv in Hrun as (w2 & Hdb2 & _ & _ & Hrun).
  apply getTeamById_run in Hrun as (Hdb & _ & Hin & Hid & _).
  simpl in *. fold now_ in Hdb2.
  assert (Hrows :
    update_where (fun t => bool_decide (tm_id t = teamId)
                           && bool_decide (tm_user_id t = userId))
                 (apply_team_update data now_) (teams (db w))
    = map (fun t => if bool_decide (tm_id t = teamId /\ tm_user_id t = userId)
                    then apply_team_update data now_ t else t)
          (teams (db w))).
  { unfold update_where. apply map_ext. intros t.
    by rewrite bool_decide_and. }
  rewrite Hdb, Hdb2, Hrows in *. clear Hdb Hdb2 Hrows.
  split; [done|]. split; [|split; [done|]].
  - intros Hnone.
    assert (Hmap :
      map (fun t => if bool_decide (tm_id t = teamId /\ tm_user_id t = userId)
                    then apply_team_update data now_ t else t)
          (teams (db w))
      = teams (db w)).
    { rewrite <- (map_id (teams (db w))) at 2.
      apply map_ext_in. intros t Ht%list_elem_of_In.
      case_bool_decide as Hown; [|done].
      destruct Hown as [Ht1 Ht2]. by destruct (Hnone t Ht Ht1). }
    rewrite Hmap. apply db_set_teams_same.
  - intros Hown. simpl in Hin.
    apply list_elem_of_fmap in Hin as (t & Hv & Ht).
    case_bool_decide as Ht'.
    + rewrite Hv. simpl. split; [done|].
      repeat split; intros x Hx; by rewrite Hx.
    + subst t. destruct Ht'. done.
Qed.

(** ** addTeamMember and removeTeamMember *)

Lemma getTeamById_reads_only (env : Oracle) (dir : Directory)
    (teamId userId : Id) :
  reads_only (getTeamById env dir teamId userId).
Proof.
  unfold reads_only, getTeamById, getTeamMembers, teamNotFound. db_step_go.
Qed.

(** X17: [addTeamMember] appends exactly one row to [team_members], for the
    given team and agent and with a fresh id, and only for a user who
    may view the team; whenever it throws, the database is as
    before. *)
Theorem addTeamMember_effect
    (env : Oracle) (dir : Directory) (teamId userId : Id)
    (data : AddMemberInput) (w : World) :
  let run := addTeamMember env dir teamId userId data w in
  match run.1 with
  | Ok _ =>
      (exists team,
         head (filter (fun t => tm_id t = teamId) (teams (db w))) = Some team
         /\ may_view_team dir (db w) team userId)
      /\ exists id added,
           db run.2
           = insert_member
               (mkMember id teamId (am_agentId data) (am_role data)
                         (default false (am_isPrimaryAgent data)) added)
               (db w)
  | Throw _ => db run.2 = db w
  end.
Proof.
  simpl. unfold addTeamMember, mbind, M_bind, bind.
  pose proof (getTeamById_reads_only env dir teamId userId w) as Hread.
  destruct (getTeamById env dir teamId userId w) as [[v|e] w1] eqn:Hget;
    simpl in Hread; [|done].
  apply getTeamById_run in Hget as (_ & Hhead & _ & _ & Hview & _).
  unfold randomUUID, now, mutate, supabase, throw_if_error. simpl.
  destruct (db_error env (n_db w1)); simpl; [done|].
  split; [by eauto|]. eexists _, _. by rewrite <- Hread.
Qed.

(** X18: [removeTeamMember] removes the member rows with the given id in
    the given team, and no other row, and only for a user who may view
    the team; whenever it throws, the database is as before. *)
Theorem removeTeamMember_effect
    (env : Oracle) (dir : Directory) (teamId userId memberId : Id)
    (w : World) :
  let run := removeTeamMember env dir teamId userId memberId w in
  match run.1 with
  | Ok _ =>
      (exists team,
         head (filter (fun t => tm_id t = teamId) (teams (db w))) = Some team
         /\ may_view_team dir (db w) team userId)
      /\ db run.2
         = db_set_members
             (filter (fun m => ~ (m_id m = memberId /\ m_team_id m = teamId))
                     (team_members (db w)))
             (db w)
  | Throw _ => db run.2 = db w
  end.
Proof.
  simpl. unfold removeTeamMember, mbind, M_bind, bind.
  pose proof (getTeamById_reads_only env dir teamId userId w) as Hread.
  destruct (getTeamById env dir teamId userId w) as [[v|e] w1] eqn:Hget;
    simpl in Hread; [|done].
  apply getTeamById_run in Hget as (_ & Hhead & _ & _ & Hview & _).
  unfold mutate, supabase, throw_if_error. simpl.
  destruct (db_error env (n_db w1)); simpl; [done|].
  split; [by eauto|]. by rewrite <- Hread.
Qed.

(** ** deleteTask *)

Lemma getTaskById_head (env : Oracle) (taskId userId : Id) (w w' : World)
    (v : TaskView) :
  getTaskById env taskId userId w = (Ok v, w') ->
  db w' = db w
  /\ head (filter (fun t => t_id t = taskId) (collaborative_tasks (db w)))
     = Some (tv_task v).
Proof.
  intros Hrun. split.
  { symmetry. eapply (db_step_run eq); [|exact Hrun].
    apply getTaskById_reads_only. }
  unfold getTaskById in Hrun.
  apply bind_select_throw_inv in Hrun as (w1 & Hdb1 & Hrun).
  destruct (filter _ _) as [|task rest]; [done|].
  apply bind_select_inv in Hrun as (r & w2 & Hdb2 & _ & Hrun).
  apply bind_inv_Ok in Hrun as ([] & w3 & Hacc & Hrun).
  apply bind_select_throw_inv in Hrun as (w4 & _ & Hrun).
  apply bind_select_throw_inv in Hrun as (w5 & _ & Hrun).
  apply bind_select_throw_inv in Hrun as (w6 & _ & Hrun).
  unfold ret in Hrun. by injection Hrun as <- <-.
Qed.

(** X19: [deleteTask] deletes only for the owner of the task: when the
    first task row of that id is not owned by the user, or there is
    none, it throws and the database is as before.  When it returns,
    the assignment and attachment rows of the task and the task rows of
    that id owned by the user are gone, and every other row is kept in
    place.  The three deletions are not one transaction: a run that
    throws may have deleted the assignments, or the assignments and the
    attachments, while the task row is still there. *)
Theorem deleteTask_effect
    (env : Oracle) (taskId userId : Id) (w : World) :
  let run := deleteTask env taskId userId w in
  let d := db w in
  let d1 := db_set_assignments
              (filter (fun a => a_task_id a <> taskId) (task_assignments d))
              d in
  let d2 := db_set_attachments
              (filter (fun a => at_task_id a <> taskId) (task_attachments d))
              d1 in
  let d3 := db_set_tasks
              (filter (fun t => ~ (t_id t = taskId /\ t_user_id t = userId))
                      (collaborative_tasks d))
              d2 in
  match run.1 with
  | Ok _ =>
      db run.2 = d3
      /\ exists task,
           head (filter (fun t => t_id t = taskId) (collaborative_tasks d))
           = Some task
           /\ t_user_id task = userId
  | Throw _ =>
      (db run.2 = d \/ db run.2 = d1 \/ db run.2 = d2)
      /\ ((forall task,
             head (filter (fun t => t_id t = taskId) (collaborative_tasks d))
             = Some task ->
             t_user_id task <> userId) ->
          db run.2 = d)
  end
  /\ ((forall task,
         head (filter (fun t => t_id t = taskId) (collaborative_tasks d))
         = Some task ->
         t_user_id task <> userId) ->
      exists e, run.1 = Throw e).
Proof.
  simpl. unfold deleteTask, mbind, M_bind, bind.
  destruct (getTaskById env taskId userId w) as [[v|e] w1] eqn:Hget.
  2:{ pose proof (getTaskById_reads_only env taskId userId w) as Hread.
      rewrite Hget in Hread. simpl in *. by eauto. }
  apply getTaskById_head in Hget as [Hdb Hhead].
  case_bool_decide as Hown; simpl.
  2:{ split; [|by eauto]. split; [by left|done]. }
  unfold mutate, supabase, throw_if_error. simpl.
  destruct (db_error env (n_db w1)); simpl.
  { split; [|intros Hno; by destruct (Hno _ Hhead)].
    split; [by left|done]. }
  destruct (db_error env (S (n_db w1))); simpl.
  { split; [|intros Hno; by destruct (Hno _ Hhead)].
    rewrite Hdb. split; [by right; left|].
    intros Hno; by destruct (Hno _ Hhead). }
  destruct (db_error env (S (S (n_db w1)))); simpl.
  { split; [|intros Hno; by destruct (Hno _ Hhead)].
    rewrite Hdb. split; [by right; right|].
    intros Hno; by destruct (Hno _ Hhead). }
  split; [|intros Hno; by destruct (Hno _ Hhead)].
  rewrite Hdb. split; [done|by eauto].
Qed.

(** ** getTasksByTeam *)

(** A select with the number of the request that it makes. *)
Lemma select_inv_numbered (env : Oracle) {A} (q : Db -> A) (w w' : World)
    (r : JsError + A) :
  select env q w = (Ok r, w') ->
  r = match db_error env (n_db w) with
      | Some e => inl e
      | None => inr (q (db w))
      end
  /\ db w' = db w /\ n_db w' = S (n_db w).
Proof.
  unfold select, supabase. destruct (db_error env (n_db w)); simpl;
    intros; by simplify_eq.
Qed.

Lemma bind_select_throw_inv_numbered (env : Oracle) {A B} (q : Db -> A)
    (k : A -> M B) (w w' : World) (b : B) :
  (select env q ≫= fun r => throw_if_error r ≫= k) w = (Ok b, w') ->
  exists w1, db w1 = db w /\ n_db w1 = S (n_db w)
             /\ db_error env (n_db w) = None
             /\ k (q (db w)) w1 = (Ok b, w').
Proof.
  intros (r & w1 & Hsel & Hk)%bind_inv_Ok.
  apply select_inv_numbered in Hsel as (Hr & Hdb & Hn).
  apply bind_inv_Ok in Hk as (a & w2 & Hthrow & Hk).
  apply throw_if_error_inv in Hthrow as [-> ->].
  exists w1. destruct (db_error env (n_db w)); [done|].
  by simplify_eq.
Qed.

(** The loop of [getTasksByTeam] makes three requests for each task: the
    count of the family, the assignments and the members of the team. *)
Lemma getTasksByTeam_loop (env : Oracle) (teamId : Id) (tasks : list TaskRow) :
  forall (acc items : list TaskListItem) (w w' : World),
    for_of tasks
      (fun acc task =>
         r ← select env (count_versions (t_id task));
         let versionCount := match r with inr n => n | inl _ => 0%nat end in
         r ← select env (select_assignments (t_id task));
         assignments ← throw_if_error r;
         r ← select env (select_team_members teamId);
         teamMembers ← throw_if_error r;
         let roles := agentRoleMap teamMembers in
         ret (acc ++ [mkTaskListItem task versionCount
                                     (map (assignment_view roles) assignments)])%list)
      acc w = (Ok items, w') ->
    db w' = db w
    /\ n_db w' = n_db w + 3 * length tasks
    /\ exists new,
         items = acc ++ new
         /\ map tl_task new = tasks
         /\ (forall i it,
               new !! i = Some it ->
               tl_versionCount it
               = match db_error env (n_db w + 3 * i) with
                 | None => count_versions (t_id (tl_task it)) (db w)
                 | Some _ => 0
                 end
               /\ db_error env (n_db w + 3 * i + 1) = None
               /\ db_error env (n_db w + 3 * i + 2) = None)
         /\ Forall (fun it =>
                      tl_assignments it
                      = map (assignment_view
                               (agentRoleMap
                                  (select_team_members teamId (db w))))
                            (select_assignments (t_id (tl_task it)) (db w)))
                   new.
Proof.
  induction tasks as [|task tasks IH]; intros acc items w w'; simpl.
  - intros [= <- <-]. split; [done|]. split; [lia|].
    exists []. rewrite app_nil_r. split; [done|]. split; [done|].
    split; [intros i it Hi; by rewrite lookup_nil in Hi|constructor].
  - intros Hrun.
    apply bind_inv_Ok in Hrun as (acc' & w1 & Hbody & Hrun).
    apply bind_inv_Ok in Hbody as (r & w2 & Hsel & Hbody).
    apply select_inv_numbered in Hsel as (Hr & Hdb2 & Hn2).
    apply bind_select_throw_inv_numbered in Hbody
      as (w3 & Hdb3 & Hn3 & He3 & Hbody).
    apply bind_select_throw_inv_numbered in Hbody
      as (w4 & Hdb4 & Hn4 & He4 & Hbody).
    unfold ret in Hbody. injection Hbody as <- <-.
    apply IH in Hrun as (Hdb & Hn & new & -> & Htasks & Hcount & Hall).
    rewrite Hn3, Hn2 in *.
    rewrite Hdb4, Hdb3, Hdb2 in *. split; [done|]. split; [lia|].
    eexists (_ :: new). rewrite <- app_assoc. split; [done|].
    split; [simpl; by rewrite Htasks|]. split.
    + intros [|i] it Hi; simpl in Hi.
      * injection Hi as <-. simpl.
        replace (n_db w + 0) with (n_db w) by lia.
        replace (n_db w + 1) with (S (n_db w)) by lia.
        replace (n_db w + 2) with (S (S (n_db w))) by lia.
        split; [|done]. rewrite Hr. by destruct (db_error env (n_db w)).
      * specialize (Hcount i it Hi). rewrite Hn4 in Hcount.
        match goal with
        | |- context [db_error env (?n + 1)] =>
            replace n with (S (S (S (n_db w))) + 3 * i) by lia
        end.
        exact Hcount.
    + constructor; [|done]. done.
Qed.

(** X20: [getTasksByTeam] answers only a user who may view the team.  It
    lists the root tasks of the team, whoever created them, and no
    version; newest first; each with its assignment rows in ascending
    [execution_order], each showing the role of its agent in the team.
    After the check of the access and the selection of the tasks it
    makes three requests for each task, the first of which counts the
    rows of the family of the task: the task is listed with that number
    when this request is answered, with 0 exactly when it fails, and the
    two other requests are answered. *)
Theorem getTasksByTeam_listing
    (env : Oracle) (dir : Directory) (teamId userId : Id) (w : World)
    (items : list TaskListItem) :
  fst (getTasksByTeam env dir teamId userId w) = Ok items ->
  let first := S (n_db (snd (verifyTeamAccess env dir teamId userId w))) in
  (exists team,
     filter (fun t => tm_id t = teamId) (teams (db w)) = [team]
     /\ may_view_team dir (db w) team userId)
  /\ map tl_task items
     ≡ₚ filter (fun t => t_team_id t = teamId /\ t_parent_task_id t = None)
               (collaborative_tasks (db w))
  /\ StronglySorted (fun a b => t_created_at b <= t_created_at a)
                    (map tl_task items)
  /\ n_db (snd (getTasksByTeam env dir teamId userId w))
     = first + 3 * length items
  /\ (forall i it,
        items !! i = Some it ->
        tl_versionCount it
        = match db_error env (first + 3 * i) with
          | None => count_versions (t_id (tl_task it)) (db w)
          | Some _ => 0
          end
        /\ db_error env (first + 3 * i + 1) = None
        /\ db_error env (first + 3 * i + 2) = None)
  /\ Forall (fun it =>
               map av_row (tl_assignments it)
               ≡ₚ filter (fun a => a_task_id a = t_id (tl_task it))
                         (task_assignments (db w))
               /\ StronglySorted
                    (fun a b => a_execution_order (av_row a)
                                <= a_execution_order (av_row b))
                    (tl_assignments it)
               /\ Forall (fun a =>
                            av_role a
                            = shown_role (select_team_members teamId (db w))
                                         (a_agent_id (av_row a)))
                         (tl_assignments it))
            items.
Proof.
  intros H first. subst first.
  destruct (getTasksByTeam env dir teamId userId w) as [o w'] eqn:Hrun.
  simpl in H. subst o. unfold getTasksByTeam in Hrun.
  apply bind_inv_Ok in Hrun as ([] & w1 & Hacc & Hrun).
  rewrite Hacc. simpl.
  apply verifyTeamAccess_run in Hacc as [Hdb1 Hteam].
  apply bind_select_throw_inv_numbered in Hrun as (w2 & Hdb2 & Hn2 & _ & Hrun).
  apply getTasksByTeam_loop
    in Hrun as (_ & Hn & new & -> & Htasks & Hcount & Hall).
  rewrite Hdb2, Hdb1, Hn2 in *. simpl. split; [done|]. rewrite Htasks.
  split; [apply order_by_perm|]. split.
  { apply StronglySorted_impl
      with (R := fun a b => (t_created_at b <=? t_created_at a)%nat = true);
      [intros a b; apply Nat.leb_le|].
    apply (order_by_sorted
             (fun a b => (t_created_at b <=? t_created_at a)%nat)).
    - intros a b. rewrite !Nat.leb_le. lia.
    - intros a b c. rewrite !Nat.leb_le. lia. }
  split.
  { rewrite Hn, <- Htasks, length_map. done. }
  split; [exact Hcount|].
  eapply Forall_impl; [exact Hall|]. simpl.
  intros it ->.
  destruct (select_assignments_sorted (t_id (tl_task it)) (db w))
    as [Hperm Hsorted].
  split; [by rewrite map_map|]. split.
  { apply StronglySorted_map
      with (R := fun a b => a_execution_order (av_row a)
                            <= a_execution_order (av_row b)).
    exact Hsorted. }
  apply Forall_forall. intros a (x & -> & _)%list_elem_of_fmap. simpl.
  apply role_of_shown.
Qed.

(** The count of a family, run: the task of two rows is listed with 2
    when the count is answered and with 0 when it fails. *)
Lemma failed_count_is_listed_as_zero :
  let listed (env : Oracle) :=
    match fst (getTasksByTeam env Sharing.dir0 "team-1" "alice"
                              (initial_world Sharing.db_shared)) with
    | Ok items => Some (map (fun it => (t_id (tl_task it), tl_versionCount it))
                            items)
    | Throw _ => None
    end in
  listed Scenario.calm = Some [("task-1", 2)]
  /\ listed Failing.third_request_fails = Some [("task-1", 0)].
Proof. split; vm_compute; reflexivity. Qed.

(** ** getTaskWithVersions *)


(** ** The TaskResults page *)

Lemma press_app (feedback : Z) (l1 l2 : list Z) :
  press feedback (l1 ++ l2)
  = ((press (press feedback l1).1 l2).1,
     (press feedback l1).2 ++ (press (press feedback l1).1 l2).2).
Proof.
  revert feedback. induction l1 as [|v l1 IH]; intros feedback; simpl.
  - by destruct (press feedback l2).
  - set (feedback' := if bool_decide (feedback = v) then 0%Z else v).
    rewrite IH.
    destruct (press feedback' l1) as [f1 p1]. simpl.
    destruct (press f1 l2) as [f2 p2]. simpl.
    by destruct (bool_decide (feedback' <> 0%Z)).
Qed.

(** X22: whatever buttons are pressed one after the other, the page never
    posts the value 0; when the last press leaves a vote selected, that
    vote is the last value posted; and pressing the selected button
    again clears the selection without posting anything, so the vote
    posted last stays stored. *)
Theorem press_never_posts_cleared (feedback : Z) (values : list Z) :
  let final := (press feedback values).1 in
  let posted := (press feedback values).2 in
  Forall (fun p => p <> 0%Z) posted
  /\ (values <> [] -> final <> 0%Z -> last posted = Some final)
  /\ press feedback (values ++ [final]) = (0%Z, posted).
Proof.
  simpl. split; [|split].
  - revert feedback. induction values as [|v values IH]; intros feedback;
      simpl; [constructor|].
    unfold handleFeedback.
    specialize (IH (if bool_decide (feedback = v) then 0%Z else v)).
    destruct (press _ values) as [f p]. simpl in *.
    case_bool_decide; [|done]. by constructor.
  - induction values as [|v values _] using rev_ind; [done|].
    intros _. rewrite press_app. simpl. unfold handleFeedback. simpl.
    set (final := if bool_decide ((press feedback values).1 = v)
                  then 0%Z else v).
    intros Hfinal. rewrite bool_decide_eq_true_2 by done.
    by rewrite last_snoc.
  - rewrite press_app. simpl. unfold handleFeedback.
    rewrite bool_decide_eq_true_2 by done. simpl.
    by rewrite app_nil_r.
Qed.

Lemma filter_index_past {A} (l : list A) :
  forall k n, k < n -> filter_index (fun j => negb (j =? k)%nat) n l = l.
Proof.
  induction l as [|x l IH]; intros k n Hn; [done|].
  cbn [filter_index].
  destruct (Nat.eqb_spec n k) as [->|_]; [lia|].
  cbn [negb]. f_equal. apply IH. lia.
Qed.

Lemma filter_index_delete {A} (l : list A) :
  forall k i,
    filter_index (fun j => negb (j =? k + i)%nat) k l = delete i l.
Proof.
  induction l as [|x l IH]; intros k i; [done|].
  cbn [filter_index].
  destruct (Nat.eqb_spec k (k + i)) as [Hk|Hk]; cbn [negb].
  - assert (i = 0) as -> by lia. rewrite Nat.add_0_r.
    apply filter_index_past. lia.
  - destruct i as [|i]; [lia|]. cbn [delete list_delete]. f_equal.
    replace (k + S i) with (S k + i) by lia. exact (IH (S k) i).
Qed.

(** X23: [removeFile(index)] removes the file at that position and keeps
    the others in their order; an index past the end of the list
    removes nothing. *)
Theorem removeFile_deletes_one {A} (versionFiles : list A) (index : nat) :
  removeFile versionFiles index = delete index versionFiles
  /\ (index < length versionFiles ->
      S (length (removeFile versionFiles index)) = length versionFiles)
  /\ (length versionFiles <= index ->
      removeFile versionFiles index = versionFiles).
Proof.
  assert (H : removeFile versionFiles index = delete index versionFiles)
    by apply (filter_index_delete versionFiles 0 index).
  split; [done|]. rewrite H. split.
  - intros Hlt. rewrite length_delete; [lia|]. by apply lookup_lt_is_Some_2.
  - intros Hge. rewrite delete_take_drop.
    rewrite take_ge by done. rewrite drop_ge by lia. apply app_nil_r.
Qed.

(** ** The attachments of an execution *)

(** X24: of the attachments of a task, those whose type starts with
    'image/' and whose file can be read are sent as images, with the
    content of their file, and the others that are not images are
    listed as documents, both in the order of the attachments; an
    image whose file is missing or cannot be read is dropped: it is
    neither sent nor listed. *)
Theorem processAttachments_partition
    (fs_ : string -> FsEntry) (attachments : list AttachmentRow) :
  let images := (processAttachments fs_ attachments).1 in
  let documents := (processAttachments fs_ attachments).2 in
  map img_filename images
  = map at_original_file_name
        (filter (fun a => image_read fs_ a = true) attachments)
  /\ Forall2 (fun img a => fs_ (at_file_path a) = FsFile (img_base64 img))
             images (filter (fun a => image_read fs_ a = true) attachments)
  /\ documents
     = map document_line (filter (fun a => is_image a = false) attachments)
  /\ length images + length documents
     = length (filter (fun a => is_image a = false \/ image_read fs_ a = true)
                      attachments).
Proof.
  simpl. induction attachments as [|att rest IH]; simpl.
  { split; [done|]. split; [constructor|]. done. }
  destruct (processAttachments fs_ rest) as [images documents].
  destruct IH as (Himg & Hread & Hdoc & Hlen). simpl in *.
  destruct (is_image att) eqn:Himage;
    [destruct (fs_ (at_file_path att)) eqn:Hfs|]; simpl.
  1,2: rewrite (filter_cons_False (fun a => image_read fs_ a = true))
         by (unfold image_read; rewrite Himage, Hfs; done);
       rewrite (filter_cons_False (fun a => is_image a = false))
         by (rewrite Himage; done);
       rewrite (filter_cons_False
                  (fun a => is_image a = false \/ image_read fs_ a = true))
         by (unfold image_read; rewrite Himage, Hfs; intros [?|?]; done);
       done.
  - rewrite (filter_cons_True (fun a => image_read fs_ a = true))
      by (unfold image_read; rewrite Himage, Hfs; done).
    rewrite (filter_cons_False (fun a => is_image a = false))
      by (rewrite Himage; done).
    rewrite (filter_cons_True
               (fun a => is_image a = false \/ image_read fs_ a = true))
      by (unfold image_read; rewrite Himage, Hfs; by right).
    simpl. split; [by rewrite Himg|]. split; [by constructor|].
    split; [done|]. by rewrite Hlen.
  - rewrite (filter_cons_False (fun a => image_read fs_ a = true))
      by (unfold image_read; rewrite Himage; done).
    rewrite (filter_cons_True (fun a => is_image a = false)) by done.
    rewrite (filter_cons_True
               (fun a => is_image a = false \/ image_read fs_ a = true))
      by (by left).
    simpl. split; [done|]. split; [done|]. split; [by rewrite Hdoc|].
    rewrite Nat.add_succ_r. by rewrite Hlen.
Qed.

(** ** recordTaskFeedback: who may rate *)

(** X25: [recordTaskFeedback] returns only when exactly one task has the
    id and the user owns it, or owns its team, or holds an approved
    share of an agent that is a member of its team; the only change is
    then the feedback of the task rows of that id. *)
Theorem recordTaskFeedback_access_control
    (env : Oracle) (taskId userId : Id) (feedback : Z) (w : World) :
  fst (recordTaskFeedback env taskId userId feedback w) = Ok tt ->
  exists task,
    filter (fun t => t_id t = taskId) (collaborative_tasks (db w)) = [task]
    /\ may_rate_task (db w) task userId
    /\ db (snd (recordTaskFeedback env taskId userId feedback w))
       = db_set_tasks
           (update_where (fun t => bool_decide (t_id t = taskId))
                         (task_set_feedback feedback)
                         (collaborative_tasks (db w)))
           (db w).
Proof.
  unfold recordTaskFeedback, unauthorized, select_shared_access. run_M.
  destruct (db_error env (n_db w)) as [e0|] eqn:H0; simpl; [done|].
  destruct (single _) as [e1|task] eqn:Hsingle; simpl; [done|].
  apply single_elem in Hsingle.
  destruct (bool_decide (t_user_id task = userId)) eqn:Hown; simpl.
  { destruct (db_error env (S (n_db w))); simpl; [done|].
    intros _. exists task. split; [done|]. split; [|done].
    left. by apply bool_decide_eq_true in Hown. }
  destruct (List.find _ _) as [team|] eqn:Hfind; simpl; [|done].
  apply find_some in Hfind as [Hteam Hteamid].
  apply list_elem_of_In in Hteam. apply bool_decide_eq_true in Hteamid.
  destruct (bool_decide (Some (tm_user_id team) = Some userId)) eqn:Hteamown;
    simpl.
  { destruct (db_error env (S (n_db w))); simpl; [done|].
    intros _. exists task. split; [done|]. split; [|done].
    right. exists team. split; [done|]. split; [done|]. left.
    apply bool_decide_eq_true in Hteamown. congruence. }
  destruct (map m_agent_id _) as [|a ids] eqn:Hids; simpl; [done|].
  destruct (db_error env (S (n_db w))); simpl; [done|].
  destruct (head _) as [s|] eqn:Hhead; simpl; [|done].
  destruct (db_error env (S (S (n_db w)))); simpl; [done|].
  intros _. exists task. split; [done|]. split; [|done].
  right. exists team. split; [done|]. split; [done|]. right.
  apply elem_of_head, list_elem_of_filter in Hhead
    as [(Hty & Hid & Hreq & Hst) Hs].
  rewrite <- Hids in Hid.
  apply list_elem_of_fmap in Hid as (m & Hm & Hmin).
  apply list_elem_of_filter in Hmin as [Hmteam Hmin].
  exists m, s. done.
Qed.

Lemma recordTaskFeedback_access_control_witness :
  exists task,
    filter (fun t => t_id t = "task-1")
           (collaborative_tasks (db (initial_world Sharing.db_shared)))
    = [task]
    /\ may_rate_task (db (initial_world Sharing.db_shared)) task "bob".
Proof.
  edestruct (recordTaskFeedback_access_control Scenario.calm "task-1" "bob"
               1%Z (initial_world Sharing.db_shared))
    as (task & Hone & Hmay & _); [vm_compute; reflexivity|].
  exists task. split; [exact Hone|exact Hmay].
Defined.

(** ** createCollaborativeTask: the task row is written first *)

Lemma run_bind {A B} (m : M A) (k : A -> M B) (w : World) :
  (m ≫= k) w
  = match m w with
    | (Ok a, w1) => k a w1
    | (Throw e, w1) => (Throw e, w1)
    end.
Proof. reflexivity. Qed.

Lemma getTaskById_reads_only_tasks (env : Oracle) (taskId userId : Id) :
  db_step tasks_unchanged (getTaskById env taskId userId).
Proof. apply reads_only_db_step; [apply _|apply getTaskById_reads_only]. Qed.

(** X26: [createCollaborativeTask] checks neither that the team exists nor
    that the user may view it before it writes: when the task is not a
    version and the first request succeeds, a PENDING task row of the
    given team and user is appended, and it stays there whatever
    happens next, also when the method throws. *)
Theorem createCollaborativeTask_writes_first
    (env : Oracle) (teamId userId : Id) (data : TaskInput) (w : World) :
  truthy (in_parentTaskId data) = None ->
  db_error env (n_db w) = None ->
  exists row,
    collaborative_tasks
      (db (createCollaborativeTask env teamId userId data w).2)
    = collaborative_tasks (db w) ++ [row]
    /\ t_id row = uuid env (n_uuid w)
    /\ t_team_id row = teamId /\ t_user_id row = userId
    /\ t_status row = "PENDING" /\ t_version_number row = 1%Z.
Proof.
  intros Hparent Hdb. unfold createCollaborativeTask. rewrite Hparent.
  rewrite run_bind. cbn [randomUUID].
  rewrite run_bind. cbn [now].
  rewrite run_bind. cbn [mret M_ret ret].
  rewrite run_bind. unfold mutate at 1, supabase at 1. cbn [db n_db].
  rewrite Hdb. cbn [fst snd].
  rewrite run_bind. cbn [throw_if_error mret M_ret ret].
  match goal with
  | |- context [(?m ≫= ?k) ?w0] =>
      assert (Hrest : db_step tasks_unchanged (m ≫= k));
      [|specialize (Hrest w0)]
  end.
  { unfold generateSubtasks, generateSubtasks_completion.
    db_step_go.
    all: first [ apply getTaskById_reads_only_tasks
               | apply db_step_mutate; [apply _|]; by intros d ]. }
  eexists. unfold tasks_unchanged in Hrest. rewrite Hrest. simpl.
  split; [reflexivity|]. done.
Qed.

(** ** The properties at work in the two deployments *)

Lemma getTaskById_access_control_witness :
  exists v,
    fst (getTaskById Scenario.calm "task-1" "bob"
                     (initial_world Sharing.db_shared)) = Ok v
    /\ may_view_task Sharing.db_shared (tv_task v) "bob".
Proof.
  eexists. split; [vm_compute; reflexivity|].
  apply (getTaskById_access_control Scenario.calm "task-1" "bob"
                                    (initial_world Sharing.db_shared)).
  vm_compute. reflexivity.
Defined.

Lemma getTaskById_view_witness :
  exists v,
    fst (getTaskById Scenario.calm "task-1" "bob"
                     (initial_world Sharing.db_shared)) = Ok v
    /\ map av_row (tv_assignments v)
       ≡ₚ filter (fun a => a_task_id a = "task-1")
                 (task_assignments Sharing.db_shared)
    /\ tv_canEdit v = 1%Z.
Proof.
  eexists. split; [vm_compute; reflexivity|].
  edestruct (getTaskById_view Scenario.calm "task-1" "bob"
                              (initial_world Sharing.db_shared))
    as (Hrows & _ & _ & _ & Hedit); [vm_compute; reflexivity|].
  split; [exact Hrows|exact Hedit].
Defined.


Lemma getTeamsByUser_listing_witness :
  exists listing,
    fst (getTeamsByUser Scenario.calm "alice" (initial_world Scenario.db0))
    = Ok listing
    /\ map team_row listing ≡ₚ active_teams_of "alice" Scenario.db0.
Proof.
  eexists. split; [vm_compute; reflexivity|].
  apply (getTeamsByUser_listing Scenario.calm "alice"
                                (initial_world Scenario.db0)).
  vm_compute. reflexivity.
Defined.

Lemma verifyTeamAccess_sound_witness :
  exists team,
    filter (fun t => tm_id t = "team-1") (teams Sharing.db_shared) = [team]
    /\ may_view_team Sharing.dir0 Sharing.db_shared team "carol".
Proof.
  apply (verifyTeamAccess_sound Scenario.calm Sharing.dir0 "team-1" "carol"
                                (initial_world Sharing.db_shared)).
  vm_compute. reflexivity.
Defined.

Lemma getTeamById_sound_witness :
  exists v,
    fst (getTeamById Scenario.calm Sharing.dir0 "team-1" "bob"
                     (initial_world Sharing.db_shared)) = Ok v
    /\ may_view_team Sharing.dir0 Sharing.db_shared (team_row v) "bob".
Proof.
  eexists. split; [vm_compute; reflexivity|].
  apply (getTeamById_sound Scenario.calm Sharing.dir0 "team-1" "bob"
                           (initial_world Sharing.db_shared)).
  vm_compute. reflexivity.
Defined.

Lemma executeCollaborativeTask_complete_event_witness :
  last (res_events
          (res (executeCollaborativeTask Scenario.calm "task-1" "alice"
                  (initial_world Scenario.db0)).2))
  = Some ("complete", DataComplete "ok")
  /\ length (agent_contributions
               (db (executeCollaborativeTask Scenario.calm "task-1" "alice"
                      (initial_world Scenario.db0)).2))
     = length (agent_contributions (db (initial_world Scenario.db0)))
       + length (assignment_ids "task-1" (db (initial_world Scenario.db0))).
Proof.
  split; [vm_compute; reflexivity|].
  edestruct (executeCollaborativeTask_complete_event Scenario.calm "task-1"
               "alice" (initial_world Scenario.db0) "ok")
    as (_ & _ & _ & Hlen); [vm_compute; reflexivity|].
  exact Hlen.
Defined.

Lemma createTeam_inserts_witness :
  exists v,
    (createTeam Scenario.calm Sharing.dir0 "alice" Sharing.new_team
                (initial_world Scenario.db0)).1 = Ok v
    /\ tm_id (team_row v) = "uuid-0".
Proof.
  eexists. split; [vm_compute; reflexivity|].
  apply (createTeam_inserts Scenario.calm Sharing.dir0 "alice"
                            Sharing.new_team (initial_world Scenario.db0)).
  vm_compute. reflexivity.
Defined.

Lemma updateTeam_effect_witness :
  exists v,
    (updateTeam Scenario.calm Sharing.dir0 "team-1" "alice" Sharing.rename
                (initial_world Scenario.db0)).1 = Ok v
    /\ tm_id (team_row v) = "team-1".
Proof.
  eexists. split; [vm_compute; reflexivity|].
  apply (updateTeam_effect Scenario.calm Sharing.dir0 "team-1" "alice"
                           Sharing.rename (initial_world Scenario.db0)).
  vm_compute. reflexivity.
Defined.

Lemma getTasksByTeam_listing_witness :
  exists items,
    fst (getTasksByTeam Scenario.calm Sharing.dir0 "team-1" "carol"
                        (initial_world Sharing.db_shared)) = Ok items
    /\ map tl_task items
       ≡ₚ filter (fun t => t_team_id t = "team-1" /\ t_parent_task_id t = None)
                 (collaborative_tasks Sharing.db_shared).
Proof.
  eexists. split; [vm_compute; reflexivity|].
  apply (getTasksByTeam_listing Scenario.calm Sharing.dir0 "team-1" "carol"
                                (initial_world Sharing.db_shared)).
  vm_compute. reflexivity.
Defined.


Lemma createCollaborativeTask_writes_first_witness :
  exists row,
    collaborative_tasks
      (db (createCollaborativeTask Scenario.calm "team-9" "mallory"
             Scenario.new_task (initial_world Scenario.db0)).2)
    = collaborative_tasks (db (initial_world Scenario.db0)) ++ [row]
    /\ t_team_id row = "team-9".
Proof.
  edestruct (createCollaborativeTask_writes_first Scenario.calm "team-9"
               "mallory" Scenario.new_task (initial_world Scenario.db0))
    as (row & Hrows & _ & Hteam & _); [reflexivity|reflexivity|].
  exists row. split; [exact Hrows|exact Hteam].
Defined.
